(** * Podcast speaker separation: a shallow embedding of
    [podcast_audio_segmentation.py] and the properties of its
    timeline reconstruction, segment extraction, archiving and stereo mix.

    The class [PodcastSpeakerSeparator] is embedded method by method.  The
    object's fields, the file system, the console and the list of external
    [ffmpeg] invocations form an explicit state that every method threads
    through; Python exceptions are the [Raise] results of an error monad.

    What lies outside the repository is modelled as follows.
    - Python numbers: [int] is [Z]; [float] (and pandas [float64]) is Rocq's
      primitive binary64 float, so that [int(row['start'] * 1000)] and the
      arithmetic of pydub below are computed bit for bit, with the exceptions
      CPython raises ([OverflowError], [ZeroDivisionError], [ValueError]).
    - pydub's [AudioSegment] is a frame rate and a list of frames, one per
      sampling instant, a silent frame being [0].  [len], slicing and
      [silent] convert between milliseconds and frames as pydub does:
      [len] rounds to the nearest millisecond, a slice position and the
      length of a silence are truncated to whole frames, and a slice that
      would need more than two missing frames raises.  The number of channels
      and the sample width are not modelled: [+] widens the narrower operand
      frame by frame, which keeps the number of frames and keeps silence
      silent.  Neither is [MemoryError], which any allocation may raise: a
      segment within CPython's size limit is taken to fit in memory.
    - [ffmpeg], [glob.glob], the failures of [os.remove] and the outcome of
      writing a WAV file are oracles: variables of the section, about which
      nothing is assumed beyond what a theorem states as a hypothesis. *)

From Stdlib Require Import ZArith List String Ascii Bool Lia.
From Stdlib Require Import PrimFloat FloatOps SpecFloat FloatAxioms.
From stdpp Require Import gmap strings pretty.

Local Open Scope string_scope.
Local Open Scope list_scope.
Local Open Scope Z_scope.

(** ** Exceptions and results *)

Inductive exn : Type :=
| ValueError (message : string)
| OverflowError
| ZeroDivisionError
| FileNotFoundError (path : string)
| CouldntDecodeError
| TooManyMissingFrames
| CalledProcessError.

Inductive result (A : Type) : Type :=
| Ret (a : A)
| Raise (e : exn).

Arguments Ret {A} a.
Arguments Raise {A} e.

Definition rbind {A B : Type} (r : result A) (k : A -> result B) : result B :=
  match r with
  | Ret a => k a
  | Raise e => Raise e
  end.

Declare Scope result_scope.
Delimit Scope result_scope with result.
Notation "x <- r ;; k" := (rbind r (fun x => k))
  (at level 100, r at next level, right associativity) : result_scope.
Local Open Scope result_scope.

(** ** Python numbers *)

(** Python's [int(x)] on a float: truncation toward zero; NaN and the
    infinities raise. *)
Definition int_of_float (x : float) : result Z :=
  match Prim2SF x with
  | S754_zero _ => Ret 0
  | S754_finite sign m e =>
      let magnitude :=
        if 0 <=? e then Z.pos m * 2 ^ e else Z.pos m / 2 ^ (- e) in
      Ret (if sign then - magnitude else magnitude)
  | S754_infinity _ => Raise OverflowError
  | S754_nan => Raise (ValueError "cannot convert float NaN to integer")
  end.

(** An [int] that meets a [float] in [/] or [*] is converted first: to the
    nearest float, ties to even; an [int] beyond the largest float raises. *)
Definition float_of_int (n : Z) : result float :=
  let x := SF2Prim (binary_normalize prec emax n 0 false) in
  match Prim2SF x with
  | S754_infinity _ | S754_nan => Raise OverflowError
  | _ => Ret x
  end.

(** Python's [round(x)] on a float: the nearest integer, ties to even. *)
Definition round_float (x : float) : result Z :=
  match Prim2SF x with
  | S754_zero _ => Ret 0
  | S754_finite sign m e =>
      let magnitude :=
        if 0 <=? e then Z.pos m * 2 ^ e
        else
          let unit := 2 ^ (- e) in
          let whole := Z.pos m / unit in
          let twice_rest := 2 * (Z.pos m mod unit) in
          if twice_rest <? unit then whole
          else if unit <? twice_rest then whole + 1
          else if Z.even whole then whole else whole + 1 in
      Ret (if sign then - magnitude else magnitude)
  | S754_infinity _ => Raise OverflowError
  | S754_nan => Raise (ValueError "cannot convert float NaN to integer")
  end.

(** [x / y] on floats: a zero divisor raises. *)
Definition float_div (x y : float) : result float :=
  match Prim2SF y with
  | S754_zero _ => Raise ZeroDivisionError
  | _ => Ret (x / y)%float
  end.

(** [sys.maxsize] of a 64-bit CPython: the largest length of an object. *)
Definition PY_SSIZE_T_MAX : Z := 2 ^ 63 - 1.

(** ** The segments table *)

(** One row of [segments_df] after [_process_segmentation_csv]: the label and
    the two [float64] columns. *)
Record Row : Type := mkRow {
  labels : string;
  start : float;
  stop : float
}.

(** [int(t * 1000)]: a time in seconds converted to whole milliseconds. *)
Definition to_ms (t : float) : result Z :=
  int_of_float (PrimFloat.mul t 1000%float).

(** [df.iterrows()] on the default [RangeIndex]: rows paired with their
    position. *)
Definition iterrows (df : list Row) : list (nat * Row) :=
  combine (seq 0 (length df)) df.

(** [df[df['labels'] == speaker_label]]: the filtered rows keep their original
    index. *)
Definition filter_label (speaker_label : string) (df : list Row)
  : list (nat * Row) :=
  List.filter (fun ir => String.eqb (labels (snd ir)) speaker_label)
              (iterrows df).

(** ** pydub's AudioSegment *)

Record AudioSegment : Type := mkAudio {
  frame_rate : Z;
  frames : list Z
}.

(** [frame_count()]: the number of frames, as a float. *)
Definition frame_count (a : AudioSegment) : result float :=
  float_of_int (Z.of_nat (length (frames a))).

(** [frame_count(ms=ms)], that is [ms * (self.frame_rate / 1000.0)]: the
    frames, whole or not, that [ms] milliseconds take. *)
Definition frame_count_ms (a : AudioSegment) (ms : Z) : result float :=
  rate <- float_of_int (frame_rate a) ;;
  ms <- float_of_int ms ;;
  Ret (ms * (rate / 1000))%float.

(** [len(audio)], that is
    [round(1000 * (self.frame_count() / self.frame_rate))]: the duration
    rounded to whole milliseconds.  The built-in [len] accepts what
    [__len__] returns only between [0] and [sys.maxsize]. *)
Definition len (a : AudioSegment) : result Z :=
  count <- frame_count a ;;
  rate <- float_of_int (frame_rate a) ;;
  seconds <- float_div count rate ;;
  n <- round_float (1000 * seconds)%float ;;
  if (n <? - PY_SSIZE_T_MAX - 1) || (PY_SSIZE_T_MAX <? n) then
    Raise OverflowError
  else if n <? 0 then Raise (ValueError "__len__() should return >= 0")
  else Ret n.

(** The frames of [AudioSegment.silent(duration, frame_rate)]:
    [int(frame_rate * (duration / 1000.0))]. *)
Definition silent_frames (duration rate : Z) : result Z :=
  duration <- float_of_int duration ;;
  rate <- float_of_int rate ;;
  int_of_float (rate * (duration / 1000))%float.

(** [AudioSegment.silent(duration=d, frame_rate=r)]: two zero bytes repeated
    once per frame; a negative count yields no data, a count whose bytes
    exceed [sys.maxsize] raises. *)
Definition silent (duration rate : Z) : result AudioSegment :=
  n <- silent_frames duration rate ;;
  if PY_SSIZE_T_MAX <? 2 * n then Raise OverflowError
  else Ret {| frame_rate := rate; frames := replicate (Z.to_nat n) 0 |}.

(** [a + b] (and [a += b]): the frames of [a] followed by those of [b], at
    the higher of the two frame rates.  pydub resamples the operand of the
    lower rate, which is not modelled: the program only ever adds segments of
    the recording's frame rate. *)
Definition append (a b : AudioSegment) : AudioSegment :=
  {| frame_rate := Z.max (frame_rate a) (frame_rate b);
     frames := frames a ++ frames b |}.

(** [_parse_position]: a negative position counts from the end; the
    position in milliseconds is truncated to a whole frame. *)
Definition parse_position (a : AudioSegment) (val : Z) : result Z :=
  val <- (if val <? 0 then n <- len a ;; Ret (n - Z.abs val) else Ret val) ;;
  count <- frame_count_ms a val ;;
  int_of_float count.

(** Index normalisation of a Python sequence slice [data[i:j]]. *)
Definition slice_index (n i : Z) : Z :=
  if i <? 0 then Z.max (i + n) 0 else Z.min i n.

Definition py_slice {A : Type} (data : list A) (i j : Z) : list A :=
  let n := Z.of_nat (length data) in
  let lo := slice_index n i in
  let hi := slice_index n j in
  take (Z.to_nat (hi - lo)) (drop (Z.to_nat lo) data).

(** [audio[start:stop]]: both bounds are first clamped to [len(audio)] and
    turned into frame positions; up to two frames that the data lacks are
    filled with silence, more is an error. *)
Definition getitem (a : AudioSegment) (start_ms stop_ms : Z)
  : result AudioSegment :=
  n <- len a ;;
  start_ <- parse_position a (Z.min start_ms n) ;;
  end_ <- parse_position a (Z.min stop_ms n) ;;
  let data := py_slice (frames a) start_ end_ in
  let expected_length := end_ - start_ in
  let missing_frames := expected_length - Z.of_nat (length data) in
  if missing_frames =? 0 then
    Ret {| frame_rate := frame_rate a; frames := data |}
  else if 2 <? missing_frames then
    Raise TooManyMissingFrames
  else
    let silence := take 1 (map (fun _ => 0) data) in
    Ret {| frame_rate := frame_rate a;
           frames := data ++ mjoin (replicate (Z.to_nat missing_frames) silence) |}.

(** ** Timeline reconstruction: the loop of [create_synchronized_tracks] *)

(** The loop's local variables: [male_audio], [female_audio] and
    [current_time_ms]. *)
Record Tracks : Type := mkTracks {
  male_audio : AudioSegment;
  female_audio : AudioSegment;
  current_time_ms : Z
}.

(** The tracks before the first row: two empty segments at the recording's
    frame rate, cursor at [0]. *)
Definition initial_tracks (audio : AudioSegment) : result Tracks :=
  male_audio <- silent 0 (frame_rate audio) ;;
  female_audio <- silent 0 (frame_rate audio) ;;
  Ret {| male_audio := male_audio;
         female_audio := female_audio;
         current_time_ms := 0 |}.

(** The gap branch: silence on both tracks up to the row's start. *)
Definition fill_gap (audio : AudioSegment) (start_ms : Z) (t : Tracks)
  : result Tracks :=
  if current_time_ms t <? start_ms then
    let gap_duration_ms := start_ms - current_time_ms t in
    silence_segment <- silent gap_duration_ms (frame_rate audio) ;;
    Ret {| male_audio := append (male_audio t) silence_segment;
           female_audio := append (female_audio t) silence_segment;
           current_time_ms := start_ms |}
  else Ret t.

(** One iteration of the [for idx, row in self.segments_df.iterrows()] loop. *)
Definition sync_step (audio : AudioSegment) (t : Tracks) (row : Row)
  : result Tracks :=
  start_ms <- to_ms (start row) ;;
  stop_ms <- to_ms (stop row) ;;
  let duration_ms := stop_ms - start_ms in
  t <- fill_gap audio start_ms t ;;
  segment_audio <- getitem audio start_ms stop_ms ;;
  if String.eqb (labels row) "male" then
    silence_segment <- silent duration_ms (frame_rate audio) ;;
    Ret {| male_audio := append (male_audio t) segment_audio;
           female_audio := append (female_audio t) silence_segment;
           current_time_ms := stop_ms |}
  else if String.eqb (labels row) "female" then
    silence_segment <- silent duration_ms (frame_rate audio) ;;
    Ret {| male_audio := append (male_audio t) silence_segment;
           female_audio := append (female_audio t) segment_audio;
           current_time_ms := stop_ms |}
  else
    silence_segment <- silent duration_ms (frame_rate audio) ;;
    Ret {| male_audio := append (male_audio t) silence_segment;
           female_audio := append (female_audio t) silence_segment;
           current_time_ms := stop_ms |}.

Fixpoint sync_loop (audio : AudioSegment) (rows : list Row) (t : Tracks)
  : result Tracks :=
  match rows with
  | [] => Ret t
  | row :: rest => t <- sync_step audio t row ;; sync_loop audio rest t
  end.

(** "Handle any remaining audio at the end". *)
Definition fill_tail (audio : AudioSegment) (t : Tracks) : result Tracks :=
  n <- len audio ;;
  if current_time_ms t <? n then
    let remaining_duration_ms := n - current_time_ms t in
    male_silence <- silent remaining_duration_ms (frame_rate audio) ;;
    female_silence <- silent remaining_duration_ms (frame_rate audio) ;;
    Ret {| male_audio := append (male_audio t) male_silence;
           female_audio := append (female_audio t) female_silence;
           current_time_ms := current_time_ms t |}
  else Ret t.

(** Lines 298-357: the two tracks built from the recording and the table. *)
Definition build_tracks (audio : AudioSegment) (rows : list Row)
  : result Tracks :=
  t <- initial_tracks audio ;;
  t <- sync_loop audio rows t ;;
  fill_tail audio t.

Local Close Scope result_scope.

(** ** Files, console output and external commands *)

(** What a file holds: decodable audio, a text file (its lines), or a ZIP
    archive (its entries, in order, each an entry name and the stored file). *)
#[warnings="-register-all"] Inductive content : Type :=
| Wav (a : AudioSegment)
| Text (lines : list string)
| Zip (entries : list (string * content)).

(** The three [ffmpeg] command lines the program assembles. *)
Inductive ffmpeg_cmd : Type :=
| Cut (input : string) (ss to_ : float) (output : string)
| Concat (list_file output : string)
| Amerge (input0 input1 output : string).

Definition output_of (cmd : ffmpeg_cmd) : string :=
  match cmd with
  | Cut _ _ _ output => output
  | Concat _ output => output
  | Amerge _ _ output => output
  end.

(** The program's [print] calls, one constructor per call site, carrying the
    interpolated values. *)
Inductive message : Type :=
| MsgExtracting (speaker_label : string)
| MsgNoSegmentsFound (speaker_label : string)
| MsgErrorExtractingSegment (idx : nat)
| MsgNoSegmentsExtracted (speaker_label : string)
| MsgSuccessfullyCreated (output_filename : string)
| MsgErrorConcatenating
| MsgBothFilesMustExist
| MsgCreatingStereoMix
| MsgStereoMixCreated (output_filename : string)
| MsgErrorCreatingStereoMix
| MsgCreatingSynchronizedTracks
| MsgDurationVerification
| MsgOriginalDuration (ms : Z)
| MsgMaleDuration (ms : Z)
| MsgFemaleDuration (ms : Z)
| MsgSynchronizedTracksCreated
| MsgTrackPath (path : string)
| MsgNoSegmentFilesFound (speaker_label : string)
| MsgCreatingArchive (archive_name : string)
| MsgArchiveCreated (count : nat) (archive_name : string)
| MsgCouldNotRemove (file_path : string).

(** The fields of a [PodcastSpeakerSeparator] object (the loaded model
    [segmenter] plays no part in the methods embedded here). *)
Record Separator : Type := mkSeparator {
  audio_file_path : string;
  segments_df : option (list Row);
  audio : option AudioSegment
}.

(** The object together with the world it acts on.  [calls] records every
    [subprocess.run] with whether it exited with status zero. *)
Record State : Type := mkState {
  self : Separator;
  fs : gmap string content;
  stdout : list message;
  calls : list (ffmpeg_cmd * bool)
}.

Definition with_fs (st : State) (fs' : gmap string content) : State :=
  {| self := self st; fs := fs'; stdout := stdout st; calls := calls st |}.

(** ** The state and error monad *)

Definition M (A : Type) : Type := State -> result A * State.

Definition ret {A : Type} (a : A) : M A := fun st => (Ret a, st).

Definition raise {A : Type} (e : exn) : M A := fun st => (Raise e, st).

Definition bind {A B : Type} (m : M A) (k : A -> M B) : M B :=
  fun st =>
    match m st with
    | (Ret a, st') => k a st'
    | (Raise e, st') => (Raise e, st')
    end.

Declare Scope sep_scope.
Delimit Scope sep_scope with sep.
Notation "x <- m ;; k" := (bind m (fun x => k))
  (at level 100, m at next level, right associativity) : sep_scope.
Notation "m ;; k" := (bind m (fun _ => k))
  (at level 100, right associativity) : sep_scope.
Local Open Scope sep_scope.

(** [try: body except E: handler] for the exceptions [caught] selects. *)
Definition try_except {A : Type} (body : M A) (caught : exn -> bool)
  (handler : M A) : M A :=
  fun st =>
    match body st with
    | (Raise e, st') => if caught e then handler st' else (Raise e, st')
    | ok => ok
    end.

Definition is_CalledProcessError (e : exn) : bool :=
  match e with
  | CalledProcessError => true
  | _ => false
  end.

Definition lift {A : Type} (r : result A) : M A := fun st => (r, st).

Definition get_self : M Separator := fun st => (Ret (self st), st).

Definition get_fs : M (gmap string content) := fun st => (Ret (fs st), st).

Definition print (m : message) : M unit :=
  fun st =>
    (Ret tt,
     {| self := self st; fs := fs st; stdout := stdout st ++ [m];
        calls := calls st |}).

(** [self.audio = a]. *)
Definition set_audio (a : AudioSegment) : M unit :=
  fun st =>
    (Ret tt,
     {| self := {| audio_file_path := audio_file_path (self st);
                   segments_df := segments_df (self st);
                   audio := Some a |};
        fs := fs st; stdout := stdout st; calls := calls st |}).

(** [os.path.exists] / [Path.exists]. *)
Definition path_exists (path : string) : M bool :=
  fun st => (Ret (bool_decide (is_Some (fs st !! path))), st).

Definition write_file (path : string) (c : content) : M unit :=
  fun st => (Ret tt, with_fs st (<[path := c]> (fs st))).

(** [AudioSegment.from_file]. *)
Definition from_file (path : string) : M AudioSegment :=
  fun st =>
    match fs st !! path with
    | Some (Wav a) => (Ret a, st)
    | Some _ => (Raise CouldntDecodeError, st)
    | None => (Raise (FileNotFoundError path), st)
    end.

(** How writing a WAV file ends: the file holds the audio, or the write
    raises, having left the path as it was ([None]) or holding what it got
    to write before it failed. *)
Inductive export_outcome : Type :=
| Exported
| ExportFailed (e : exn) (left_behind : option content).

(** [PodcastSpeakerSeparator(audio_file_path)]: the constructor, run against a
    file system. *)
Definition init (path : string) (files : gmap string content)
  : result Separator :=
  if bool_decide (is_Some (files !! path)) then
    Ret {| audio_file_path := path; segments_df := None; audio := None |}
  else Raise (FileNotFoundError path).

Section Collaborators.

(** [ffmpeg cmd files]: [None] when the command exits with a non-zero status,
    [Some c] when it succeeds and leaves [c] in its output file.  A run
    touches no other file. *)
Variable ffmpeg : ffmpeg_cmd -> gmap string content -> option content.

(** Whether [os.remove path] raises [OSError]. *)
Variable os_remove_fails : string -> gmap string content -> bool.

(** [glob.glob pattern]. *)
Variable glob : string -> gmap string content -> list string.

(** What becomes of [audio.export(path, format='wav')] on the file system
    at hand: whether the file can be opened and written is the platform's
    affair. *)
Variable wav_export :
  string -> AudioSegment -> gmap string content -> export_outcome.

(** [audio.export(path, format='wav')]. *)
Definition export (a : AudioSegment) (path : string) : M unit :=
  fun st =>
    match wav_export path a (fs st) with
    | Exported => (Ret tt, with_fs st (<[path := Wav a]> (fs st)))
    | ExportFailed e None => (Raise e, st)
    | ExportFailed e (Some c) => (Raise e, with_fs st (<[path := c]> (fs st)))
    end.

(** [subprocess.run(cmd, check=True, capture_output=True)]. *)
Definition subprocess_run (cmd : ffmpeg_cmd) : M unit :=
  fun st =>
    match ffmpeg cmd (fs st) with
    | Some c =>
        (Ret tt,
         {| self := self st; fs := <[output_of cmd := c]> (fs st);
            stdout := stdout st; calls := calls st ++ [(cmd, true)] |})
    | None =>
        (Raise CalledProcessError,
         {| self := self st; fs := fs st; stdout := stdout st;
            calls := calls st ++ [(cmd, false)] |})
    end.

(** *** [_cleanup_temp_files] *)

Definition remove_temp_file (file_path : string) : M unit :=
  fun st =>
    if bool_decide (is_Some (fs st !! file_path)) then
      if os_remove_fails file_path (fs st) then
        print (MsgCouldNotRemove file_path) st
      else (Ret tt, with_fs st (delete file_path (fs st)))
    else (Ret tt, st).

Fixpoint _cleanup_temp_files (file_list : list string) : M unit :=
  match file_list with
  | [] => ret tt
  | file_path :: rest =>
      remove_temp_file file_path ;; _cleanup_temp_files rest
  end.

(** *** [extract_speaker_segments] *)

Definition segment_file_name (speaker_label : string) (idx : nat) : string :=
  speaker_label +:+ "_segment_" +:+ pretty idx +:+ ".wav".

Definition list_file_name (speaker_label : string) : string :=
  speaker_label +:+ "_segments.txt".

Definition list_file_line (segment_file : string) : string :=
  "file '" +:+ segment_file +:+ "'".

(** The command that cuts one row out of the recording. *)
Definition cut_cmd (path speaker_label : string) (ir : nat * Row) : ffmpeg_cmd :=
  Cut path (start (snd ir)) (stop (snd ir))
      (segment_file_name speaker_label (fst ir)).

(** The body of the [for idx, row in speaker_segments.iterrows()] loop, with
    the list [segment_files] it appends to. *)
Definition extract_one (speaker_label : string) (segment_files : list string)
  (ir : nat * Row) : M (list string) :=
  s <- get_self ;;
  let segment_file := segment_file_name speaker_label (fst ir) in
  try_except
    (subprocess_run (cut_cmd (audio_file_path s) speaker_label ir) ;;
     ret (segment_files ++ [segment_file]))
    is_CalledProcessError
    (print (MsgErrorExtractingSegment (fst ir)) ;; ret segment_files).

Fixpoint extract_loop (speaker_label : string) (rows : list (nat * Row))
  (segment_files : list string) : M (list string) :=
  match rows with
  | [] => ret segment_files
  | ir :: rest =>
      segment_files <- extract_one speaker_label segment_files ir ;;
      extract_loop speaker_label rest segment_files
  end.

Definition is_empty {A : Type} (l : list A) : bool :=
  match l with
  | [] => true
  | _ => false
  end.

Definition extract_speaker_segments (speaker_label output_filename : string)
  : M (option string) :=
  s <- get_self ;;
  match segments_df s with
  | None => raise (ValueError "Must run segment_audio() first")
  | Some df =>
      print (MsgExtracting speaker_label) ;;
      let speaker_segments := filter_label speaker_label df in
      if is_empty speaker_segments then
        print (MsgNoSegmentsFound speaker_label) ;; ret None
      else
        segment_files <- extract_loop speaker_label speaker_segments [] ;;
        if is_empty segment_files then
          print (MsgNoSegmentsExtracted speaker_label) ;; ret None
        else
          let list_file := list_file_name speaker_label in
          write_file list_file (Text (map list_file_line segment_files)) ;;
          try_except
            (subprocess_run (Concat list_file output_filename) ;;
             print (MsgSuccessfullyCreated output_filename) ;;
             _cleanup_temp_files (segment_files ++ [list_file]) ;;
             ret (Some output_filename))
            is_CalledProcessError
            (print MsgErrorConcatenating ;; ret None)
  end.

(** *** [create_stereo_mix] *)

Definition create_stereo_mix (male_file female_file output_filename : string)
  : M (option string) :=
  male_exists <- path_exists male_file ;;
  female_exists <- path_exists female_file ;;
  if negb (male_exists && female_exists) then
    print MsgBothFilesMustExist ;; ret None
  else
    print MsgCreatingStereoMix ;;
    try_except
      (subprocess_run (Amerge male_file female_file output_filename) ;;
       print (MsgStereoMixCreated output_filename) ;;
       ret (Some output_filename))
      is_CalledProcessError
      (print MsgErrorCreatingStereoMix ;; ret None).

(** *** [create_synchronized_tracks] *)

Definition create_synchronized_tracks (male_output female_output : string)
  : M (string * string) :=
  s <- get_self ;;
  match segments_df s with
  | None => raise (ValueError "Must run segment_audio() first")
  | Some df =>
      print MsgCreatingSynchronizedTracks ;;
      a <- from_file (audio_file_path s) ;;
      set_audio a ;;
      t <- lift (build_tracks a df) ;;
      original_duration <- lift (len a) ;;
      male_duration <- lift (len (male_audio t)) ;;
      female_duration <- lift (len (female_audio t)) ;;
      print MsgDurationVerification ;;
      print (MsgOriginalDuration original_duration) ;;
      print (MsgMaleDuration male_duration) ;;
      print (MsgFemaleDuration female_duration) ;;
      export (male_audio t) male_output ;;
      export (female_audio t) female_output ;;
      print MsgSynchronizedTracksCreated ;;
      print (MsgTrackPath male_output) ;;
      print (MsgTrackPath female_output) ;;
      ret (male_output, female_output)
  end.

(** *** [create_segment_archive] *)

(** [os.path.basename]: what follows the last slash. *)
Fixpoint basename_from (current path : string) : string :=
  match path with
  | EmptyString => current
  | String c rest =>
      if Ascii.eqb c "/" then basename_from rest rest
      else basename_from current rest
  end.

Definition basename (path : string) : string := basename_from path path.

(** [zipf.write(file, arcname)]: the file is read and appended to the archive
    as one more entry. *)
Definition zip_write (archive_name file arcname : string) : M unit :=
  fun st =>
    match fs st !! file with
    | None => (Raise (FileNotFoundError file), st)
    | Some c =>
        let entries :=
          match fs st !! archive_name with
          | Some (Zip entries) => entries
          | _ => []
          end in
        (Ret tt,
         with_fs st (<[archive_name := Zip (entries ++ [(arcname, c)])]> (fs st)))
    end.

Fixpoint archive_loop (archive_name : string) (segment_files : list string)
  : M unit :=
  match segment_files with
  | [] => ret tt
  | file :: rest =>
      zip_write archive_name file (basename file) ;;
      archive_loop archive_name rest
  end.

(** [archive_name], or [f"{speaker_label}_segments.zip"] when it is [None]. *)
Definition archive_file_name (speaker_label : string)
  (archive_name : option string) : string :=
  match archive_name with
  | None => speaker_label +:+ "_segments.zip"
  | Some name => name
  end.

Definition segment_pattern (speaker_label : string) : string :=
  speaker_label +:+ "_segment*.wav".

Definition create_segment_archive (speaker_label : string)
  (archive_name : option string) : M (option string) :=
  let archive_name := archive_file_name speaker_label archive_name in
  files <- get_fs ;;
  let segment_files := glob (segment_pattern speaker_label) files in
  if is_empty segment_files then
    print (MsgNoSegmentFilesFound speaker_label) ;; ret None
  else
    print (MsgCreatingArchive archive_name) ;;
    write_file archive_name (Zip []) ;;
    archive_loop archive_name segment_files ;;
    print (MsgArchiveCreated (length segment_files) archive_name) ;;
    ret (Some archive_name).

End Collaborators.

(** ** Shapes of segment tables *)

(** The table is chronological, free of overlaps and inside a recording of
    [duration_ms] milliseconds: every row starts at or after the stop of the
    row before it (the cursor), does not stop before it starts, and stops
    within the recording. *)
Fixpoint chronological (duration_ms cursor : Z) (rows : list Row) : bool :=
  match rows with
  | [] => true
  | row :: rest =>
      match to_ms (start row), to_ms (stop row) with
      | Ret start_ms, Ret stop_ms =>
          (cursor <=? start_ms) && (start_ms <=? stop_ms)
          && (stop_ms <=? duration_ms)
          && chronological duration_ms stop_ms rest
      | _, _ => false
      end
  end.

(** ** What [create_synchronized_tracks] leaves behind *)

(** The object once [self.audio] holds the decoded recording. *)
Definition with_audio (s : Separator) (a : AudioSegment) : Separator :=
  {| audio_file_path := audio_file_path s;
     segments_df := segments_df s;
     audio := Some a |}.

(** What the method has printed when it comes to export: the three
    durations, in milliseconds. *)
Definition duration_report (original_duration male_duration female_duration : Z)
  : list message :=
  [ MsgCreatingSynchronizedTracks;
    MsgDurationVerification;
    MsgOriginalDuration original_duration;
    MsgMaleDuration male_duration;
    MsgFemaleDuration female_duration ].

(** The state in which the exports start: the recording is cached on the
    object and the durations are on the console. *)
Definition reported_state (st : State) (a : AudioSegment)
  (original_duration male_duration female_duration : Z) : State :=
  {| self := with_audio (self st) a;
     fs := fs st;
     stdout := stdout st ++
                 duration_report original_duration male_duration female_duration;
     calls := calls st |}.

(** The file system after an export that failed. *)
Definition after_failed_export (path : string) (left_behind : option content)
  (files : gmap string content) : gmap string content :=
  match left_behind with
  | None => files
  | Some c => <[path := c]> files
  end.

(** The state after a completed run: both tracks are exported (the female
    track last) and their paths are on the console. *)
Definition synchronized_state (st : State) (a : AudioSegment) (t : Tracks)
  (original_duration male_duration female_duration : Z)
  (male_output female_output : string) : State :=
  {| self := with_audio (self st) a;
     fs := <[female_output := Wav (female_audio t)]>
             (<[male_output := Wav (male_audio t)]> (fs st));
     stdout := stdout st ++
                 duration_report original_duration male_duration female_duration
                 ++ [ MsgSynchronizedTracksCreated;
                      MsgTrackPath male_output;
                      MsgTrackPath female_output ];
     calls := calls st |}.

(** The state when the loop raises: the recording is cached, nothing is
    exported. *)
Definition aborted_state (st : State) (a : AudioSegment) : State :=
  {| self := with_audio (self st) a;
     fs := fs st;
     stdout := stdout st ++ [MsgCreatingSynchronizedTracks];
     calls := calls st |}.

(** The duration, in milliseconds, of the audio file at [path], if any. *)
Definition wav_duration (files : gmap string content) (path : string)
  : option Z :=
  match files !! path with
  | Some (Wav a) =>
      match len a with
      | Ret n => Some n
      | Raise _ => None
      end
  | _ => None
  end.

(** The number of frames of the audio file at [path], if any. *)
Definition wav_frames (files : gmap string content) (path : string)
  : option nat :=
  match files !! path with
  | Some (Wav a) => Some (length (frames a))
  | _ => None
  end.

(** Whether the audio file at [path] holds nothing but silence. *)
Definition wav_is_silent (files : gmap string content) (path : string)
  : bool :=
  match files !! path with
  | Some (Wav a) => forallb (Z.eqb 0) (frames a)
  | _ => false
  end.

(** ** Reference collaborators and scenarios

    Concrete stand-ins for the external tools, used to run the methods on
    concrete inputs. *)

(** The path a [file '...'] line of a concat list names. *)
Definition listed_path (line : string) : string :=
  substring 6 (String.length line - 7) line.

Fixpoint concat_clips (files : gmap string content) (paths : list string)
  (acc : AudioSegment) : option AudioSegment :=
  match paths with
  | [] => Some acc
  | path :: rest =>
      match files !! path with
      | Some (Wav clip) => concat_clips files rest (append acc clip)
      | _ => None
      end
  end.

(** Two mono tracks merged into one stereo stream, which ends with the
    shorter input. *)
Fixpoint amerge (left right : list Z) : list Z :=
  match left, right with
  | l :: left', r :: right' => (l + r) :: amerge left' right'
  | _, _ => []
  end.

(** An [ffmpeg] that does what its command line asks whenever its inputs are
    there. *)
Definition reference_ffmpeg (cmd : ffmpeg_cmd) (files : gmap string content)
  : option content :=
  match cmd with
  | Cut input ss to_ _ =>
      match files !! input, to_ms ss, to_ms to_ with
      | Some (Wav a), Ret start_ms, Ret stop_ms =>
          match getitem a start_ms stop_ms with
          | Ret clip => Some (Wav clip)
          | Raise _ => None
          end
      | _, _, _ => None
      end
  | Concat list_file _ =>
      match files !! list_file with
      | Some (Text lines) =>
          option_map Wav
            (concat_clips files (map listed_path lines)
               {| frame_rate := 0; frames := [] |})
      | _ => None
      end
  | Amerge input0 input1 _ =>
      match files !! input0, files !! input1 with
      | Some (Wav a), Some (Wav b) =>
          Some (Wav {| frame_rate := Z.max (frame_rate a) (frame_rate b);
                       frames := amerge (frames a) (frames b) |})
      | _, _ => None
      end
  end.

(** The reference [ffmpeg], except that the commands [fails] selects exit with
    a non-zero status. *)
Definition failing_ffmpeg (fails : ffmpeg_cmd -> bool) (cmd : ffmpeg_cmd)
  (files : gmap string content) : option content :=
  if fails cmd then None else reference_ffmpeg cmd files.

Definition writes_to (path : string) (cmd : ffmpeg_cmd) : bool :=
  String.eqb (output_of cmd) path.

Definition no_failure (cmd : ffmpeg_cmd) : bool := false.

(** An [os.remove] that never raises. *)
Definition remove_always_works (path : string) (files : gmap string content)
  : bool := false.

(** An [export] that always succeeds. *)
Definition export_always_works (path : string) (a : AudioSegment)
  (files : gmap string content) : export_outcome := Exported.

(** Whether a path contains a directory separator. *)
Fixpoint has_slash (path : string) : bool :=
  match path with
  | EmptyString => false
  | String c rest => Ascii.eqb c "/" || has_slash rest
  end.

(** An [export] into a working directory without subdirectories: a path
    that names a directory cannot be opened, and nothing is written. *)
Definition export_without_directories (path : string) (a : AudioSegment)
  (files : gmap string content) : export_outcome :=
  if has_slash path then ExportFailed (FileNotFoundError path) None
  else Exported.

(** Shell-style matching with [*] as the only wildcard. *)
Fixpoint wildcard_match (pattern name : string) : bool :=
  match pattern with
  | EmptyString =>
      match name with
      | EmptyString => true
      | String _ _ => false
      end
  | String c pattern' =>
      if Ascii.eqb c "*" then
        (fix skip (name : string) : bool :=
           wildcard_match pattern' name
           || match name with
              | EmptyString => false
              | String _ name' => skip name'
              end) name
      else
        match name with
        | EmptyString => false
        | String d name' => Ascii.eqb c d && wildcard_match pattern' name'
        end
  end.

(** A [glob] over the names of the file system. *)
Definition reference_glob (pattern : string) (files : gmap string content)
  : list string :=
  List.filter (wildcard_match pattern) (map fst (map_to_list files)).

(** [n] frames none of which is silent: [first], [first + 1], ... *)
Fixpoint ramp_from (first : Z) (n : nat) : list Z :=
  match n with
  | O => []
  | S n' => first :: ramp_from (first + 1) n'
  end.

Definition ramp (n : nat) : list Z := ramp_from 1 n.

(** [n] silent frames. *)
Definition silence (n : nat) (rate : Z) : AudioSegment :=
  {| frame_rate := rate; frames := replicate n 0 |}.

(** A recording of 10 s, sampled at 1000 Hz. *)
Definition recording_10s : AudioSegment :=
  {| frame_rate := 1000; frames := ramp (Z.to_nat 10000) |}.

(** An object for the recording at [path], as the constructor and
    [segment_audio] leave it, in a file system holding that recording only. *)
Definition loaded (path : string) (a : AudioSegment) (df : option (list Row))
  : State :=
  {| self := {| audio_file_path := path; segments_df := df; audio := None |};
     fs := {[ path := Wav a ]};
     stdout := [];
     calls := [] |}.

(** The specification's worked example: two speakers and a gap. *)
Definition worked_table : list Row :=
  [ mkRow "male" 0 3; mkRow "female" 3 5; mkRow "male" 7 10 ].

(** Two segments that overlap between 3 s and 5 s. *)
Definition overlapping_table : list Row :=
  [ mkRow "male" 0 5; mkRow "female" 3 8 ].

(** The tracks and the cursor once the loop has processed the first of the
    two overlapping segments: five seconds of audio on the male track, five
    seconds of silence on the female track. *)
Definition tracks_after_first_overlap : Tracks :=
  {| male_audio :=
       {| frame_rate := 1000; frames := take 5000 (frames recording_10s) |};
     female_audio := silence (Z.to_nat 5000) 1000;
     current_time_ms := 5000 |}.

(** A segment that stops two seconds after the recording does. *)
Definition overrun_table : list Row := [ mkRow "male" 0 12 ].

(** A late segment that stops a second and a half after the recording does. *)
Definition late_overrun_table : list Row := [ mkRow "female" 2 11.5 ].

(** The tracks the loop builds for [late_overrun_table]: the silent male track
    follows the unclamped stop, the female track the clamped slice. *)
Definition late_overrun_tracks : Tracks :=
  {| male_audio := silence (Z.to_nat 11500) 1000;
     female_audio :=
       append (silence (Z.to_nat 2000) 1000)
         {| frame_rate := 1000; frames := drop 2000 (frames recording_10s) |};
     current_time_ms := 11500 |}.

Definition synced_run (df : list Row) : result (string * string) * State :=
  create_synchronized_tracks export_always_works
    "male_voice_synced.wav" "female_voice_synced.wav"
    (loaded "Chrono-Sampling.wav" recording_10s (Some df)).

(** The same run asked to put the female track into a directory that does
    not exist. *)
Definition run_into_missing_directory (df : list Row)
  : result (string * string) * State :=
  create_synchronized_tracks export_without_directories
    "male_voice_synced.wav" "tracks/female_voice_synced.wav"
    (loaded "Chrono-Sampling.wav" recording_10s (Some df)).

(** A recording of 234 ms sampled at 44.1 kHz: 10319 frames. *)
Definition recording_234ms : AudioSegment :=
  {| frame_rate := 44100; frames := ramp (Z.to_nat 10319) |}.

(** Twenty-six female segments of 9 ms each, one after the other, from the
    start of the recording to its end. *)
Definition nine_ms_table : list Row :=
  [ mkRow "female" 0 0.009; mkRow "female" 0.009 0.018;
    mkRow "female" 0.018 0.027; mkRow "female" 0.027 0.036;
    mkRow "female" 0.036 0.045; mkRow "female" 0.045 0.054;
    mkRow "female" 0.054 0.063; mkRow "female" 0.063 0.072;
    mkRow "female" 0.072 0.081; mkRow "female" 0.081 0.09;
    mkRow "female" 0.09 0.099; mkRow "female" 0.099 0.108;
    mkRow "female" 0.108 0.117; mkRow "female" 0.117 0.126;
    mkRow "female" 0.126 0.135; mkRow "female" 0.135 0.144;
    mkRow "female" 0.144 0.153; mkRow "female" 0.153 0.162;
    mkRow "female" 0.162 0.171; mkRow "female" 0.171 0.18;
    mkRow "female" 0.18 0.189; mkRow "female" 0.189 0.198;
    mkRow "female" 0.198 0.207; mkRow "female" 0.207 0.216;
    mkRow "female" 0.216 0.225; mkRow "female" 0.225 0.234 ].

Definition nine_ms_run : result (string * string) * State :=
  create_synchronized_tracks export_always_works
    "male_voice_synced.wav" "female_voice_synced.wav"
    (loaded "Chrono-Sampling.wav" recording_234ms (Some nine_ms_table)).

(** A recording of 16008 frames sampled at 16 kHz: one second and half a
    millisecond. *)
Definition recording_16008 : AudioSegment :=
  {| frame_rate := 16000; frames := ramp (Z.to_nat 16008) |}.

Definition empty_table_run : result (string * string) * State :=
  create_synchronized_tracks export_always_works
    "male_voice_synced.wav" "female_voice_synced.wav"
    (loaded "Chrono-Sampling.wav" recording_16008 (Some [])).

(** Two synchronized tracks on disk, of 10.0 s and 9.999 s. *)
Definition uneven_tracks : State :=
  {| self := {| audio_file_path := "Chrono-Sampling.wav";
                segments_df := None; audio := None |};
     fs := <["female_voice_synced.wav" := Wav (silence (Z.to_nat 9999) 1000)]>
             {[ "male_voice_synced.wav" :=
                  Wav {| frame_rate := 1000; frames := ramp (Z.to_nat 10000) |} ]};
     stdout := [];
     calls := [] |}.

Definition uneven_mix : result (option string) * State :=
  create_stereo_mix reference_ffmpeg
    "male_voice_synced.wav" "female_voice_synced.wav" "stereo_mix.wav"
    uneven_tracks.

(** A working directory after an extraction that kept its clips: the
    recording, two male clips and one female clip. *)
Definition clips_on_disk : State :=
  {| self := {| audio_file_path := "Chrono-Sampling.wav";
                segments_df := Some worked_table; audio := None |};
     fs := <["male_segment_2.wav" := Wav (silence (Z.to_nat 3000) 1000)]>
             (<["female_segment_1.wav" := Wav (silence (Z.to_nat 2000) 1000)]>
                (<["male_segment_0.wav" := Wav (silence (Z.to_nat 3000) 1000)]>
                   {[ "Chrono-Sampling.wav" := Wav recording_10s ]}));
     stdout := [];
     calls := [] |}.

(** ** Outcomes of the extraction loop *)

(** The elements of [l] whose flag is set. *)
Definition selected {A : Type} (flags : list bool) (l : list A) : list A :=
  map snd (List.filter fst (combine flags l)).

(** The clip files of the rows whose cut succeeded, [flags] telling, row by
    row, whether it did. *)
Definition clip_files (speaker_label : string) (flags : list bool)
  (rows : list (nat * Row)) : list string :=
  map (fun ir => segment_file_name speaker_label (fst ir)) (selected flags rows).

(** The messages for the rows whose cut failed. *)
Definition failure_messages (flags : list bool) (rows : list (nat * Row))
  : list message :=
  map (fun ir => MsgErrorExtractingSegment (fst ir))
      (selected (map negb flags) rows).

(** Whether a command exited with status zero. *)
Definition exit_ok (outcome : option content) : bool :=
  match outcome with
  | Some _ => true
  | None => false
  end.

(** Five one-second male segments. *)
Definition five_male_table : list Row :=
  [ mkRow "male" 0 1; mkRow "male" 2 3; mkRow "male" 4 5;
    mkRow "male" 6 7; mkRow "male" 8 9 ].

Definition is_concat (cmd : ffmpeg_cmd) : bool :=
  match cmd with
  | Concat _ _ => true
  | _ => false
  end.

(** Extraction of the male speaker from [recording_10s], with an [ffmpeg] on
    which the commands [fails] selects fail. *)
Definition male_extraction (fails : ffmpeg_cmd -> bool) (df : list Row)
  : result (option string) * State :=
  extract_speaker_segments (failing_ffmpeg fails) remove_always_works
    "male" "male_voice_concatenated.wav"
    (loaded "Chrono-Sampling.wav" recording_10s (Some df)).

(** ** Further scenarios and notions *)

(** A table whose second row has no start time. *)
Definition nan_table : list Row :=
  [ mkRow "male" 0 3; mkRow "female" PrimFloat.nan 5 ].

(** ** The frame rate of the tracks *)

(** Both tracks are at the frame rate of [audio]. *)
Definition at_frame_rate (audio : AudioSegment) (t : Tracks) : Prop :=
  frame_rate (male_audio t) = frame_rate audio /\
  frame_rate (female_audio t) = frame_rate audio.

(** ** Footprints *)

(** [m] leaves every file alone whose name is not in [may_touch], however it
    ends. *)
Definition modifies_only {A : Type} (may_touch : string -> Prop) (m : M A)
  : Prop :=
  forall (st : State) (p : string),
    ~ may_touch p -> fs (snd (m st)) !! p = fs st !! p.

(** [m] leaves the object's fields as they are, however it ends. *)
Definition keeps_object {A : Type} (m : M A) : Prop :=
  forall st : State, self (snd (m st)) = self st.

(** The names [extract_speaker_segments] may write or remove: the clips of
    the label, its list file and the output file. *)
Definition extraction_file (speaker_label output_filename p : string) : Prop :=
  p = output_filename \/ p = list_file_name speaker_label \/
  exists idx : nat, p = segment_file_name speaker_label idx.

(** ** The complete workflow

    [process_complete_workflow] and [main] print lines of their own between
    the lines the methods print.  They are kept in [banners], each with the
    number of method lines printed before it, so that the console is the
    merge of [stdout] and [banners]. *)

Inductive banner : Type :=
| BannerStep (step : nat)
| BannerProcessingComplete
| BannerCreatedFiles
| BannerCreatedFile (key filepath : string)
| BannerErrorDuringProcessing (e : exn)
| BannerAudioFileNotFound (path : string)
| BannerUpdatePath
| BannerAllCompleted
| BannerFileError (e : exn)
| BannerProcessingError (e : exn).

Record Run : Type := mkRun {
  state : State;
  banners : list (nat * banner)
}.

Definition W (A : Type) : Type := Run -> result A * Run.

Definition wret {A : Type} (a : A) : W A := fun run => (Ret a, run).

Definition wraise {A : Type} (e : exn) : W A := fun run => (Raise e, run).

Definition wbind {A B : Type} (m : W A) (k : A -> W B) : W B :=
  fun run =>
    match m run with
    | (Ret a, run') => k a run'
    | (Raise e, run') => (Raise e, run')
    end.

Declare Scope workflow_scope.
Delimit Scope workflow_scope with workflow.
Notation "x <- m ;; k" := (wbind m (fun x => k))
  (at level 100, m at next level, right associativity) : workflow_scope.
Notation "m ;; k" := (wbind m (fun _ => k))
  (at level 100, right associativity) : workflow_scope.

(** A method call. *)
Definition call {A : Type} (m : M A) : W A :=
  fun run =>
    (fst (m (state run)),
     {| state := snd (m (state run)); banners := banners run |}).

(** A [print] of the workflow's own. *)
Definition announce (b : banner) : W unit :=
  fun run =>
    (Ret tt,
     {| state := state run;
        banners := banners run ++ [(length (stdout (state run)), b)] |}).

(** The dictionary [results], in insertion order. *)
Definition results_lookup (key : string) (results : list (string * string))
  : option string :=
  option_map snd (List.find (fun kv => String.eqb (fst kv) key) results).

(** [if value: results[key] = value]: [None] and the empty string are
    falsy. *)
Definition add_result (key : string) (value : option string)
  (results : list (string * string)) : list (string * string) :=
  match value with
  | Some v => if String.eqb v "" then results else results ++ [(key, v)]
  | None => results
  end.

(** [for key, filepath in results.items(): print(...)]. *)
Fixpoint announce_files (results : list (string * string)) : W unit :=
  match results with
  | [] => wret tt
  | (key, filepath) :: rest =>
      wbind (announce (BannerCreatedFile key filepath))
            (fun _ => announce_files rest)
  end.

Section Workflow.

Local Open Scope workflow_scope.

(** [segment_audio] runs the external segmentation model and parses what it
    wrote; nothing is assumed about it. *)
Variable segment_audio : M (list Row).
Variable ffmpeg : ffmpeg_cmd -> gmap string content -> option content.
Variable os_remove_fails : string -> gmap string content -> bool.
Variable glob : string -> gmap string content -> list string.
Variable wav_export :
  string -> AudioSegment -> gmap string content -> export_outcome.

(** Step 2: the concatenated tracks. *)
Definition concatenated_step (create_concatenated : bool)
  (results : list (string * string)) : W (list (string * string)) :=
  if create_concatenated then
    announce (BannerStep 2) ;;
    male_concat <-
      call (extract_speaker_segments ffmpeg os_remove_fails
              "male" "male_voice_concatenated.wav") ;;
    female_concat <-
      call (extract_speaker_segments ffmpeg os_remove_fails
              "female" "female_voice_concatenated.wav") ;;
    wret (add_result "female_concatenated" female_concat
            (add_result "male_concatenated" male_concat results))
  else wret results.

(** Step 3: the synchronized tracks, with the default output names. *)
Definition synchronized_step (create_synchronized : bool)
  (results : list (string * string)) : W (list (string * string)) :=
  if create_synchronized then
    announce (BannerStep 3) ;;
    synced <-
      call (create_synchronized_tracks wav_export "male_voice_synced.wav"
              "female_voice_synced.wav") ;;
    wret (results ++ [("male_synchronized", fst synced);
                      ("female_synchronized", snd synced)])
  else wret results.

(** Step 4: the stereo mix of the two tracks step 3 stored in [results].  A
    missing key would be Python's [KeyError]; step 3 has stored both keys
    whenever this step runs, so that branch is never taken. *)
Definition stereo_step (create_stereo create_synchronized : bool)
  (results : list (string * string)) : W (list (string * string)) :=
  if create_stereo && create_synchronized then
    announce (BannerStep 4) ;;
    match results_lookup "male_synchronized" results,
          results_lookup "female_synchronized" results with
    | Some male_file, Some female_file =>
        stereo_file <-
          call (create_stereo_mix ffmpeg male_file female_file "stereo_mix.wav") ;;
        wret (add_result "stereo_mix" stereo_file results)
    | _, _ => wraise (ValueError "KeyError")
    end
  else wret results.

(** Step 5: the archives. *)
Definition archive_step (create_archives : bool)
  (results : list (string * string)) : W (list (string * string)) :=
  if create_archives then
    announce (BannerStep 5) ;;
    male_archive <- call (create_segment_archive glob "male" None) ;;
    female_archive <- call (create_segment_archive glob "female" None) ;;
    wret (add_result "female_archive" female_archive
            (add_result "male_archive" male_archive results))
  else wret results.

(** The [try] block of [process_complete_workflow]. *)
Definition workflow_steps
  (create_concatenated create_synchronized create_stereo create_archives : bool)
  : W (list (string * string)) :=
  announce (BannerStep 1) ;;
  call segment_audio ;;
  results <- concatenated_step create_concatenated [] ;;
  results <- synchronized_step create_synchronized results ;;
  results <- stereo_step create_stereo create_synchronized results ;;
  results <- archive_step create_archives results ;;
  announce BannerProcessingComplete ;;
  announce BannerCreatedFiles ;;
  announce_files results ;;
  wret results.

(** [process_complete_workflow]: any exception is printed and raised again. *)
Definition process_complete_workflow
  (create_concatenated create_synchronized create_stereo create_archives : bool)
  : W (list (string * string)) :=
  fun run =>
    match workflow_steps create_concatenated create_synchronized
            create_stereo create_archives run with
    | (Raise e, run') =>
        (Raise e, snd (announce (BannerErrorDuringProcessing e) run'))
    | ok => ok
    end.

(** [separator = PodcastSpeakerSeparator(audio_file_path)]. *)
Definition construct (path : string) : W unit :=
  fun run =>
    match init path (fs (state run)) with
    | Ret s =>
        (Ret tt,
         {| state := {| self := s; fs := fs (state run);
                        stdout := stdout (state run);
                        calls := calls (state run) |};
            banners := banners run |})
    | Raise e => (Raise e, run)
    end.

Definition is_FileNotFoundError (e : exn) : bool :=
  match e with
  | FileNotFoundError _ => true
  | _ => false
  end.

(** [main]: the recording is ["Chrono-Sampling.wav"]; the archives are not
    requested. *)
Definition main : W unit :=
  file_exists <- call (path_exists "Chrono-Sampling.wav") ;;
  if negb file_exists then
    announce (BannerAudioFileNotFound "Chrono-Sampling.wav") ;;
    announce BannerUpdatePath ;;
    wret tt
  else
    fun run =>
      match (construct "Chrono-Sampling.wav" ;;
             process_complete_workflow true true true false ;;
             announce BannerAllCompleted) run with
      | (Raise e, run') =>
          if is_FileNotFoundError e then announce (BannerFileError e) run'
          else (Raise e, snd (announce (BannerProcessingError e) run'))
      | ok => ok
      end.

End Workflow.

(** Every file [results] lists is one of [allowed] and is on disk. *)
Definition listed_files_exist (allowed : list string)
  (results : list (string * string)) (run : Run) : Prop :=
  Forall (fun kv => In (snd kv) allowed /\
                    is_Some (fs (state run) !! snd kv)) results.

(** A [segment_audio] that cannot read its input. *)
Definition failing_segmentation : M (list Row) :=
  fun st => (Raise CouldntDecodeError, st).

(** A [segment_audio] that finds the segments [df]. *)
Definition segmentation_finding (df : list Row) : M (list Row) :=
  fun st =>
    (Ret df,
     {| self := {| audio_file_path := audio_file_path (self st);
                   segments_df := Some df;
                   audio := audio (self st) |};
        fs := fs st; stdout := stdout st; calls := calls st |}).

(** A run that starts from [st] with nothing printed yet. *)
Definition fresh_run (st : State) : Run := {| state := st; banners := [] |}.

(** The whole workflow, archives included, on the worked example. *)
Definition worked_workflow : result (list (string * string)) * Run :=
  process_complete_workflow (segmentation_finding worked_table)
    reference_ffmpeg remove_always_works reference_glob export_always_works
    true true true true
    (fresh_run (loaded "Chrono-Sampling.wav" recording_10s None)).

(** [main] where the recording is on disk and the segmentation finds the
    worked example. *)
Definition worked_main : result unit * Run :=
  main (segmentation_finding worked_table)
    reference_ffmpeg remove_always_works reference_glob export_always_works
    (fresh_run (loaded "Chrono-Sampling.wav" recording_10s None)).

(** [main] where the recording is on disk and cannot be decoded. *)
Definition undecodable_main : result unit * Run :=
  main failing_segmentation
    reference_ffmpeg remove_always_works reference_glob export_always_works
    (fresh_run (loaded "Chrono-Sampling.wav" recording_10s None)).


(** * Properties *)

(** Closed equations between concrete values are settled by evaluation in the
    virtual machine, keeping the right-hand side as it is written. *)
Ltac by_evaluation :=
  lazymatch goal with
  | |- @eq ?T _ ?rhs => vm_cast_no_check (@eq_refl T rhs)
  end.


(** What a successful [rbind] was made of. *)
Ltac rbind_inv H :=
  lazymatch type of H with
  | rbind ?r _ = Ret _ =>
      let v := fresh "v" in
      let E := fresh "E" in
      destruct r as [v|] eqn:E; [cbn [rbind] in H | discriminate H]
  end.

(** ** Python numbers and audio segments *)

Section AudioFacts.

(** A float that an [int] was converted to is finite. *)
Lemma float_of_int_finite (n : Z) (x : float) :
  float_of_int n = Ret x ->
  Prim2SF x <> S754_nan /\ forall s, Prim2SF x <> S754_infinity s.
Proof.
  unfold float_of_int.
  set (y := SF2Prim _).
  destruct (Prim2SF y) eqn:E; intros [= <-]; rewrite E; split; congruence.
Qed.

(** A finite float times zero is zero. *)
Lemma int_of_float_times_zero (x : float) :
  Prim2SF x <> S754_nan -> (forall s, Prim2SF x <> S754_infinity s) ->
  int_of_float (x * (0 / 1000))%float = Ret 0.
Proof.
  intros Hnan Hinf. unfold int_of_float.
  rewrite FloatAxioms.mul_spec.
  replace (Prim2SF (0 / 1000)%float) with (S754_zero false) by reflexivity.
  destruct (Prim2SF x) as [s|s| |s m e];
    [reflexivity | now specialize (Hinf s) | congruence | reflexivity].
Qed.

(** Silence of no duration is empty, at any frame rate a float can hold. *)
Lemma silent_zero (rate : Z) (x : float) :
  float_of_int rate = Ret x ->
  silent 0 rate = Ret {| frame_rate := rate; frames := [] |}.
Proof.
  intros Hrate. unfold silent, silent_frames.
  replace (float_of_int 0) with (Ret 0%float) by reflexivity.
  cbn [rbind]. rewrite Hrate. cbn [rbind].
  destruct (float_of_int_finite rate x Hrate) as [Hnan Hinf].
  rewrite (int_of_float_times_zero x Hnan Hinf). reflexivity.
Qed.

(** A silence is at the frame rate asked for and holds silent frames only,
    as many as [silent_frames] counts. *)
Lemma silent_spec (duration rate : Z) (s : AudioSegment) :
  silent duration rate = Ret s ->
  exists n,
    silent_frames duration rate = Ret n /\
    s = {| frame_rate := rate; frames := replicate (Z.to_nat n) 0 |}.
Proof.
  unfold silent. intros H. rbind_inv H.
  destruct (PY_SSIZE_T_MAX <? 2 * v); [discriminate|].
  injection H as <-. eauto.
Qed.

Lemma silent_frame_rate (duration rate : Z) (s : AudioSegment) :
  silent duration rate = Ret s -> frame_rate s = rate.
Proof. intros H. apply silent_spec in H as (n & _ & ->). reflexivity. Qed.

Lemma silent_is_silent (duration rate : Z) (s : AudioSegment) :
  silent duration rate = Ret s -> Forall (fun frame => frame = 0) (frames s).
Proof.
  intros H. apply silent_spec in H as (n & _ & ->). cbn [frames].
  apply Forall_forall. intros x Hx. now apply elem_of_replicate in Hx.
Qed.

(** A silence can only be made at a frame rate a float can hold. *)
Lemma silent_rate_converts (duration rate : Z) (s : AudioSegment) :
  silent duration rate = Ret s -> exists x, float_of_int rate = Ret x.
Proof.
  unfold silent. intros H. rbind_inv H.
  unfold silent_frames in E. do 2 rbind_inv E. eauto.
Qed.

(** So can a duration only be measured at such a rate. *)
Lemma len_rate_converts (a : AudioSegment) (n : Z) :
  len a = Ret n -> exists x, float_of_int (frame_rate a) = Ret x.
Proof. unfold len. intros H. do 2 rbind_inv H. eauto. Qed.

(** [len] returns what the built-in [len] accepts. *)
Lemma len_range (a : AudioSegment) (n : Z) :
  len a = Ret n -> 0 <= n <= PY_SSIZE_T_MAX.
Proof.
  unfold len. intros H. do 4 rbind_inv H.
  destruct (Z.ltb_spec v2 (- PY_SSIZE_T_MAX - 1)); [discriminate|].
  destruct (Z.ltb_spec PY_SSIZE_T_MAX v2); [discriminate|].
  cbn [orb] in H.
  destruct (Z.ltb_spec v2 0); [discriminate|].
  injection H as <-. lia.
Qed.

(** A slice is at the frame rate of what it was cut from. *)
Lemma getitem_frame_rate (a seg : AudioSegment) (start_ms stop_ms : Z) :
  getitem a start_ms stop_ms = Ret seg -> frame_rate seg = frame_rate a.
Proof.
  unfold getitem. intros H. do 3 rbind_inv H. cbv zeta in H.
  destruct (_ =? 0); [now injection H as <-|].
  destruct (2 <? _); [discriminate|]. now injection H as <-.
Qed.

Lemma frame_rate_append_same (a b : AudioSegment) (r : Z) :
  frame_rate a = r -> frame_rate b = r -> frame_rate (append a b) = r.
Proof. intros Ha Hb. unfold append. simpl. rewrite Ha, Hb. lia. Qed.

(** Appending to an empty segment of the same frame rate changes nothing. *)
Lemma append_empty_l (rate : Z) (s : AudioSegment) :
  frame_rate s = rate ->
  append {| frame_rate := rate; frames := [] |} s = s.
Proof.
  intros <-. destruct s as [r fr]. unfold append. cbn.
  now rewrite Z.max_id.
Qed.

End AudioFacts.

(** ** The reconstruction loop *)

Section Reconstruction.

Variable audio : AudioSegment.

(** The only test on the cursor: a row that starts at or before it gets no
    gap silence and leaves the tracks as they are. *)
Lemma fill_gap_no_gap (t : Tracks) (start_ms : Z) :
  start_ms <= current_time_ms t -> fill_gap audio start_ms t = Ret t.
Proof.
  intros Hle. unfold fill_gap.
  destruct (Z.ltb_spec (current_time_ms t) start_ms); [lia|reflexivity].
Qed.

(** What a row does once the gap before it, if any, is filled. *)
Lemma sync_step_after_gap (t : Tracks) (row : Row) (start_ms stop_ms : Z)
  (segment_audio silence_segment : AudioSegment) :
  to_ms (start row) = Ret start_ms ->
  to_ms (stop row) = Ret stop_ms ->
  start_ms <= current_time_ms t ->
  getitem audio start_ms stop_ms = Ret segment_audio ->
  silent (stop_ms - start_ms) (frame_rate audio) = Ret silence_segment ->
  sync_step audio t row =
    Ret {| male_audio :=
             append (male_audio t)
               (if String.eqb (labels row) "male"
                then segment_audio else silence_segment);
           female_audio :=
             append (female_audio t)
               (if String.eqb (labels row) "male" then silence_segment
                else if String.eqb (labels row) "female"
                     then segment_audio else silence_segment);
           current_time_ms := stop_ms |}.
Proof.
  intros Hs He Hle Hseg Hsil. unfold sync_step.
  rewrite Hs, He. cbn [rbind]. rewrite (fill_gap_no_gap t start_ms Hle).
  cbn [rbind]. rewrite Hseg. cbn [rbind].
  destruct (String.eqb (labels row) "male");
    [|destruct (String.eqb (labels row) "female")];
    rewrite Hsil; reflexivity.
Qed.

(** With an empty table both tracks are the silence generated for the
    recording's duration in milliseconds. *)
Lemma build_tracks_empty (duration_ms : Z) (silence_segment : AudioSegment) :
  len audio = Ret duration_ms ->
  silent duration_ms (frame_rate audio) = Ret silence_segment ->
  build_tracks audio [] =
    Ret {| male_audio := silence_segment;
           female_audio := silence_segment;
           current_time_ms := 0 |}.
Proof.
  intros Hlen Hsil.
  destruct (len_rate_converts audio duration_ms Hlen) as [x Hx].
  pose proof (silent_zero (frame_rate audio) x Hx) as Hzero.
  pose proof (len_range audio duration_ms Hlen) as Hrange.
  unfold build_tracks, initial_tracks. rewrite Hzero. cbn [rbind sync_loop].
  unfold fill_tail. rewrite Hlen. cbn [rbind current_time_ms male_audio female_audio].
  destruct (Z.ltb_spec 0 duration_ms) as [Hpos|Hzero'].
  - rewrite Z.sub_0_r, Hsil. cbn [rbind].
    rewrite (append_empty_l (frame_rate audio) silence_segment)
      by (eapply silent_frame_rate; exact Hsil).
    reflexivity.
  - assert (duration_ms = 0) as -> by lia.
    rewrite Hzero in Hsil. now injection Hsil as <-.
Qed.

End Reconstruction.

(** ** [create_synchronized_tracks] as a whole *)

Section SynchronizedTracks.

Variable wav_export :
  string -> AudioSegment -> gmap string content -> export_outcome.

(** The method is its loop wrapped in decoding, measuring, reporting and
    exporting.  It passes on the exception of the loop, of a measurement or of
    an export; the three durations are printed and looked at by no branch. *)
Lemma create_synchronized_tracks_run (st : State) (df : list Row)
  (a : AudioSegment) (male_output female_output : string) :
  segments_df (self st) = Some df ->
  fs st !! audio_file_path (self st) = Some (Wav a) ->
  create_synchronized_tracks wav_export male_output female_output st =
    match build_tracks a df with
    | Raise e => (Raise e, aborted_state st a)
    | Ret t =>
        match len a with
        | Raise e => (Raise e, aborted_state st a)
        | Ret original_duration =>
            match len (male_audio t) with
            | Raise e => (Raise e, aborted_state st a)
            | Ret male_duration =>
                match len (female_audio t) with
                | Raise e => (Raise e, aborted_state st a)
                | Ret female_duration =>
                    let reported :=
                      reported_state st a
                        original_duration male_duration female_duration in
                    match wav_export male_output (male_audio t) (fs st) with
                    | ExportFailed e left_behind =>
                        (Raise e,
                         with_fs reported
                           (after_failed_export male_output left_behind (fs st)))
                    | Exported =>
                        let files :=
                          <[male_output := Wav (male_audio t)]> (fs st) in
                        match wav_export female_output (female_audio t) files with
                        | ExportFailed e left_behind =>
                            (Raise e,
                             with_fs reported
                               (after_failed_export female_output left_behind
                                  files))
                        | Exported =>
                            (Ret (male_output, female_output),
                             synchronized_state st a t
                               original_duration male_duration female_duration
                               male_output female_output)
                        end
                    end
                end
            end
        end
    end.
Proof.
  intros Hdf Hfile.
  unfold create_synchronized_tracks, bind, get_self. rewrite Hdf.
  unfold print at 1, from_file. cbn [fst snd fs self stdout calls].
  rewrite Hfile. unfold set_audio, lift. cbn [fst snd fs self stdout calls].
  destruct (build_tracks a df) as [t|e]; [|reflexivity].
  destruct (len a) as [original_duration|e]; [|reflexivity].
  destruct (len (male_audio t)) as [male_duration|e]; [|reflexivity].
  destruct (len (female_audio t)) as [female_duration|e]; [|reflexivity].
  unfold print, export, ret, with_fs, reported_state, synchronized_state,
    duration_report, with_audio, after_failed_export.
  cbn [fst snd fs self stdout calls].
  destruct (wav_export male_output (male_audio t) (fs st)) as [|e left_behind].
  - cbn [fst snd fs self stdout calls].
    destruct (wav_export female_output (female_audio t) _) as [|e left_behind].
    + cbn [fst snd fs self stdout calls]. rewrite <- !app_assoc. reflexivity.
    + destruct left_behind; cbn [fst snd fs self stdout calls];
        rewrite <- !app_assoc; reflexivity.
  - destruct left_behind; cbn [fst snd fs self stdout calls];
      rewrite <- !app_assoc; reflexivity.
Qed.

End SynchronizedTracks.

(** ** Durations of the synchronized tracks *)

(** C1, where the code departs from it: on a recording of 234 ms sampled at
    44.1 kHz (10319 frames), with twenty-six female segments of 9 ms that
    follow one another from the start of the recording to its end, the female
    track holds the 10319 frames of the recording, but the male track holds
    10296 frames only: each of its twenty-six silences is cut down to 396
    whole frames where [9 ms] are 396.9.  The male track is 23 frames and,
    as the method itself prints, one millisecond shorter than the recording
    and than the female track. *)
Theorem silences_shorten_the_other_track :
  chronological 234 0 nine_ms_table = true /\
  len recording_234ms = Ret 234 /\
  length (frames recording_234ms) = 10319%nat /\
  silent_frames 9 44100 = Ret 396 /\
  fst nine_ms_run = Ret ("male_voice_synced.wav", "female_voice_synced.wav") /\
  wav_frames (fs (snd nine_ms_run)) "male_voice_synced.wav" = Some 10296%nat /\
  wav_frames (fs (snd nine_ms_run)) "female_voice_synced.wav" =
    Some 10319%nat /\
  stdout (snd nine_ms_run) =
    [ MsgCreatingSynchronizedTracks;
      MsgDurationVerification;
      MsgOriginalDuration 234;
      MsgMaleDuration 233;
      MsgFemaleDuration 234;
      MsgSynchronizedTracksCreated;
      MsgTrackPath "male_voice_synced.wav";
      MsgTrackPath "female_voice_synced.wav" ].
Proof. repeat split; by_evaluation. Qed.

(** ** The duration check *)

(** C2, as the code has it: once the loop has built the tracks and the three
    durations are measured, [create_synchronized_tracks] prints them and goes
    on to export the male track and then the female track, whatever the
    durations are: they are compared by nothing and are no reason to raise.
    The method returns the two paths when both exports succeed; when an
    export raises, that exception is what the method raises, with the
    durations on the console and the tracks exported so far on disk. *)
Theorem durations_are_reported_not_enforced
  (wav_export : string -> AudioSegment -> gmap string content -> export_outcome)
  (st : State) (df : list Row) (a : AudioSegment) (t : Tracks)
  (original_duration male_duration female_duration : Z)
  (male_output female_output : string) :
  segments_df (self st) = Some df ->
  fs st !! audio_file_path (self st) = Some (Wav a) ->
  build_tracks a df = Ret t ->
  len a = Ret original_duration ->
  len (male_audio t) = Ret male_duration ->
  len (female_audio t) = Ret female_duration ->
  create_synchronized_tracks wav_export male_output female_output st =
    match wav_export male_output (male_audio t) (fs st) with
    | ExportFailed e left_behind =>
        (Raise e,
         with_fs
           (reported_state st a original_duration male_duration female_duration)
           (after_failed_export male_output left_behind (fs st)))
    | Exported =>
        match wav_export female_output (female_audio t)
                (<[male_output := Wav (male_audio t)]> (fs st)) with
        | ExportFailed e left_behind =>
            (Raise e,
             with_fs
               (reported_state st a
                  original_duration male_duration female_duration)
               (after_failed_export female_output left_behind
                  (<[male_output := Wav (male_audio t)]> (fs st))))
        | Exported =>
            (Ret (male_output, female_output),
             synchronized_state st a t
               original_duration male_duration female_duration
               male_output female_output)
        end
    end.
Proof.
  intros Hdf Hfile Hbuild Hlen Hmale Hfemale.
  rewrite (create_synchronized_tracks_run wav_export st df a) by assumption.
  rewrite Hbuild, Hlen, Hmale, Hfemale. reflexivity.
Qed.

(** The segment (female, 2, 11.5) on a recording of 10 s, the female track
    being asked for in a directory that does not exist: the durations 10 s,
    11.5 s and 10 s are printed, the male track is exported, and the method
    raises the [FileNotFoundError] of the second export. *)
Lemma durations_are_reported_not_enforced_late_overrun :
  build_tracks recording_10s late_overrun_table = Ret late_overrun_tracks /\
  len recording_10s = Ret 10000 /\
  len (male_audio late_overrun_tracks) = Ret 11500 /\
  len (female_audio late_overrun_tracks) = Ret 10000 /\
  run_into_missing_directory late_overrun_table =
    (Raise (FileNotFoundError "tracks/female_voice_synced.wav"),
     with_fs
       (reported_state
          (loaded "Chrono-Sampling.wav" recording_10s (Some late_overrun_table))
          recording_10s 10000 11500 10000)
       (<["male_voice_synced.wav" := Wav (male_audio late_overrun_tracks)]>
          {[ "Chrono-Sampling.wav" := Wav recording_10s ]})).
Proof.
  assert (Hbuild : build_tracks recording_10s late_overrun_table =
                   Ret late_overrun_tracks) by by_evaluation.
  assert (Hlen : len recording_10s = Ret 10000) by by_evaluation.
  assert (Hmale : len (male_audio late_overrun_tracks) = Ret 11500)
    by by_evaluation.
  assert (Hfemale : len (female_audio late_overrun_tracks) = Ret 10000)
    by by_evaluation.
  repeat (split; [assumption|]).
  exact (durations_are_reported_not_enforced export_without_directories
           (loaded "Chrono-Sampling.wav" recording_10s (Some late_overrun_table))
           late_overrun_table recording_10s late_overrun_tracks
           10000 11500 10000
           "male_voice_synced.wav" "tracks/female_voice_synced.wav"
           eq_refl eq_refl Hbuild Hlen Hmale Hfemale).
Defined.

(** C2 fails as stated: on a 10 s recording with the segment
    (female, 2, 11.5) the male track lasts 11.5 s; the method prints the
    three durations, exports both tracks and returns their paths. *)
Lemma mismatched_tracks_are_exported :
  len recording_10s = Ret 10000 /\
  fst (synced_run late_overrun_table) =
    Ret ("male_voice_synced.wav", "female_voice_synced.wav") /\
  stdout (snd (synced_run late_overrun_table)) =
    [ MsgCreatingSynchronizedTracks;
      MsgDurationVerification;
      MsgOriginalDuration 10000;
      MsgMaleDuration 11500;
      MsgFemaleDuration 10000;
      MsgSynchronizedTracksCreated;
      MsgTrackPath "male_voice_synced.wav";
      MsgTrackPath "female_voice_synced.wav" ] /\
  wav_duration (fs (snd (synced_run late_overrun_table)))
    "male_voice_synced.wav" = Some 11500 /\
  wav_duration (fs (snd (synced_run late_overrun_table)))
    "female_voice_synced.wav" = Some 10000.
Proof. repeat split; by_evaluation. Qed.

(** ** Overlapping and out-of-order segments *)

(** C3, as the code has it: the loop has no check for a segment that starts
    before the cursor.  Such a row is processed exactly as if the cursor stood
    at its start: it gets no gap silence, and whenever pydub cuts its slice
    and generates the silence of its length, which depends on the row and
    the recording alone, the slice is appended in full to the track of its
    own label and the silence to the other track (to both for any other
    label), and the cursor is set to its stop. *)
Theorem overlaps_are_not_detected (a : AudioSegment) (t : Tracks) (row : Row)
  (start_ms stop_ms : Z) :
  to_ms (start row) = Ret start_ms ->
  to_ms (stop row) = Ret stop_ms ->
  start_ms < current_time_ms t ->
  sync_step a t row =
    sync_step a
      {| male_audio := male_audio t;
         female_audio := female_audio t;
         current_time_ms := start_ms |} row /\
  forall segment_audio silence_segment : AudioSegment,
    getitem a start_ms stop_ms = Ret segment_audio ->
    silent (stop_ms - start_ms) (frame_rate a) = Ret silence_segment ->
    sync_step a t row =
      Ret {| male_audio :=
               append (male_audio t)
                 (if String.eqb (labels row) "male"
                  then segment_audio else silence_segment);
             female_audio :=
               append (female_audio t)
                 (if String.eqb (labels row) "male" then silence_segment
                  else if String.eqb (labels row) "female"
                       then segment_audio else silence_segment);
             current_time_ms := stop_ms |}.
Proof.
  intros Hs He Hreg. split.
  - unfold sync_step. rewrite Hs, He. cbn [rbind].
    rewrite !fill_gap_no_gap by (cbn [current_time_ms]; lia).
    reflexivity.
  - intros segment_audio silence_segment Hseg Hsil.
    apply (sync_step_after_gap a t row start_ms stop_ms); auto. lia.
Qed.

(** The second of the overlapping segments (male, 0, 5) and (female, 3, 8):
    it starts at 3 s when the cursor stands at 5 s. *)
Lemma overlaps_are_not_detected_overlapping :
  sync_loop recording_10s [mkRow "male" 0 5]
    {| male_audio := {| frame_rate := 1000; frames := [] |};
       female_audio := {| frame_rate := 1000; frames := [] |};
       current_time_ms := 0 |} = Ret tracks_after_first_overlap /\
  to_ms (start (mkRow "female" 3 8)) = Ret 3000 /\
  to_ms (stop (mkRow "female" 3 8)) = Ret 8000 /\
  3000 < current_time_ms tracks_after_first_overlap /\
  sync_step recording_10s tracks_after_first_overlap (mkRow "female" 3 8) =
    sync_step recording_10s
      {| male_audio := male_audio tracks_after_first_overlap;
         female_audio := female_audio tracks_after_first_overlap;
         current_time_ms := 3000 |} (mkRow "female" 3 8) /\
  forall segment_audio silence_segment : AudioSegment,
    getitem recording_10s 3000 8000 = Ret segment_audio ->
    silent (8000 - 3000) (frame_rate recording_10s) = Ret silence_segment ->
    sync_step recording_10s tracks_after_first_overlap (mkRow "female" 3 8) =
      Ret {| male_audio :=
               append (male_audio tracks_after_first_overlap)
                 (if String.eqb (labels (mkRow "female" 3 8)) "male"
                  then segment_audio else silence_segment);
             female_audio :=
               append (female_audio tracks_after_first_overlap)
                 (if String.eqb (labels (mkRow "female" 3 8)) "male"
                  then silence_segment
                  else if String.eqb (labels (mkRow "female" 3 8)) "female"
                       then segment_audio else silence_segment);
             current_time_ms := 8000 |}.
Proof.
  split; [by_evaluation|].
  assert (Hs : to_ms (start (mkRow "female" 3 8)) = Ret 3000) by by_evaluation.
  assert (He : to_ms (stop (mkRow "female" 3 8)) = Ret 8000) by by_evaluation.
  assert (Hreg : 3000 < current_time_ms tracks_after_first_overlap)
    by (cbn; lia).
  repeat (split; [assumption|]).
  exact (overlaps_are_not_detected recording_10s tracks_after_first_overlap
           (mkRow "female" 3 8) 3000 8000 Hs He Hreg).
Defined.

(** C3 fails as stated: the overlapping segments (male, 0, 5) and
    (female, 3, 8) raise nothing; the method returns, and both tracks are on
    disk, 12 s long each. *)
Lemma overlapping_segments_do_not_abort :
  fst (synced_run overlapping_table) =
    Ret ("male_voice_synced.wav", "female_voice_synced.wav") /\
  stdout (snd (synced_run overlapping_table)) =
    [ MsgCreatingSynchronizedTracks;
      MsgDurationVerification;
      MsgOriginalDuration 10000;
      MsgMaleDuration 12000;
      MsgFemaleDuration 12000;
      MsgSynchronizedTracksCreated;
      MsgTrackPath "male_voice_synced.wav";
      MsgTrackPath "female_voice_synced.wav" ] /\
  wav_duration (fs (snd (synced_run overlapping_table)))
    "male_voice_synced.wav" = Some 12000 /\
  wav_duration (fs (snd (synced_run overlapping_table)))
    "female_voice_synced.wav" = Some 12000.
Proof. repeat split; by_evaluation. Qed.

(** ** A segment that stops after the recording does *)

(** C4, where the code departs from it: on a 10 s recording the segment
    (male, 0, 12) is processed, but only its slice is clamped; the male track
    lasts 10 s and the female track 12 s. *)
Theorem overrun_stop_is_not_clamped :
  len recording_10s = Ret 10000 /\
  fst (synced_run overrun_table) =
    Ret ("male_voice_synced.wav", "female_voice_synced.wav") /\
  wav_duration (fs (snd (synced_run overrun_table)))
    "male_voice_synced.wav" = Some 10000 /\
  wav_duration (fs (snd (synced_run overrun_table)))
    "female_voice_synced.wav" = Some 12000.
Proof. repeat split; by_evaluation. Qed.

(** ** The empty table *)

(** C6, as the code has it: with an empty segments table,
    [create_synchronized_tracks] exports, for the male and for the female
    label, the silence that pydub generates for the recording's duration in
    whole milliseconds: nothing but silent frames, at the recording's frame
    rate, [int(frame_rate * (len(audio) / 1000.0))] of them; and
    [extract_speaker_segments] returns absent for every label, without
    running any command or touching any file. *)
Theorem empty_table_gives_silence_and_absent
  (ffmpeg : ffmpeg_cmd -> gmap string content -> option content)
  (os_remove_fails : string -> gmap string content -> bool)
  (wav_export : string -> AudioSegment -> gmap string content -> export_outcome)
  (st : State) (a silence_segment : AudioSegment)
  (duration_ms track_duration : Z) (male_output female_output : string) :
  segments_df (self st) = Some [] ->
  fs st !! audio_file_path (self st) = Some (Wav a) ->
  len a = Ret duration_ms ->
  silent duration_ms (frame_rate a) = Ret silence_segment ->
  len silence_segment = Ret track_duration ->
  wav_export male_output silence_segment (fs st) = Exported ->
  wav_export female_output silence_segment
    (<[male_output := Wav silence_segment]> (fs st)) = Exported ->
  (exists st',
     create_synchronized_tracks wav_export male_output female_output st =
       (Ret (male_output, female_output), st') /\
     fs st' =
       <[female_output := Wav silence_segment]>
         (<[male_output := Wav silence_segment]> (fs st)) /\
     Forall (fun frame => frame = 0) (frames silence_segment) /\
     frame_rate silence_segment = frame_rate a /\
     exists n,
       silent_frames duration_ms (frame_rate a) = Ret n /\
       length (frames silence_segment) = Z.to_nat n) /\
  (forall speaker_label output_filename : string,
     exists st',
       extract_speaker_segments ffmpeg os_remove_fails
         speaker_label output_filename st = (Ret None, st') /\
       fs st' = fs st /\ calls st' = calls st).
Proof.
  intros Hdf Hfile Hlen Hsil Htrack Hmale Hfemale. split.
  - eexists. split.
    + rewrite (create_synchronized_tracks_run wav_export st [] a)
        by assumption.
      rewrite (build_tracks_empty a duration_ms silence_segment Hlen Hsil).
      cbn [male_audio female_audio]. rewrite Hlen, Htrack. cbv zeta.
      rewrite Hmale, Hfemale. reflexivity.
    + split; [reflexivity|].
      split; [eapply silent_is_silent; exact Hsil|].
      split; [eapply silent_frame_rate; exact Hsil|].
      destruct (silent_spec _ _ _ Hsil) as (n & Hn & ->).
      exists n. split; [exact Hn|]. cbn [frames]. apply length_replicate.
  - intros speaker_label output_filename.
    unfold extract_speaker_segments, bind, get_self. rewrite Hdf.
    simpl. eexists. split; [reflexivity|]. split; reflexivity.
Qed.

Lemma empty_table_gives_silence_and_absent_recording :
  segments_df (self (loaded "Chrono-Sampling.wav" recording_10s (Some []))) =
    Some [] /\
  fs (loaded "Chrono-Sampling.wav" recording_10s (Some []))
    !! "Chrono-Sampling.wav" = Some (Wav recording_10s) /\
  len recording_10s = Ret 10000 /\
  silent 10000 (frame_rate recording_10s) =
    Ret (silence (Z.to_nat 10000) 1000) /\
  len (silence (Z.to_nat 10000) 1000) = Ret 10000 /\
  (exists st',
     synced_run [] =
       (Ret ("male_voice_synced.wav", "female_voice_synced.wav"), st') /\
     fs st' =
       <["female_voice_synced.wav" := Wav (silence (Z.to_nat 10000) 1000)]>
         (<["male_voice_synced.wav" := Wav (silence (Z.to_nat 10000) 1000)]>
            (fs (loaded "Chrono-Sampling.wav" recording_10s (Some [])))) /\
     Forall (fun frame => frame = 0)
            (frames (silence (Z.to_nat 10000) 1000)) /\
     frame_rate (silence (Z.to_nat 10000) 1000) = frame_rate recording_10s /\
     exists n,
       silent_frames 10000 (frame_rate recording_10s) = Ret n /\
       length (frames (silence (Z.to_nat 10000) 1000)) = Z.to_nat n) /\
  (forall speaker_label output_filename : string,
     exists st',
       extract_speaker_segments reference_ffmpeg remove_always_works
         speaker_label output_filename
         (loaded "Chrono-Sampling.wav" recording_10s (Some [])) =
         (Ret None, st') /\
       fs st' = fs (loaded "Chrono-Sampling.wav" recording_10s (Some [])) /\
       calls st' = calls (loaded "Chrono-Sampling.wav" recording_10s (Some []))).
Proof.
  assert (Hfile : fs (loaded "Chrono-Sampling.wav" recording_10s (Some []))
                    !! "Chrono-Sampling.wav" = Some (Wav recording_10s))
    by by_evaluation.
  assert (Hlen : len recording_10s = Ret 10000) by by_evaluation.
  assert (Hsil : silent 10000 (frame_rate recording_10s) =
                 Ret (silence (Z.to_nat 10000) 1000)) by by_evaluation.
  assert (Htrack : len (silence (Z.to_nat 10000) 1000) = Ret 10000)
    by by_evaluation.
  split; [reflexivity|]. repeat (split; [assumption|]).
  exact (empty_table_gives_silence_and_absent
           reference_ffmpeg remove_always_works export_always_works
           (loaded "Chrono-Sampling.wav" recording_10s (Some []))
           recording_10s (silence (Z.to_nat 10000) 1000) 10000 10000
           "male_voice_synced.wav" "female_voice_synced.wav"
           eq_refl Hfile Hlen Hsil Htrack eq_refl eq_refl).
Defined.

(** C6 fails as stated: a recording of 16008 frames sampled at 16 kHz lasts
    one second and half a millisecond; pydub measures 1000 ms, and with an
    empty table both exported tracks are silences of 16000 frames, eight
    frames fewer than the recording holds. *)
Lemma silent_tracks_are_shorter_than_the_recording :
  length (frames recording_16008) = 16008%nat /\
  len recording_16008 = Ret 1000 /\
  fst empty_table_run =
    Ret ("male_voice_synced.wav", "female_voice_synced.wav") /\
  wav_frames (fs (snd empty_table_run)) "male_voice_synced.wav" =
    Some 16000%nat /\
  wav_frames (fs (snd empty_table_run)) "female_voice_synced.wav" =
    Some 16000%nat /\
  wav_is_silent (fs (snd empty_table_run)) "male_voice_synced.wav" = true /\
  wav_is_silent (fs (snd empty_table_run)) "female_voice_synced.wav" = true.
Proof. repeat split; by_evaluation. Qed.

(** ** Calling a method before [segment_audio] *)

(** C9: while [segments_df] is still unset, [extract_speaker_segments] and
    [create_synchronized_tracks] both raise [ValueError], and leave the
    object, the file system, the console and the list of commands run exactly
    as they were. *)
Theorem methods_need_segmentation_first
  (ffmpeg : ffmpeg_cmd -> gmap string content -> option content)
  (os_remove_fails : string -> gmap string content -> bool)
  (wav_export : string -> AudioSegment -> gmap string content -> export_outcome)
  (st : State)
  (speaker_label output_filename male_output female_output : string) :
  segments_df (self st) = None ->
  extract_speaker_segments ffmpeg os_remove_fails
    speaker_label output_filename st =
    (Raise (ValueError "Must run segment_audio() first"), st) /\
  create_synchronized_tracks wav_export male_output female_output st =
    (Raise (ValueError "Must run segment_audio() first"), st).
Proof.
  intros Hdf. split.
  - unfold extract_speaker_segments, bind, get_self. now rewrite Hdf.
  - unfold create_synchronized_tracks, bind, get_self. now rewrite Hdf.
Qed.

Lemma methods_need_segmentation_first_fresh :
  init "Chrono-Sampling.wav" {[ "Chrono-Sampling.wav" := Wav recording_10s ]} =
    Ret (self (loaded "Chrono-Sampling.wav" recording_10s None)) /\
  segments_df (self (loaded "Chrono-Sampling.wav" recording_10s None)) = None /\
  extract_speaker_segments reference_ffmpeg remove_always_works
    "male" "male_voice_concatenated.wav"
    (loaded "Chrono-Sampling.wav" recording_10s None) =
    (Raise (ValueError "Must run segment_audio() first"),
     loaded "Chrono-Sampling.wav" recording_10s None) /\
  create_synchronized_tracks export_always_works
    "male_voice_synced.wav" "female_voice_synced.wav"
    (loaded "Chrono-Sampling.wav" recording_10s None) =
    (Raise (ValueError "Must run segment_audio() first"),
     loaded "Chrono-Sampling.wav" recording_10s None).
Proof.
  split; [by_evaluation|]. split; [reflexivity|].
  apply (methods_need_segmentation_first reference_ffmpeg remove_always_works
           export_always_works
           (loaded "Chrono-Sampling.wav" recording_10s None)).
  reflexivity.
Defined.

(** ** The stereo mix *)

Section StereoMix.

Variable ffmpeg : ffmpeg_cmd -> gmap string content -> option content.

(** The three ways [create_stereo_mix] can end. *)
Lemma create_stereo_mix_run (st : State)
  (male_file female_file output_filename : string) :
  create_stereo_mix ffmpeg male_file female_file output_filename st =
    if bool_decide (is_Some (fs st !! male_file))
       && bool_decide (is_Some (fs st !! female_file))
    then
      match ffmpeg (Amerge male_file female_file output_filename) (fs st) with
      | Some c =>
          (Ret (Some output_filename),
           {| self := self st;
              fs := <[output_filename := c]> (fs st);
              stdout := stdout st ++
                          [MsgCreatingStereoMix;
                           MsgStereoMixCreated output_filename];
              calls := calls st ++
                         [(Amerge male_file female_file output_filename, true)] |})
      | None =>
          (Ret None,
           {| self := self st;
              fs := fs st;
              stdout := stdout st ++
                          [MsgCreatingStereoMix; MsgErrorCreatingStereoMix];
              calls := calls st ++
                         [(Amerge male_file female_file output_filename, false)] |})
      end
    else
      (Ret None,
       {| self := self st; fs := fs st;
          stdout := stdout st ++ [MsgBothFilesMustExist];
          calls := calls st |}).
Proof.
  unfold create_stereo_mix, bind, path_exists. simpl.
  destruct (bool_decide (is_Some (fs st !! male_file))
            && bool_decide (is_Some (fs st !! female_file))); simpl;
    [|reflexivity].
  unfold try_except, subprocess_run, print, ret. simpl.
  destruct (ffmpeg (Amerge male_file female_file output_filename) (fs st));
    simpl; rewrite <- app_assoc; reflexivity.
Qed.

End StereoMix.

(** C5, as the code has it: [create_stereo_mix] never looks at the lengths of
    its two inputs and raises nothing.  It returns the output file name
    exactly when both input files exist and the merge command succeeds, and
    absent otherwise. *)
Theorem stereo_mix_does_not_compare_lengths
  (ffmpeg : ffmpeg_cmd -> gmap string content -> option content)
  (st : State) (male_file female_file output_filename : string) :
  exists (r : option string) (st' : State),
    create_stereo_mix ffmpeg male_file female_file output_filename st =
      (Ret r, st') /\
    (r = Some output_filename <->
       is_Some (fs st !! male_file) /\ is_Some (fs st !! female_file) /\
       is_Some (ffmpeg (Amerge male_file female_file output_filename) (fs st))) /\
    (r = None <->
       ~ (is_Some (fs st !! male_file) /\ is_Some (fs st !! female_file) /\
          is_Some (ffmpeg (Amerge male_file female_file output_filename)
                     (fs st)))).
Proof.
  rewrite create_stereo_mix_run.
  destruct (decide (is_Some (fs st !! male_file))) as [Hm|Hm].
  2: { rewrite (bool_decide_eq_false_2 _ Hm). simpl.
       do 2 eexists. split; [reflexivity|]. split; split;
         try discriminate; tauto. }
  destruct (decide (is_Some (fs st !! female_file))) as [Hf|Hf].
  2: { rewrite (bool_decide_eq_false_2 _ Hf), andb_false_r.
       do 2 eexists. split; [reflexivity|]. split; split;
         try discriminate; tauto. }
  rewrite (bool_decide_eq_true_2 _ Hm), (bool_decide_eq_true_2 _ Hf). simpl.
  destruct (ffmpeg (Amerge male_file female_file output_filename) (fs st))
    as [c|] eqn:Hc.
  - do 2 eexists. split; [reflexivity|]. split; split.
    + intros _. repeat split; eauto.
    + reflexivity.
    + discriminate.
    + intros Hnot. exfalso. apply Hnot. repeat split; eauto.
  - do 2 eexists. split; [reflexivity|]. split; split.
    + discriminate.
    + intros (_ & _ & Hsome). now destruct Hsome.
    + intros _ (_ & _ & Hsome). now destruct Hsome.
    + reflexivity.
Qed.

(** C5 fails as stated: two tracks of 10.0 s and 9.999 s are mixed without
    any error, into a stereo file that stops with the shorter one. *)
Lemma uneven_tracks_are_mixed :
  wav_duration (fs uneven_tracks) "male_voice_synced.wav" = Some 10000 /\
  wav_duration (fs uneven_tracks) "female_voice_synced.wav" = Some 9999 /\
  fst uneven_mix = Ret (Some "stereo_mix.wav") /\
  wav_duration (fs (snd uneven_mix)) "stereo_mix.wav" = Some 9999.
Proof. repeat split; by_evaluation. Qed.

(** ** The segment archive *)

Section Archive.

Variable glob : string -> gmap string content -> list string.



End Archive.


(** With no clip of the speaker on disk the method returns absent, having
    printed a notice and written nothing; it raises no exception. *)
Example empty_archive_is_reported :
  reference_glob (segment_pattern "noEnergy") (fs clips_on_disk) = [] /\
  create_segment_archive reference_glob "noEnergy" None clips_on_disk =
    (Ret None,
     {| self := self clips_on_disk; fs := fs clips_on_disk;
        stdout := [MsgNoSegmentFilesFound "noEnergy"];
        calls := [] |}) /\
  forall e : exn,
    fst (create_segment_archive reference_glob "noEnergy" None clips_on_disk)
    <> Raise e.
Proof.
  split; [by_evaluation|].
  assert (Hrun : create_segment_archive reference_glob "noEnergy" None
                   clips_on_disk =
                 (Ret None,
                  {| self := self clips_on_disk; fs := fs clips_on_disk;
                     stdout := [MsgNoSegmentFilesFound "noEnergy"];
                     calls := [] |})) by by_evaluation.
  split; [exact Hrun|]. intros e. rewrite Hrun. discriminate.
Qed.

(** The archive of the two male clips. *)
Example archive_of_male_clips :
  fst (create_segment_archive reference_glob "male" None clips_on_disk) =
    Ret (Some "male_segments.zip") /\
  fs (snd (create_segment_archive reference_glob "male" None clips_on_disk))
    !! "male_segments.zip" =
    Some (Zip [ ("male_segment_2.wav", Wav (silence (Z.to_nat 3000) 1000));
                ("male_segment_0.wav", Wav (silence (Z.to_nat 3000) 1000)) ]).
Proof. repeat split; by_evaluation. Qed.

(** ** Extraction of one speaker's segments *)

Section Extraction.

Variable ffmpeg : ffmpeg_cmd -> gmap string content -> option content.
Variable os_remove_fails : string -> gmap string content -> bool.

(** One pass of the loop body: the clip is kept when the cut succeeds; when
    it fails the failure is printed and the list of clips is left as it is. *)
Lemma extract_one_run (speaker_label : string) (segment_files : list string)
  (ir : nat * Row) (st : State) :
  extract_one ffmpeg speaker_label segment_files ir st =
    match ffmpeg (cut_cmd (audio_file_path (self st)) speaker_label ir) (fs st) with
    | Some c =>
        (Ret (segment_files ++ [segment_file_name speaker_label (fst ir)]),
         {| self := self st;
            fs := <[segment_file_name speaker_label (fst ir) := c]> (fs st);
            stdout := stdout st;
            calls := calls st ++
                       [(cut_cmd (audio_file_path (self st)) speaker_label ir, true)] |})
    | None =>
        (Ret segment_files,
         {| self := self st;
            fs := fs st;
            stdout := stdout st ++ [MsgErrorExtractingSegment (fst ir)];
            calls := calls st ++
                       [(cut_cmd (audio_file_path (self st)) speaker_label ir, false)] |})
    end.
Proof.
  unfold extract_one, bind, get_self, try_except, subprocess_run. simpl.
  destruct (ffmpeg _ (fs st)); reflexivity.
Qed.

(** The loop attempts every row, in order, whatever became of the rows before
    it; removes nothing; and returns the clips of the rows whose cut
    succeeded, in order. *)
Lemma extract_loop_run (speaker_label : string) (rows : list (nat * Row)) :
  forall (segment_files : list string) (st : State),
  exists (flags : list bool) (st' : State),
    extract_loop ffmpeg speaker_label rows segment_files st =
      (Ret (segment_files ++ clip_files speaker_label flags rows), st') /\
    length flags = length rows /\
    self st' = self st /\
    calls st' =
      calls st ++
        combine (map (cut_cmd (audio_file_path (self st)) speaker_label) rows)
                flags /\
    stdout st' = stdout st ++ failure_messages flags rows /\
    (forall p, is_Some (fs st !! p) -> is_Some (fs st' !! p)) /\
    (forall f, In f (clip_files speaker_label flags rows) ->
               is_Some (fs st' !! f)).
Proof.
  induction rows as [|ir rest IH]; intros segment_files st.
  - exists [], st. simpl. unfold ret, clip_files, failure_messages. simpl.
    rewrite !app_nil_r. repeat split; auto. intros f [].
  - simpl. unfold bind. rewrite extract_one_run.
    destruct (ffmpeg _ (fs st)) as [c|] eqn:Hcut.
    + match goal with |- context [extract_loop _ _ _ ?acc ?s] =>
        destruct (IH acc s) as (flags & st' & Hrun & Hlen & Hself & Hcalls & Hout & Hkeep & Hclips)
      end.
      simpl in *. exists (true :: flags), st'. rewrite Hrun.
      unfold clip_files, failure_messages in *. simpl.
      rewrite <- app_assoc. simpl.
      split; [reflexivity|]. split; [now rewrite Hlen|]. split; [assumption|].
      split; [rewrite Hcalls, <- app_assoc; reflexivity|].
      split; [assumption|]. split.
      * intros p Hp. apply Hkeep. rewrite lookup_insert. case_decide; eauto.
      * intros f [<-|Hf]; [|now apply Hclips].
        apply Hkeep. rewrite lookup_insert_eq. eauto.
    + match goal with |- context [extract_loop _ _ _ ?acc ?s] =>
        destruct (IH acc s) as (flags & st' & Hrun & Hlen & Hself & Hcalls & Hout & Hkeep & Hclips)
      end.
      simpl in *. exists (false :: flags), st'. rewrite Hrun.
      unfold clip_files, failure_messages in *. simpl.
      split; [reflexivity|]. split; [now rewrite Hlen|]. split; [assumption|].
      split; [rewrite Hcalls, <- app_assoc; reflexivity|].
      split; [rewrite Hout, <- app_assoc; reflexivity|].
      split; assumption.
Qed.

(** [_cleanup_temp_files] never raises; each listed file ends up removed or
    with a warning on the console; nothing else is touched. *)
Lemma cleanup_run (file_list : list string) :
  forall st : State,
  exists st' : State,
    _cleanup_temp_files os_remove_fails file_list st = (Ret tt, st') /\
    self st' = self st /\ calls st' = calls st /\
    (forall m, In m (stdout st) -> In m (stdout st')) /\
    (forall p, fs st !! p = None -> fs st' !! p = None) /\
    (forall p, In p file_list ->
               fs st' !! p = None \/ In (MsgCouldNotRemove p) (stdout st')) /\
    (forall p, ~ In p file_list -> fs st' !! p = fs st !! p).
Proof.
  induction file_list as [|file rest IH]; intros st.
  - exists st. simpl. unfold ret. repeat split; auto. intros p [].
  - simpl. unfold bind, remove_temp_file.
    destruct (decide (is_Some (fs st !! file))) as [Hex|Hex].
    + rewrite (bool_decide_eq_true_2 _ Hex).
      destruct (os_remove_fails file (fs st)); simpl.
      * match goal with |- context [_cleanup_temp_files _ _ ?s] =>
          destruct (IH s) as (st' & Hrun & Hself & Hcalls & Hout & Hnone & Hdone & Hother)
        end.
        simpl in *. exists st'. rewrite Hrun.
        split; [reflexivity|]. split; [assumption|]. split; [assumption|].
        split; [intros m Hm; apply Hout, in_or_app; now left|].
        split; [assumption|]. split.
        -- intros p [<-|Hp]; [|now apply Hdone].
           right. apply Hout, in_or_app. right. now left.
        -- intros p Hp. apply Hother. tauto.
      * match goal with |- context [_cleanup_temp_files _ _ ?s] =>
          destruct (IH s) as (st' & Hrun & Hself & Hcalls & Hout & Hnone & Hdone & Hother)
        end.
        simpl in *. exists st'. rewrite Hrun.
        split; [reflexivity|]. split; [assumption|]. split; [assumption|].
        split; [assumption|]. split.
        -- intros p Hp. apply Hnone. rewrite lookup_delete. case_decide; auto.
        -- split.
           ++ intros p [<-|Hp]; [|now apply Hdone].
              left. apply Hnone. apply lookup_delete_eq.
           ++ intros p Hp. rewrite Hother by tauto.
              apply lookup_delete_ne. intros ->. tauto.
    + rewrite (bool_decide_eq_false_2 _ Hex).
      destruct (IH st) as (st' & Hrun & Hself & Hcalls & Hout & Hnone & Hdone & Hother).
      exists st'. rewrite Hrun.
      split; [reflexivity|]. split; [assumption|]. split; [assumption|].
      split; [assumption|]. split; [assumption|]. split.
      * intros p [<-|Hp]; [|now apply Hdone].
        left. apply Hnone. destruct (fs st !! file) eqn:E; [|reflexivity].
        exfalso. apply Hex. eauto.
      * intros p Hp. apply Hother. tauto.
Qed.

End Extraction.

Section ExtractionOutcome.

Variable ffmpeg : ffmpeg_cmd -> gmap string content -> option content.
Variable os_remove_fails : string -> gmap string content -> bool.

(** The whole of [extract_speaker_segments], in terms of the state [st_cut]
    the cutting loop leaves and of the flags telling which cuts succeeded. *)
Lemma extract_speaker_segments_run (st : State) (df : list Row)
  (speaker_label output_filename : string) :
  segments_df (self st) = Some df ->
  exists (flags : list bool) (st_cut : State),
    length flags = length (filter_label speaker_label df) /\
    self st_cut = self st /\
    calls st_cut =
      calls st ++
        combine (map (cut_cmd (audio_file_path (self st)) speaker_label)
                     (filter_label speaker_label df)) flags /\
    stdout st_cut =
      stdout st ++
        MsgExtracting speaker_label
        :: failure_messages flags (filter_label speaker_label df) /\
    (forall p, is_Some (fs st !! p) -> is_Some (fs st_cut !! p)) /\
    (forall f, In f (clip_files speaker_label flags
                       (filter_label speaker_label df)) ->
               is_Some (fs st_cut !! f)) /\
    extract_speaker_segments ffmpeg os_remove_fails
      speaker_label output_filename st =
      let clips :=
        clip_files speaker_label flags (filter_label speaker_label df) in
      let list_file := list_file_name speaker_label in
      let files_at_concat :=
        <[list_file := Text (map list_file_line clips)]> (fs st_cut) in
      if is_empty clips then
        (Ret None,
         {| self := self st; fs := fs st_cut;
            stdout := stdout st_cut ++
                        [if is_empty (filter_label speaker_label df)
                         then MsgNoSegmentsFound speaker_label
                         else MsgNoSegmentsExtracted speaker_label];
            calls := calls st_cut |})
      else
        match ffmpeg (Concat list_file output_filename) files_at_concat with
        | None =>
            (Ret None,
             {| self := self st; fs := files_at_concat;
                stdout := stdout st_cut ++ [MsgErrorConcatenating];
                calls := calls st_cut ++
                           [(Concat list_file output_filename, false)] |})
        | Some c =>
            (Ret (Some output_filename),
             snd (_cleanup_temp_files os_remove_fails (clips ++ [list_file])
                    {| self := self st;
                       fs := <[output_filename := c]> files_at_concat;
                       stdout := stdout st_cut ++
                                   [MsgSuccessfullyCreated output_filename];
                       calls := calls st_cut ++
                                  [(Concat list_file output_filename, true)] |}))
        end.
Proof.
  intros Hdf.
  unfold extract_speaker_segments, bind, get_self. rewrite Hdf.
  unfold print at 1. cbn [fst snd].
  set (st1 := {| self := self st; fs := fs st;
                 stdout := stdout st ++ [MsgExtracting speaker_label];
                 calls := calls st |}).
  destruct (filter_label speaker_label df) as [|ir rest] eqn:Hrows.
  - exists [], st1. unfold clip_files, failure_messages, selected. simpl.
    rewrite app_nil_r. repeat split; auto. intros f [].
  - destruct (extract_loop_run ffmpeg speaker_label (ir :: rest) [] st1)
      as (flags & st_cut & Hrun & Hlen & Hself & Hcalls & Hout & Hkeep & Hclips).
    exists flags, st_cut. cbn [is_empty]. rewrite Hrun. cbn [app].
    simpl in Hself, Hcalls, Hout, Hkeep.
    split; [exact Hlen|]. split; [exact Hself|]. split; [exact Hcalls|].
    split; [rewrite Hout, <- app_assoc; reflexivity|].
    split; [exact Hkeep|]. split; [exact Hclips|].
    cbv zeta.
    destruct (clip_files speaker_label flags (ir :: rest)) as [|clip clips].
    + cbn [is_empty]. unfold print, ret. simpl. now rewrite Hself.
    + cbn [is_empty]. unfold write_file, try_except, subprocess_run, with_fs.
      cbn [fst snd fs self stdout calls output_of]. rewrite Hself.
      destruct (ffmpeg _ _) as [c|].
      * unfold print at 1. cbn [fst snd fs self stdout calls].
        match goal with |- context [_cleanup_temp_files _ ?l ?s] =>
          destruct (cleanup_run os_remove_fails l s) as (st' & Hclean & _)
        end.
        rewrite Hclean. reflexivity.
      * unfold print, ret. simpl. reflexivity.
Qed.

End ExtractionOutcome.

(** ** Partial failure of the extraction *)

(** C7, as the code has it: a cut that fails is printed and skipped, and
    the remaining rows are still attempted: every row of the requested label
    is cut, in order, whatever became of the others; the list handed to the
    concatenation names exactly the clips whose cut succeeded, in order; and
    the method returns absent exactly when no cut succeeded or the
    concatenation itself failed, the output file name otherwise. *)
Theorem failed_slices_are_skipped
  (ffmpeg : ffmpeg_cmd -> gmap string content -> option content)
  (os_remove_fails : string -> gmap string content -> bool)
  (st : State) (df : list Row) (speaker_label output_filename : string) :
  segments_df (self st) = Some df ->
  exists (flags : list bool) (files_at_concat : gmap string content)
         (r : option string) (st' : State),
    extract_speaker_segments ffmpeg os_remove_fails
      speaker_label output_filename st = (Ret r, st') /\
    length flags = length (filter_label speaker_label df) /\
    calls st' =
      calls st ++
        combine (map (cut_cmd (audio_file_path (self st)) speaker_label)
                     (filter_label speaker_label df)) flags ++
        (if is_empty (clip_files speaker_label flags
                        (filter_label speaker_label df))
         then []
         else [(Concat (list_file_name speaker_label) output_filename,
                exit_ok (ffmpeg (Concat (list_file_name speaker_label)
                                   output_filename) files_at_concat))]) /\
    (forall ir,
       In ir (selected (map negb flags) (filter_label speaker_label df)) ->
       In (MsgErrorExtractingSegment (fst ir)) (stdout st')) /\
    files_at_concat !! list_file_name speaker_label =
      Some (Text (map list_file_line
                    (clip_files speaker_label flags
                       (filter_label speaker_label df)))) /\
    (forall f,
       In f (clip_files speaker_label flags (filter_label speaker_label df)) ->
       is_Some (files_at_concat !! f)) /\
    (r = None <->
       clip_files speaker_label flags (filter_label speaker_label df) = [] \/
       ffmpeg (Concat (list_file_name speaker_label) output_filename)
         files_at_concat = None) /\
    (r <> None -> r = Some output_filename).
Proof.
  intros Hdf.
  destruct (extract_speaker_segments_run ffmpeg os_remove_fails st df
              speaker_label output_filename Hdf)
    as (flags & st_cut & Hlen & Hself & Hcalls & Hout & Hkeep & Hclips & Hrun).
  cbv zeta in Hrun.
  set (rows := filter_label speaker_label df) in *.
  set (list_file := list_file_name speaker_label) in *.
  exists flags,
    (<[list_file := Text (map list_file_line (clip_files speaker_label flags rows))]>
       (fs st_cut)).
  assert (Hlogged : forall ir, In ir (selected (map negb flags) rows) ->
                               In (MsgErrorExtractingSegment (fst ir)) (stdout st_cut)).
  { intros ir Hir. rewrite Hout. apply in_or_app. right. right.
    unfold failure_messages.
    apply (in_map (fun ir => MsgErrorExtractingSegment (fst ir))). exact Hir. }
  assert (Hthere : forall f, In f (clip_files speaker_label flags rows) ->
            is_Some ((<[list_file := Text (map list_file_line
                                            (clip_files speaker_label flags rows))]>
                        (fs st_cut)) !! f)).
  { intros f Hf. rewrite lookup_insert. case_decide; eauto. }
  pose proof (lookup_insert_eq (fs st_cut) list_file
                (Text (map list_file_line (clip_files speaker_label flags rows))))
    as Hlist.
  destruct (clip_files speaker_label flags rows) as [|clip clips'] eqn:Hc;
    cbn [is_empty] in Hrun |- *.
  - do 2 eexists. split; [exact Hrun|]. cbn [calls stdout].
    split; [exact Hlen|]. split; [now rewrite Hcalls, app_nil_r|].
    split; [intros ir Hir; apply in_or_app; left; now apply Hlogged|].
    split; [exact Hlist|]. split; [exact Hthere|].
    split; [tauto | congruence].
  - destruct (ffmpeg (Concat list_file output_filename) _) as [c|] eqn:Hconcat.
    + match type of Hrun with context [_cleanup_temp_files _ ?l ?s] =>
        destruct (cleanup_run os_remove_fails l s)
          as (st' & Hclean & _ & Hcalls' & Hout' & _)
      end.
      rewrite Hclean in Hrun. cbn [snd] in Hrun.
      do 2 eexists. split; [exact Hrun|].
      split; [exact Hlen|]. split.
      { rewrite Hcalls'. cbn [calls exit_ok]. rewrite Hcalls, <- app_assoc. reflexivity. }
      split.
      { intros ir Hir. apply Hout'. cbn [stdout]. apply in_or_app. left.
        now apply Hlogged. }
      split; [exact Hlist|]. split; [exact Hthere|]. split; [|reflexivity].
      split; [discriminate|]. intros [Hnil|Hnone]; discriminate.
    + do 2 eexists. split; [exact Hrun|]. cbn [calls stdout exit_ok].
      split; [exact Hlen|]. split; [now rewrite Hcalls, <- app_assoc|].
      split; [intros ir Hir; apply in_or_app; left; now apply Hlogged|].
      split; [exact Hlist|]. split; [exact Hthere|].
      split; [tauto | congruence].
Qed.

Lemma failed_slices_are_skipped_third_of_five :
  segments_df
    (self (loaded "Chrono-Sampling.wav" recording_10s (Some five_male_table))) =
    Some five_male_table /\
  exists (flags : list bool) (files_at_concat : gmap string content)
         (r : option string) (st' : State),
    male_extraction (writes_to "male_segment_2.wav") five_male_table =
      (Ret r, st') /\
    length flags = length (filter_label "male" five_male_table) /\
    calls st' =
      [] ++
        combine (map (cut_cmd "Chrono-Sampling.wav" "male")
                     (filter_label "male" five_male_table)) flags ++
        (if is_empty (clip_files "male" flags
                        (filter_label "male" five_male_table))
         then []
         else [(Concat (list_file_name "male") "male_voice_concatenated.wav",
                exit_ok (failing_ffmpeg (writes_to "male_segment_2.wav")
                           (Concat (list_file_name "male")
                              "male_voice_concatenated.wav")
                           files_at_concat))]) /\
    (forall ir,
       In ir (selected (map negb flags) (filter_label "male" five_male_table)) ->
       In (MsgErrorExtractingSegment (fst ir)) (stdout st')) /\
    files_at_concat !! list_file_name "male" =
      Some (Text (map list_file_line
                    (clip_files "male" flags
                       (filter_label "male" five_male_table)))) /\
    (forall f,
       In f (clip_files "male" flags (filter_label "male" five_male_table)) ->
       is_Some (files_at_concat !! f)) /\
    (r = None <->
       clip_files "male" flags (filter_label "male" five_male_table) = [] \/
       failing_ffmpeg (writes_to "male_segment_2.wav")
         (Concat (list_file_name "male") "male_voice_concatenated.wav")
         files_at_concat = None) /\
    (r <> None -> r = Some "male_voice_concatenated.wav").
Proof.
  split; [reflexivity|].
  apply (failed_slices_are_skipped
           (failing_ffmpeg (writes_to "male_segment_2.wav")) remove_always_works
           (loaded "Chrono-Sampling.wav" recording_10s (Some five_male_table))
           five_male_table "male" "male_voice_concatenated.wav").
  reflexivity.
Defined.

(** Slice 3 of 5 fails: the failure is printed, the other four are cut and
    concatenated into a track of four seconds. *)
Example third_slice_of_five_fails :
  fst (male_extraction (writes_to "male_segment_2.wav") five_male_table) =
    Ret (Some "male_voice_concatenated.wav") /\
  stdout (snd (male_extraction (writes_to "male_segment_2.wav") five_male_table)) =
    [ MsgExtracting "male"; MsgErrorExtractingSegment 2;
      MsgSuccessfullyCreated "male_voice_concatenated.wav" ] /\
  map (fun c => (output_of (fst c), snd c))
      (calls (snd (male_extraction (writes_to "male_segment_2.wav")
                     five_male_table))) =
    [ ("male_segment_0.wav", true); ("male_segment_1.wav", true);
      ("male_segment_2.wav", false); ("male_segment_3.wav", true);
      ("male_segment_4.wav", true); ("male_voice_concatenated.wav", true) ] /\
  wav_duration
    (fs (snd (male_extraction (writes_to "male_segment_2.wav") five_male_table)))
    "male_voice_concatenated.wav" = Some 4000.
Proof. repeat split; by_evaluation. Qed.

(** C7 fails as stated: both male slices of the worked example succeed, the
    concatenation fails, and the extraction returns absent. *)
Lemma absent_although_slices_succeeded :
  fst (male_extraction is_concat worked_table) = Ret None /\
  map (fun c => (output_of (fst c), snd c))
      (calls (snd (male_extraction is_concat worked_table))) =
    [ ("male_segment_0.wav", true); ("male_segment_2.wav", true);
      ("male_voice_concatenated.wav", false) ].
Proof. repeat split; by_evaluation. Qed.

(** ** Temporary files *)



(** After a failed concatenation the two clips and the list file are still
    on disk; after a successful one they are gone. *)
Example temp_files_after_concat :
  fst (male_extraction is_concat worked_table) = Ret None /\
  map fst (map_to_list (fs (snd (male_extraction is_concat worked_table)))) =
    [ "Chrono-Sampling.wav"; "male_segment_2.wav"; "male_segment_0.wav";
      "male_segments.txt" ] /\
  fs (snd (male_extraction is_concat worked_table)) !! "male_segments.txt" =
    Some (Text ["file 'male_segment_0.wav'"; "file 'male_segment_2.wav'"]) /\
  fst (male_extraction no_failure worked_table) =
    Ret (Some "male_voice_concatenated.wav") /\
  map fst (map_to_list (fs (snd (male_extraction no_failure worked_table)))) =
    [ "Chrono-Sampling.wav"; "male_voice_concatenated.wav" ].
Proof. repeat split; by_evaluation. Qed.

(** * More properties *)

(** ** How [create_synchronized_tracks] can end *)

Section OutcomesOfSynchronizedTracks.

Variable wav_export :
  string -> AudioSegment -> gmap string content -> export_outcome.

(** However the method ends, it runs no command and leaves the segments
    table and the path of the recording alone; and the file system is the
    one it found, changed at most where the male track and then the female
    track were exported. *)
Lemma create_synchronized_tracks_outcome (st : State)
  (male_output female_output : string) :
  exists (r : result (string * string)) (st' : State),
    create_synchronized_tracks wav_export male_output female_output st =
      (r, st') /\
    calls st' = calls st /\
    segments_df (self st') = segments_df (self st) /\
    audio_file_path (self st') = audio_file_path (self st) /\
    ((exists e, r = Raise e /\ fs st' = fs st) \/
     (exists e c, r = Raise e /\ fs st' = <[male_output := c]> (fs st)) \/
     (exists e c male_track,
        r = Raise e /\
        fs st' = <[female_output := c]>
                   (<[male_output := Wav male_track]> (fs st))) \/
     (exists male_track female_track,
        r = Ret (male_output, female_output) /\
        fs st' = <[female_output := Wav female_track]>
                   (<[male_output := Wav male_track]> (fs st)))).
Proof.
  destruct (segments_df (self st)) as [df|] eqn:Hdf.
  2: { do 2 eexists. split.
       - unfold create_synchronized_tracks, bind, get_self. rewrite Hdf.
         reflexivity.
       - rewrite Hdf. repeat split. left. eauto. }
  destruct (fs st !! audio_file_path (self st)) as [c|] eqn:Hfile.
  2: { do 2 eexists. split.
       - unfold create_synchronized_tracks, bind, get_self. rewrite Hdf.
         unfold print at 1, from_file. cbn [fst snd fs self stdout calls].
         rewrite Hfile. reflexivity.
       - cbn. repeat split; auto. left. eauto. }
  destruct c as [a|lines|entries].
  2, 3: do 2 eexists; split;
    [ unfold create_synchronized_tracks, bind, get_self; rewrite Hdf;
      unfold print at 1, from_file; cbn [fst snd fs self stdout calls];
      rewrite Hfile; reflexivity
    | cbn; repeat split; auto; left; eauto ].
  rewrite (create_synchronized_tracks_run wav_export st df a _ _ Hdf Hfile).
  destruct (build_tracks a df) as [t|e].
  2: { do 2 eexists. split; [reflexivity|]. cbn. repeat split; auto.
       left. eauto. }
  destruct (len a) as [original_duration|e].
  2: { do 2 eexists. split; [reflexivity|]. cbn. repeat split; auto.
       left. eauto. }
  destruct (len (male_audio t)) as [male_duration|e].
  2: { do 2 eexists. split; [reflexivity|]. cbn. repeat split; auto.
       left. eauto. }
  destruct (len (female_audio t)) as [female_duration|e].
  2: { do 2 eexists. split; [reflexivity|]. cbn. repeat split; auto.
       left. eauto. }
  cbv zeta.
  destruct (wav_export male_output (male_audio t) (fs st)) as [|e left_behind].
  - destruct (wav_export female_output (female_audio t) _)
      as [|e left_behind].
    + do 2 eexists. split; [reflexivity|]. cbn. repeat split; auto.
      do 3 right. eauto.
    + do 2 eexists. split; [reflexivity|]. cbn. repeat split; auto.
      destruct left_behind as [c|]; cbn.
      * right. right. left. eauto.
      * right. left. eauto.
  - do 2 eexists. split; [reflexivity|]. cbn. repeat split; auto.
    destruct left_behind as [c|]; cbn.
    + right. left. eauto.
    + left. eauto.
Qed.

End OutcomesOfSynchronizedTracks.

(** ** Failure of the reconstruction *)

(** Whenever the two tracks cannot be built (the segments table is unset,
    the recording is missing or cannot be decoded, or the loop raises on a
    time that is not a number, a slice or a silence),
    [create_synchronized_tracks] raises, having written no file and run no
    command, and with the segments table and the path of the recording as
    they were. *)
Theorem nothing_is_exported_when_reconstruction_raises
  (wav_export : string -> AudioSegment -> gmap string content -> export_outcome)
  (st : State) (male_output female_output : string) :
  (forall (df : list Row) (a : AudioSegment) (t : Tracks),
     segments_df (self st) = Some df ->
     fs st !! audio_file_path (self st) = Some (Wav a) ->
     build_tracks a df <> Ret t) ->
  exists (e : exn) (st' : State),
    create_synchronized_tracks wav_export male_output female_output st =
      (Raise e, st') /\
    fs st' = fs st /\ calls st' = calls st /\
    segments_df (self st') = segments_df (self st) /\
    audio_file_path (self st') = audio_file_path (self st).
Proof.
  intros Hnone.
  unfold create_synchronized_tracks, bind, get_self.
  destruct (segments_df (self st)) as [df|] eqn:Hdf.
  2: { do 2 eexists. split; [reflexivity|]. rewrite Hdf. auto. }
  unfold print at 1, from_file. cbn [fst snd fs self stdout calls].
  destruct (fs st !! audio_file_path (self st)) as [[a|lines|entries]|] eqn:Hfile;
    try (do 2 eexists; split; [reflexivity|]; cbn; now auto).
  unfold set_audio, lift. cbn [fst snd fs self stdout calls].
  destruct (build_tracks a df) as [t|e] eqn:Hbuild.
  - exfalso. exact (Hnone df a t eq_refl eq_refl Hbuild).
  - do 2 eexists. split; [reflexivity|]. cbn. auto.
Qed.

Lemma nothing_is_exported_when_reconstruction_raises_nan :
  build_tracks recording_10s nan_table =
    Raise (ValueError "cannot convert float NaN to integer") /\
  exists (e : exn) (st' : State),
    synced_run nan_table = (Raise e, st') /\
    fs st' = fs (loaded "Chrono-Sampling.wav" recording_10s (Some nan_table)) /\
    calls st' =
      calls (loaded "Chrono-Sampling.wav" recording_10s (Some nan_table)) /\
    segments_df (self st') =
      segments_df
        (self (loaded "Chrono-Sampling.wav" recording_10s (Some nan_table))) /\
    audio_file_path (self st') =
      audio_file_path
        (self (loaded "Chrono-Sampling.wav" recording_10s (Some nan_table))).
Proof.
  assert (Hbuild : build_tracks recording_10s nan_table =
                   Raise (ValueError "cannot convert float NaN to integer"))
    by by_evaluation.
  split; [exact Hbuild|].
  apply (nothing_is_exported_when_reconstruction_raises export_always_works
           (loaded "Chrono-Sampling.wav" recording_10s (Some nan_table))
           "male_voice_synced.wav" "female_voice_synced.wav").
  intros df a t Hdf Hfile.
  assert (Hdf' : df = nan_table) by (injection Hdf; auto).
  assert (Hfile' : fs (loaded "Chrono-Sampling.wav" recording_10s
                         (Some nan_table)) !! "Chrono-Sampling.wav" =
                   Some (Wav recording_10s)) by by_evaluation.
  assert (Ha : a = recording_10s).
  { change (fs (loaded "Chrono-Sampling.wav" recording_10s (Some nan_table))
              !! "Chrono-Sampling.wav" = Some (Wav a)) in Hfile.
    rewrite Hfile' in Hfile. injection Hfile; auto. }
  rewrite Hdf', Ha, Hbuild. discriminate.
Defined.

(** ** Invariants of the reconstruction loop *)

Section LoopInvariants.

Variable audio : AudioSegment.

(** What a successful gap filling was. *)
Lemma fill_gap_ret (t t1 : Tracks) (start_ms : Z) :
  fill_gap audio start_ms t = Ret t1 ->
  t1 = t \/
  exists silence_segment,
    silent (start_ms - current_time_ms t) (frame_rate audio) =
      Ret silence_segment /\
    t1 = {| male_audio := append (male_audio t) silence_segment;
            female_audio := append (female_audio t) silence_segment;
            current_time_ms := start_ms |}.
Proof.
  unfold fill_gap. destruct (current_time_ms t <? start_ms).
  - cbv zeta. intros H. rbind_inv H. injection H as <-. right. eauto.
  - intros [= <-]. now left.
Qed.

(** What a successful iteration was: the gap, if any, the slice and the
    silence, the slice going to the track of the row's label. *)
Lemma sync_step_ret (t t' : Tracks) (row : Row) :
  sync_step audio t row = Ret t' ->
  exists (start_ms stop_ms : Z) (t1 : Tracks)
         (segment_audio silence_segment : AudioSegment),
    to_ms (start row) = Ret start_ms /\
    to_ms (stop row) = Ret stop_ms /\
    fill_gap audio start_ms t = Ret t1 /\
    getitem audio start_ms stop_ms = Ret segment_audio /\
    silent (stop_ms - start_ms) (frame_rate audio) = Ret silence_segment /\
    t' = {| male_audio :=
              append (male_audio t1)
                (if String.eqb (labels row) "male"
                 then segment_audio else silence_segment);
            female_audio :=
              append (female_audio t1)
                (if String.eqb (labels row) "male" then silence_segment
                 else if String.eqb (labels row) "female"
                      then segment_audio else silence_segment);
            current_time_ms := stop_ms |}.
Proof.
  unfold sync_step. intros H. do 2 rbind_inv H. cbv zeta in H.
  do 2 rbind_inv H.
  exists v, v0, v1, v2.
  destruct (String.eqb (labels row) "male");
    [|destruct (String.eqb (labels row) "female")];
    rbind_inv H; injection H as <-; exists v3; repeat split; assumption.
Qed.

(** A property of the tracks that every iteration keeps holds when the loop
    is over. *)
Lemma sync_loop_invariant (P : Tracks -> Prop) (rows : list Row) :
  (forall t row t', In row rows -> P t -> sync_step audio t row = Ret t' -> P t') ->
  forall t t', P t -> sync_loop audio rows t = Ret t' -> P t'.
Proof.
  induction rows as [|row rest IH]; intros Hstep t t' HP Hloop.
  - cbn in Hloop. now injection Hloop as <-.
  - cbn [sync_loop] in Hloop. rbind_inv Hloop.
    apply (IH (fun t row' t' Hin => Hstep t row' t' (or_intror Hin)) v t');
      [|exact Hloop].
    exact (Hstep t row v (or_introl eq_refl) HP E).
Qed.

(** What a successful [build_tracks] was. *)
Lemma build_tracks_ret (rows : list Row) (t : Tracks) :
  build_tracks audio rows = Ret t ->
  exists (t0 t1 : Tracks) (duration_ms : Z),
    initial_tracks audio = Ret t0 /\
    sync_loop audio rows t0 = Ret t1 /\
    len audio = Ret duration_ms /\
    (t = t1 \/
     exists male_silence female_silence,
       silent (duration_ms - current_time_ms t1) (frame_rate audio) =
         Ret male_silence /\
       silent (duration_ms - current_time_ms t1) (frame_rate audio) =
         Ret female_silence /\
       t = {| male_audio := append (male_audio t1) male_silence;
              female_audio := append (female_audio t1) female_silence;
              current_time_ms := current_time_ms t1 |}).
Proof.
  unfold build_tracks. intros H. do 2 rbind_inv H.
  unfold fill_tail in H. rbind_inv H.
  exists v, v0, v1. repeat (split; [first [reflexivity|assumption]|]).
  destruct (current_time_ms v0 <? v1).
  - cbv zeta in H. rbind_inv H. injection H as <-. right. eauto.
  - injection H as <-. now left.
Qed.

Lemma initial_tracks_ret (t0 : Tracks) :
  initial_tracks audio = Ret t0 ->
  t0 = {| male_audio := {| frame_rate := frame_rate audio; frames := [] |};
          female_audio := {| frame_rate := frame_rate audio; frames := [] |};
          current_time_ms := 0 |}.
Proof.
  unfold initial_tracks. intros H. rbind_inv H.
  destruct (silent_rate_converts _ _ _ E) as [x Hx].
  rewrite (silent_zero _ x Hx) in E. injection E as <-.
  now injection H as <-.
Qed.

(** Both tracks stay at the recording's frame rate. *)
Lemma build_tracks_frame_rate (rows : list Row) (t : Tracks) :
  build_tracks audio rows = Ret t -> at_frame_rate audio t.
Proof.
  intros H.
  destruct (build_tracks_ret rows t H)
    as (t0 & t1 & duration_ms & Hinit & Hloop & _ & Htail).
  apply initial_tracks_ret in Hinit. subst t0.
  assert (H1 : at_frame_rate audio t1).
  { apply (sync_loop_invariant (at_frame_rate audio) rows) with (t := {| male_audio := {| frame_rate := frame_rate audio; frames := [] |}; female_audio := {| frame_rate := frame_rate audio; frames := [] |}; current_time_ms := 0 |});
      [|split; reflexivity|exact Hloop].
    clear. intros t row t' _ [Hm Hf] Hstep.
    destruct (sync_step_ret t t' row Hstep)
      as (start_ms & stop_ms & t1 & seg & sil & _ & _ & Hgap & Hseg & Hsil & ->).
    apply getitem_frame_rate in Hseg. apply silent_frame_rate in Hsil.
    assert (H1 : at_frame_rate audio t1).
    { destruct (fill_gap_ret t t1 start_ms Hgap) as [->|(gap & Hg & ->)];
        [now split|].
      apply silent_frame_rate in Hg.
      split; cbn [male_audio female_audio];
        now apply frame_rate_append_same. }
    destruct H1 as [Hm1 Hf1].
    split; cbn [male_audio female_audio]; apply frame_rate_append_same;
      try assumption;
      destruct (String.eqb (labels row) "male");
      try destruct (String.eqb (labels row) "female"); assumption. }
  destruct H1 as [Hm Hf].
  destruct Htail as [->|(ms & fsil & Hms & Hfs & ->)]; [now split|].
  apply silent_frame_rate in Hms, Hfs.
  split; cbn [male_audio female_audio]; now apply frame_rate_append_same.
Qed.

(** A track whose label no row carries holds nothing but silence. *)
Lemma build_tracks_male_silent (rows : list Row) (t : Tracks) :
  build_tracks audio rows = Ret t ->
  (forall row, In row rows -> String.eqb (labels row) "male" = false) ->
  Forall (fun frame => frame = 0) (frames (male_audio t)).
Proof.
  intros H Hnone.
  destruct (build_tracks_ret rows t H)
    as (t0 & t1 & duration_ms & Hinit & Hloop & _ & Htail).
  apply initial_tracks_ret in Hinit. subst t0.
  assert (H1 : Forall (fun frame => frame = 0) (frames (male_audio t1))).
  { eapply (sync_loop_invariant
              (fun t => Forall (fun frame => frame = 0) (frames (male_audio t)))
              rows); [ | | exact Hloop]; [|constructor].
    intros t2 row t' Hin Hm Hstep.
    destruct (sync_step_ret t2 t' row Hstep)
      as (start_ms & stop_ms & t3 & seg & sil & _ & _ & Hgap & _ & Hsil & ->).
    rewrite (Hnone row Hin). cbn [male_audio append frames].
    apply Forall_app. split; [|eapply silent_is_silent; exact Hsil].
    destruct (fill_gap_ret t2 t3 start_ms Hgap) as [->|(gap & Hg & ->)];
      [exact Hm|].
    cbn [male_audio append frames]. apply Forall_app.
    split; [exact Hm | eapply silent_is_silent; exact Hg]. }
  destruct Htail as [->|(ms & fsil & Hms & _ & ->)]; [exact H1|].
  cbn [male_audio append frames]. apply Forall_app.
  split; [exact H1 | eapply silent_is_silent; exact Hms].
Qed.

Lemma build_tracks_female_silent (rows : list Row) (t : Tracks) :
  build_tracks audio rows = Ret t ->
  (forall row, In row rows -> String.eqb (labels row) "female" = false) ->
  Forall (fun frame => frame = 0) (frames (female_audio t)).
Proof.
  intros H Hnone.
  destruct (build_tracks_ret rows t H)
    as (t0 & t1 & duration_ms & Hinit & Hloop & _ & Htail).
  apply initial_tracks_ret in Hinit. subst t0.
  assert (H1 : Forall (fun frame => frame = 0) (frames (female_audio t1))).
  { eapply (sync_loop_invariant
              (fun t => Forall (fun frame => frame = 0) (frames (female_audio t)))
              rows); [ | | exact Hloop]; [|constructor].
    intros t2 row t' Hin Hm Hstep.
    destruct (sync_step_ret t2 t' row Hstep)
      as (start_ms & stop_ms & t3 & seg & sil & _ & _ & Hgap & _ & Hsil & ->).
    rewrite (Hnone row Hin). cbn [female_audio append frames].
    apply Forall_app.
    split; [|destruct (String.eqb (labels row) "male");
             eapply silent_is_silent; exact Hsil].
    destruct (fill_gap_ret t2 t3 start_ms Hgap) as [->|(gap & Hg & ->)];
      [exact Hm|].
    cbn [female_audio append frames]. apply Forall_app.
    split; [exact Hm | eapply silent_is_silent; exact Hg]. }
  destruct Htail as [->|(ms & fsil & _ & Hfs & ->)]; [exact H1|].
  cbn [female_audio append frames]. apply Forall_app.
  split; [exact H1 | eapply silent_is_silent; exact Hfs].
Qed.

End LoopInvariants.

(** What a run that returns has exported: the two tracks that the loop
    built. *)
Lemma create_synchronized_tracks_ret
  (wav_export : string -> AudioSegment -> gmap string content -> export_outcome)
  (st st' : State) (df : list Row) (a : AudioSegment)
  (male_output female_output : string) (p : string * string) :
  segments_df (self st) = Some df ->
  fs st !! audio_file_path (self st) = Some (Wav a) ->
  create_synchronized_tracks wav_export male_output female_output st =
    (Ret p, st') ->
  exists t,
    build_tracks a df = Ret t /\
    fs st' = <[female_output := Wav (female_audio t)]>
               (<[male_output := Wav (male_audio t)]> (fs st)).
Proof.
  intros Hdf Hfile.
  rewrite (create_synchronized_tracks_run wav_export st df a _ _ Hdf Hfile).
  destruct (build_tracks a df) as [t|e]; [|discriminate].
  destruct (len a) as [original_duration|e]; [|discriminate].
  destruct (len (male_audio t)) as [male_duration|e]; [|discriminate].
  destruct (len (female_audio t)) as [female_duration|e]; [|discriminate].
  cbv zeta.
  destruct (wav_export male_output (male_audio t) (fs st)); [|discriminate].
  destruct (wav_export female_output (female_audio t) _); [|discriminate].
  intros [= _ <-]. exists t. split; reflexivity.
Qed.

(** ** The frame rate of the synchronized tracks *)

(** Whenever [create_synchronized_tracks] returns, the two files it has
    exported hold audio at the frame rate of the recording, whatever the
    segments table. *)
Theorem tracks_keep_the_frame_rate
  (wav_export : string -> AudioSegment -> gmap string content -> export_outcome)
  (st st' : State) (a : AudioSegment)
  (male_output female_output : string) (p : string * string) :
  fs st !! audio_file_path (self st) = Some (Wav a) ->
  create_synchronized_tracks wav_export male_output female_output st =
    (Ret p, st') ->
  exists male_track female_track : AudioSegment,
    fs st' !! male_output = Some (Wav male_track) /\
    fs st' !! female_output = Some (Wav female_track) /\
    frame_rate male_track = frame_rate a /\
    frame_rate female_track = frame_rate a.
Proof.
  intros Hfile Hrun.
  destruct (segments_df (self st)) as [df|] eqn:Hdf.
  2: { unfold create_synchronized_tracks, bind, get_self in Hrun.
       rewrite Hdf in Hrun. discriminate. }
  destruct (create_synchronized_tracks_ret wav_export st st' df a _ _ p
              Hdf Hfile Hrun) as (t & Hbuild & ->).
  destruct (build_tracks_frame_rate a df t Hbuild) as [Hm Hf].
  destruct (decide (male_output = female_output)) as [->|Hne].
  - exists (female_audio t), (female_audio t).
    rewrite lookup_insert_eq. auto.
  - exists (male_audio t), (female_audio t).
    rewrite lookup_insert_ne by congruence.
    rewrite !lookup_insert_eq. auto.
Qed.

Lemma tracks_keep_the_frame_rate_nine_ms :
  fs (loaded "Chrono-Sampling.wav" recording_234ms (Some nine_ms_table))
    !! "Chrono-Sampling.wav" = Some (Wav recording_234ms) /\
  nine_ms_run =
    (Ret ("male_voice_synced.wav", "female_voice_synced.wav"),
     snd nine_ms_run) /\
  exists male_track female_track : AudioSegment,
    fs (snd nine_ms_run) !! "male_voice_synced.wav" = Some (Wav male_track) /\
    fs (snd nine_ms_run) !! "female_voice_synced.wav" =
      Some (Wav female_track) /\
    frame_rate male_track = frame_rate recording_234ms /\
    frame_rate female_track = frame_rate recording_234ms.
Proof.
  assert (Hfile : fs (loaded "Chrono-Sampling.wav" recording_234ms
                        (Some nine_ms_table)) !! "Chrono-Sampling.wav" =
                  Some (Wav recording_234ms)) by by_evaluation.
  assert (Hfst : fst nine_ms_run =
                 Ret ("male_voice_synced.wav", "female_voice_synced.wav"))
    by by_evaluation.
  assert (Hrun : nine_ms_run =
                 (Ret ("male_voice_synced.wav", "female_voice_synced.wav"),
                  snd nine_ms_run)).
  { rewrite <- Hfst. apply surjective_pairing. }
  split; [exact Hfile|]. split; [exact Hrun|].
  exact (tracks_keep_the_frame_rate export_always_works
           (loaded "Chrono-Sampling.wav" recording_234ms (Some nine_ms_table))
           (snd nine_ms_run) recording_234ms
           "male_voice_synced.wav" "female_voice_synced.wav" _ Hfile Hrun).
Defined.

(** ** A label without segments *)

(** A label that no row of the table carries gets a track of silence:
    whenever [create_synchronized_tracks] returns, the male track it has
    exported holds silent frames only if no row is labelled male, and
    likewise the female track; rows of any other label and the gaps put
    silence on both. *)
Theorem track_without_segments_is_silent
  (wav_export : string -> AudioSegment -> gmap string content -> export_outcome)
  (st st' : State) (df : list Row) (a : AudioSegment)
  (male_output female_output : string) (p : string * string) :
  segments_df (self st) = Some df ->
  fs st !! audio_file_path (self st) = Some (Wav a) ->
  male_output <> female_output ->
  create_synchronized_tracks wav_export male_output female_output st =
    (Ret p, st') ->
  (forallb (fun row => negb (String.eqb (labels row) "male")) df = true ->
   exists track,
     fs st' !! male_output = Some (Wav track) /\
     Forall (fun frame => frame = 0) (frames track)) /\
  (forallb (fun row => negb (String.eqb (labels row) "female")) df = true ->
   exists track,
     fs st' !! female_output = Some (Wav track) /\
     Forall (fun frame => frame = 0) (frames track)).
Proof.
  intros Hdf Hfile Hne Hrun.
  destruct (create_synchronized_tracks_ret wav_export st st' df a _ _ p
              Hdf Hfile Hrun) as (t & Hbuild & ->).
  split; intros Hnone.
  - exists (male_audio t). split.
    + rewrite lookup_insert_ne by congruence. apply lookup_insert_eq.
    + apply (build_tracks_male_silent a df t Hbuild).
      intros row Hin. rewrite forallb_forall in Hnone.
      specialize (Hnone row Hin). now apply negb_true_iff in Hnone.
  - exists (female_audio t). split.
    + apply lookup_insert_eq.
    + apply (build_tracks_female_silent a df t Hbuild).
      intros row Hin. rewrite forallb_forall in Hnone.
      specialize (Hnone row Hin). now apply negb_true_iff in Hnone.
Qed.

Lemma track_without_segments_is_silent_nine_ms :
  segments_df
    (self (loaded "Chrono-Sampling.wav" recording_234ms (Some nine_ms_table))) =
    Some nine_ms_table /\
  fs (loaded "Chrono-Sampling.wav" recording_234ms (Some nine_ms_table))
    !! "Chrono-Sampling.wav" = Some (Wav recording_234ms) /\
  "male_voice_synced.wav" <> "female_voice_synced.wav" /\
  nine_ms_run =
    (Ret ("male_voice_synced.wav", "female_voice_synced.wav"),
     snd nine_ms_run) /\
  forallb (fun row => negb (String.eqb (labels row) "male")) nine_ms_table =
    true /\
  (forallb (fun row => negb (String.eqb (labels row) "male")) nine_ms_table =
     true ->
   exists track,
     fs (snd nine_ms_run) !! "male_voice_synced.wav" = Some (Wav track) /\
     Forall (fun frame => frame = 0) (frames track)) /\
  (forallb (fun row => negb (String.eqb (labels row) "female")) nine_ms_table =
     true ->
   exists track,
     fs (snd nine_ms_run) !! "female_voice_synced.wav" = Some (Wav track) /\
     Forall (fun frame => frame = 0) (frames track)).
Proof.
  assert (Hfile : fs (loaded "Chrono-Sampling.wav" recording_234ms
                        (Some nine_ms_table)) !! "Chrono-Sampling.wav" =
                  Some (Wav recording_234ms)) by by_evaluation.
  assert (Hne : "male_voice_synced.wav" <> "female_voice_synced.wav")
    by discriminate.
  assert (Hfst : fst nine_ms_run =
                 Ret ("male_voice_synced.wav", "female_voice_synced.wav"))
    by by_evaluation.
  assert (Hrun : nine_ms_run =
                 (Ret ("male_voice_synced.wav", "female_voice_synced.wav"),
                  snd nine_ms_run)).
  { rewrite <- Hfst. apply surjective_pairing. }
  split; [reflexivity|]. split; [exact Hfile|]. split; [exact Hne|].
  split; [exact Hrun|]. split; [by_evaluation|].
  exact (track_without_segments_is_silent export_always_works
           (loaded "Chrono-Sampling.wav" recording_234ms (Some nine_ms_table))
           (snd nine_ms_run) nine_ms_table recording_234ms
           "male_voice_synced.wav" "female_voice_synced.wav" _
           eq_refl Hfile Hne Hrun).
Defined.

(** ** A segment that reaches the end of the recording *)



(** ** Names of the clips *)

Lemma append_cancel_r (t : string) :
  forall s1 s2 : string, s1 +:+ t = s2 +:+ t -> s1 = s2.
Proof.
  assert (Hlen : forall s u : string,
            String.length (s +:+ u) = (String.length s + String.length u)%nat).
  { induction s as [|c s IH]; intros u; simpl; [|rewrite IH]; reflexivity. }
  induction s1 as [|c1 s1 IH]; intros [|c2 s2] Heq.
  - reflexivity.
  - apply (f_equal String.length) in Heq. rewrite !Hlen in Heq.
    simpl in Heq. exfalso. lia.
  - apply (f_equal String.length) in Heq. rewrite !Hlen in Heq.
    simpl in Heq. exfalso. lia.
  - simpl in Heq. injection Heq as -> Heq. f_equal. now apply IH.
Qed.

Lemma segment_file_name_inj (speaker_label : string) (i j : nat) :
  segment_file_name speaker_label i = segment_file_name speaker_label j ->
  i = j.
Proof.
  unfold segment_file_name. intros Heq.
  apply (inj (String.append speaker_label)) in Heq.
  apply (inj (String.append "_segment_")) in Heq.
  apply append_cancel_r in Heq.
  now apply (inj pretty) in Heq.
Qed.

Lemma filter_combine_seq_indices {A : Type} (keep : nat * A -> bool) (l : list A) :
  forall k : nat,
    NoDup (map fst (List.filter keep (combine (seq k (length l)) l))) /\
    forall i, In i (map fst (List.filter keep (combine (seq k (length l)) l))) ->
              (k <= i)%nat.
Proof.
  induction l as [|x l IH]; intros k; simpl.
  - split; [constructor | intros i []].
  - destruct (IH (S k)) as [Hnodup Hge].
    destruct (keep (k, x)); simpl.
    + split.
      * constructor; [|exact Hnodup].
        intros Hin. apply list_elem_of_In, Hge in Hin. lia.
      * intros i [<-|Hin]; [lia|]. apply Hge in Hin. lia.
    + split; [exact Hnodup|]. intros i Hin. apply Hge in Hin. lia.
Qed.

(** The rows of one speaker get pairwise distinct clip file names, so within
    one extraction no cut overwrites the clip of another row. *)
Theorem clip_file_names_are_distinct (speaker_label : string) (df : list Row) :
  NoDup (map (fun ir => segment_file_name speaker_label (fst ir))
             (filter_label speaker_label df)).
Proof.
  unfold filter_label, iterrows.
  destruct (filter_combine_seq_indices
              (fun ir => String.eqb (labels (snd ir)) speaker_label) df 0%nat)
    as [Hnodup _].
  rewrite <- (map_map fst (segment_file_name speaker_label)).
  apply (NoDup_fmap_2_strong (segment_file_name speaker_label)); [|exact Hnodup].
  intros i j _ _. apply segment_file_name_inj.
Qed.

(** ** Footprints of the methods *)

Section Footprints.

Context {A B : Type}.

Lemma modifies_only_ret (P : string -> Prop) (a : A) : modifies_only P (ret a).
Proof. intros st p _. reflexivity. Qed.

Lemma modifies_only_raise (P : string -> Prop) (e : exn) :
  modifies_only P (@raise A e).
Proof. intros st p _. reflexivity. Qed.

Lemma modifies_only_bind (P : string -> Prop) (m : M A) (k : A -> M B) :
  modifies_only P m -> (forall a, modifies_only P (k a)) ->
  modifies_only P (bind m k).
Proof.
  intros Hm Hk st p Hp. unfold bind.
  specialize (Hm st p Hp). destruct (m st) as [[a|e] st1]; simpl in *.
  - rewrite <- Hm. now apply Hk.
  - exact Hm.
Qed.

(** The same, when the continuation is only known to behave on the values
    [m] can return. *)
Lemma modifies_only_bind_value (P : string -> Prop) (Q : A -> Prop)
  (m : M A) (k : A -> M B) :
  modifies_only P m ->
  (forall st a st', m st = (Ret a, st') -> Q a) ->
  (forall a, Q a -> modifies_only P (k a)) ->
  modifies_only P (bind m k).
Proof.
  intros Hm HQ Hk st p Hp. unfold bind.
  specialize (Hm st p Hp). specialize (HQ st).
  destruct (m st) as [[a|e] st1]; simpl in *.
  - rewrite <- Hm. apply Hk; [|exact Hp]. now apply (HQ a st1).
  - exact Hm.
Qed.

Lemma modifies_only_try_except (P : string -> Prop) (body handler : M A)
  (caught : exn -> bool) :
  modifies_only P body -> modifies_only P handler ->
  modifies_only P (try_except body caught handler).
Proof.
  intros Hb Hh st p Hp. unfold try_except.
  specialize (Hb st p Hp). destruct (body st) as [[a|e] st1]; simpl in *.
  - exact Hb.
  - destruct (caught e); simpl; [|exact Hb]. rewrite <- Hb. now apply Hh.
Qed.

Lemma keeps_object_ret (a : A) : keeps_object (ret a).
Proof. intros st. reflexivity. Qed.

Lemma keeps_object_raise (e : exn) : keeps_object (@raise A e).
Proof. intros st. reflexivity. Qed.

Lemma keeps_object_bind (m : M A) (k : A -> M B) :
  keeps_object m -> (forall a, keeps_object (k a)) -> keeps_object (bind m k).
Proof.
  intros Hm Hk st. unfold bind.
  specialize (Hm st). destruct (m st) as [[a|e] st1]; simpl in *.
  - rewrite <- Hm. apply Hk.
  - exact Hm.
Qed.

Lemma keeps_object_try_except (body handler : M A) (caught : exn -> bool) :
  keeps_object body -> keeps_object handler ->
  keeps_object (try_except body caught handler).
Proof.
  intros Hb Hh st. unfold try_except.
  specialize (Hb st). destruct (body st) as [[a|e] st1]; simpl in *.
  - exact Hb.
  - destruct (caught e); simpl; [|exact Hb]. rewrite <- Hb. apply Hh.
Qed.

End Footprints.

Section FootprintsOfSteps.

Variable ffmpeg : ffmpeg_cmd -> gmap string content -> option content.
Variable os_remove_fails : string -> gmap string content -> bool.

Lemma modifies_only_print (P : string -> Prop) (m : message) :
  modifies_only P (print m).
Proof. intros st p _. reflexivity. Qed.

Lemma keeps_object_print (m : message) : keeps_object (print m).
Proof. intros st. reflexivity. Qed.

Lemma modifies_only_get_self (P : string -> Prop) : modifies_only P get_self.
Proof. intros st p _. reflexivity. Qed.

Lemma keeps_object_get_self : keeps_object get_self.
Proof. intros st. reflexivity. Qed.

Lemma modifies_only_write_file (P : string -> Prop) (path : string) (c : content) :
  P path -> modifies_only P (write_file path c).
Proof.
  intros HP st p Hp. simpl. apply lookup_insert_ne. intros ->. contradiction.
Qed.

Lemma keeps_object_write_file (path : string) (c : content) :
  keeps_object (write_file path c).
Proof. intros st. reflexivity. Qed.

Lemma modifies_only_subprocess_run (P : string -> Prop) (cmd : ffmpeg_cmd) :
  P (output_of cmd) -> modifies_only P (subprocess_run ffmpeg cmd).
Proof.
  intros HP st p Hp. unfold subprocess_run.
  destruct (ffmpeg cmd (fs st)); simpl; [|reflexivity].
  apply lookup_insert_ne. intros Heq. apply Hp. now rewrite <- Heq.
Qed.

Lemma keeps_object_subprocess_run (cmd : ffmpeg_cmd) :
  keeps_object (subprocess_run ffmpeg cmd).
Proof.
  intros st. unfold subprocess_run. destruct (ffmpeg cmd (fs st)); reflexivity.
Qed.

Lemma modifies_only_cleanup (P : string -> Prop) (file_list : list string) :
  Forall P file_list ->
  modifies_only P (_cleanup_temp_files os_remove_fails file_list).
Proof.
  induction file_list as [|file rest IH]; intros Hall.
  - apply modifies_only_ret.
  - apply Forall_cons in Hall as [Hfile Hrest]. simpl.
    apply modifies_only_bind; [|intros _; now apply IH].
    intros st p Hp. unfold remove_temp_file.
    destruct (bool_decide (is_Some (fs st !! file))); [|reflexivity].
    destruct (os_remove_fails file (fs st)); simpl; [reflexivity|].
    apply lookup_delete_ne. intros ->. contradiction.
Qed.

Lemma keeps_object_cleanup (file_list : list string) :
  keeps_object (_cleanup_temp_files os_remove_fails file_list).
Proof.
  induction file_list as [|file rest IH]; simpl.
  - apply keeps_object_ret.
  - apply keeps_object_bind; [|intros _; exact IH].
    intros st. unfold remove_temp_file.
    destruct (bool_decide (is_Some (fs st !! file))); [|reflexivity].
    destruct (os_remove_fails file (fs st)); reflexivity.
Qed.

Lemma modifies_only_extract_loop (P : string -> Prop) (speaker_label : string)
  (rows : list (nat * Row)) :
  (forall idx, P (segment_file_name speaker_label idx)) ->
  forall segment_files,
    modifies_only P (extract_loop ffmpeg speaker_label rows segment_files).
Proof.
  intros HP. induction rows as [|ir rest IH]; intros segment_files; simpl.
  - apply modifies_only_ret.
  - apply modifies_only_bind; [|intros files; apply IH].
    unfold extract_one. apply modifies_only_bind; [apply modifies_only_get_self|].
    intros s. apply modifies_only_try_except.
    + apply modifies_only_bind; [|intros _; apply modifies_only_ret].
      apply modifies_only_subprocess_run. apply HP.
    + apply modifies_only_bind; [apply modifies_only_print|].
      intros _. apply modifies_only_ret.
Qed.

(** The loop returns the names it was given followed by clip names only. *)
Lemma extract_loop_returns_clips (P : string -> Prop) (speaker_label : string)
  (rows : list (nat * Row)) :
  (forall idx, P (segment_file_name speaker_label idx)) ->
  forall segment_files st files st',
    Forall P segment_files ->
    extract_loop ffmpeg speaker_label rows segment_files st = (Ret files, st') ->
    Forall P files.
Proof.
  intros HP. induction rows as [|ir rest IH]; intros acc st files st' Hacc; simpl.
  - unfold ret. now intros [= <- _].
  - unfold bind. rewrite extract_one_run.
    destruct (ffmpeg _ (fs st)); apply IH; [|assumption].
    apply Forall_app. split; [assumption|]. constructor; [apply HP|constructor].
Qed.

Lemma keeps_object_extract_loop (speaker_label : string)
  (rows : list (nat * Row)) :
  forall segment_files,
    keeps_object (extract_loop ffmpeg speaker_label rows segment_files).
Proof.
  induction rows as [|ir rest IH]; intros segment_files; simpl.
  - apply keeps_object_ret.
  - apply keeps_object_bind; [|intros files; apply IH].
    unfold extract_one. apply keeps_object_bind; [apply keeps_object_get_self|].
    intros s. apply keeps_object_try_except.
    + apply keeps_object_bind; [|intros _; apply keeps_object_ret].
      apply keeps_object_subprocess_run.
    + apply keeps_object_bind; [apply keeps_object_print|].
      intros _. apply keeps_object_ret.
Qed.

End FootprintsOfSteps.

Lemma extraction_footprint
  (ffmpeg : ffmpeg_cmd -> gmap string content -> option content)
  (os_remove_fails : string -> gmap string content -> bool)
  (speaker_label output_filename : string) :
  modifies_only (extraction_file speaker_label output_filename)
    (extract_speaker_segments ffmpeg os_remove_fails
       speaker_label output_filename).
Proof.
  unfold extract_speaker_segments.
  apply modifies_only_bind; [apply modifies_only_get_self|]. intros s.
  destruct (segments_df s) as [df|]; [|apply modifies_only_raise].
  apply modifies_only_bind; [apply modifies_only_print|]. intros _.
  destruct (is_empty (filter_label speaker_label df)).
  { apply modifies_only_bind; [apply modifies_only_print|].
    intros _. apply modifies_only_ret. }
  apply (modifies_only_bind_value _
           (Forall (extraction_file speaker_label output_filename))).
  { apply modifies_only_extract_loop. intros idx. right. right. eauto. }
  { intros st files st'.
    apply (extract_loop_returns_clips ffmpeg _ speaker_label); [|constructor].
    intros idx. right. right. eauto. }
  intros segment_files Hclips.
  destruct (is_empty segment_files) eqn:Hempty.
  { apply modifies_only_bind; [apply modifies_only_print|].
    intros _. apply modifies_only_ret. }
  apply modifies_only_bind.
  { apply modifies_only_write_file. right. now left. }
  intros _. apply modifies_only_try_except.
  - apply modifies_only_bind.
    { apply modifies_only_subprocess_run. now left. }
    intros _. apply modifies_only_bind; [apply modifies_only_print|].
    intros _. apply modifies_only_bind; [|intros _; apply modifies_only_ret].
    apply modifies_only_cleanup. apply Forall_app. split; [exact Hclips|].
    constructor; [|constructor]. right. now left.
  - apply modifies_only_bind; [apply modifies_only_print|].
    intros _. apply modifies_only_ret.
Qed.

(** However it ends, and whatever [ffmpeg] and [os.remove] do,
    [extract_speaker_segments] writes and removes nothing but the clips of
    the requested label, that label's list file and the output file: every
    other file, the recording among them, is left as it was. *)
Theorem extraction_touches_only_its_own_files
  (ffmpeg : ffmpeg_cmd -> gmap string content -> option content)
  (os_remove_fails : string -> gmap string content -> bool)
  (speaker_label output_filename : string) (st : State) (p : string) :
  p <> output_filename ->
  p <> list_file_name speaker_label ->
  (forall idx : nat, p <> segment_file_name speaker_label idx) ->
  fs (snd (extract_speaker_segments ffmpeg os_remove_fails
             speaker_label output_filename st)) !! p = fs st !! p.
Proof.
  intros Hout Hlist Hclip. apply extraction_footprint.
  intros [Heq|[Heq|[idx Heq]]]; [exact (Hout Heq) | exact (Hlist Heq) |].
  exact (Hclip idx Heq).
Qed.

Lemma extraction_touches_only_its_own_files_recording :
  "Chrono-Sampling.wav" <> "male_voice_concatenated.wav" /\
  "Chrono-Sampling.wav" <> list_file_name "male" /\
  (forall idx : nat, "Chrono-Sampling.wav" <> segment_file_name "male" idx) /\
  fs (snd (male_extraction (writes_to "male_segment_2.wav") five_male_table))
    !! "Chrono-Sampling.wav" =
    fs (loaded "Chrono-Sampling.wav" recording_10s (Some five_male_table))
      !! "Chrono-Sampling.wav".
Proof.
  assert (H1 : "Chrono-Sampling.wav" <> "male_voice_concatenated.wav")
    by discriminate.
  assert (H2 : "Chrono-Sampling.wav" <> list_file_name "male") by discriminate.
  assert (H3 : forall idx : nat,
            "Chrono-Sampling.wav" <> segment_file_name "male" idx)
    by (intros idx; discriminate).
  split; [exact H1|]. split; [exact H2|]. split; [exact H3|].
  exact (extraction_touches_only_its_own_files
           (failing_ffmpeg (writes_to "male_segment_2.wav")) remove_always_works
           "male" "male_voice_concatenated.wav"
           (loaded "Chrono-Sampling.wav" recording_10s (Some five_male_table))
           "Chrono-Sampling.wav" H1 H2 H3).
Defined.

Section MoreFootprints.

Variable ffmpeg : ffmpeg_cmd -> gmap string content -> option content.
Variable os_remove_fails : string -> gmap string content -> bool.
Variable glob : string -> gmap string content -> list string.
Variable wav_export :
  string -> AudioSegment -> gmap string content -> export_outcome.

Lemma keeps_object_extract (speaker_label output_filename : string) :
  keeps_object (extract_speaker_segments ffmpeg os_remove_fails
                  speaker_label output_filename).
Proof.
  unfold extract_speaker_segments.
  apply keeps_object_bind; [apply keeps_object_get_self|]. intros s.
  destruct (segments_df s) as [df|]; [|apply keeps_object_raise].
  apply keeps_object_bind; [apply keeps_object_print|]. intros _.
  destruct (is_empty (filter_label speaker_label df)).
  { apply keeps_object_bind; [apply keeps_object_print|].
    intros _. apply keeps_object_ret. }
  apply keeps_object_bind; [apply keeps_object_extract_loop|].
  intros segment_files. destruct (is_empty segment_files).
  { apply keeps_object_bind; [apply keeps_object_print|].
    intros _. apply keeps_object_ret. }
  apply keeps_object_bind; [apply keeps_object_write_file|].
  intros _. apply keeps_object_try_except.
  - apply keeps_object_bind; [apply keeps_object_subprocess_run|].
    intros _. apply keeps_object_bind; [apply keeps_object_print|].
    intros _. apply keeps_object_bind; [apply keeps_object_cleanup|].
    intros _. apply keeps_object_ret.
  - apply keeps_object_bind; [apply keeps_object_print|].
    intros _. apply keeps_object_ret.
Qed.

Lemma stereo_mix_footprint (male_file female_file output_filename : string) :
  modifies_only (fun p => p = output_filename)
    (create_stereo_mix ffmpeg male_file female_file output_filename) /\
  keeps_object (create_stereo_mix ffmpeg male_file female_file output_filename).
Proof.
  split.
  - intros st p Hp. rewrite create_stereo_mix_run.
    destruct (_ && _); [|reflexivity].
    destruct (ffmpeg _ (fs st)); simpl; [|reflexivity].
    apply lookup_insert_ne. intros Heq. now apply Hp.
  - intros st. rewrite create_stereo_mix_run.
    destruct (_ && _); [|reflexivity].
    destruct (ffmpeg _ (fs st)); reflexivity.
Qed.

Lemma archive_loop_footprint (archive_name : string) (segment_files : list string) :
  modifies_only (fun p => p = archive_name)
    (archive_loop archive_name segment_files) /\
  keeps_object (archive_loop archive_name segment_files).
Proof.
  induction segment_files as [|file rest [IHm IHk]]; simpl.
  - split; [apply modifies_only_ret | apply keeps_object_ret].
  - split.
    + apply modifies_only_bind; [|intros _; exact IHm].
      intros st p Hp. unfold zip_write. destruct (fs st !! file); [|reflexivity].
      simpl. apply lookup_insert_ne. intros Heq. now apply Hp.
    + apply keeps_object_bind; [|intros _; exact IHk].
      intros st. unfold zip_write. destruct (fs st !! file); reflexivity.
Qed.

Lemma archive_footprint (speaker_label : string) (archive_name : option string) :
  modifies_only (fun p => p = archive_file_name speaker_label archive_name)
    (create_segment_archive glob speaker_label archive_name) /\
  keeps_object (create_segment_archive glob speaker_label archive_name).
Proof.
  unfold create_segment_archive. split.
  - apply modifies_only_bind; [intros st p _; reflexivity|]. intros files.
    destruct (is_empty _).
    { apply modifies_only_bind; [apply modifies_only_print|].
      intros _. apply modifies_only_ret. }
    apply modifies_only_bind; [apply modifies_only_print|]. intros _.
    apply modifies_only_bind; [now apply modifies_only_write_file|]. intros _.
    apply modifies_only_bind; [apply archive_loop_footprint|]. intros _.
    apply modifies_only_bind; [apply modifies_only_print|].
    intros _. apply modifies_only_ret.
  - apply keeps_object_bind; [intros st; reflexivity|]. intros files.
    destruct (is_empty _).
    { apply keeps_object_bind; [apply keeps_object_print|].
      intros _. apply keeps_object_ret. }
    apply keeps_object_bind; [apply keeps_object_print|]. intros _.
    apply keeps_object_bind; [apply keeps_object_write_file|]. intros _.
    apply keeps_object_bind; [apply archive_loop_footprint|]. intros _.
    apply keeps_object_bind; [apply keeps_object_print|].
    intros _. apply keeps_object_ret.
Qed.

Lemma synchronized_tracks_footprint (male_output female_output : string) :
  modifies_only (fun p => p = male_output \/ p = female_output)
    (create_synchronized_tracks wav_export male_output female_output) /\
  forall st,
    segments_df (self (snd (create_synchronized_tracks wav_export male_output
                              female_output st))) = segments_df (self st) /\
    audio_file_path (self (snd (create_synchronized_tracks wav_export
                                  male_output female_output st))) =
      audio_file_path (self st).
Proof.
  split.
  - intros st p Hp.
    destruct (create_synchronized_tracks_outcome wav_export st
                male_output female_output)
      as (r & st' & Hrun & _ & _ & _ & Hfs).
    rewrite Hrun. cbn [snd].
    destruct Hfs as [(e & _ & ->)|[(e & c & _ & ->)|[(e & c & m & _ & ->)|
                     (m & f & _ & ->)]]];
      rewrite ?lookup_insert_ne; auto; intros Heq; apply Hp; auto.
  - intros st.
    destruct (create_synchronized_tracks_outcome wav_export st
                male_output female_output)
      as (r & st' & Hrun & _ & Hdf & Hpath & _).
    rewrite Hrun. cbn [snd]. auto.
Qed.

End MoreFootprints.

(** A file that is none of their outputs is left as it was by
    [create_synchronized_tracks], [create_stereo_mix] and
    [create_segment_archive], however they end: each of them writes its own
    output files and nothing else, and none of them removes a file. *)
Theorem methods_touch_only_their_outputs
  (ffmpeg : ffmpeg_cmd -> gmap string content -> option content)
  (glob : string -> gmap string content -> list string)
  (wav_export : string -> AudioSegment -> gmap string content -> export_outcome)
  (st : State) (p : string)
  (male_output female_output male_file female_file output_filename
     speaker_label : string) (archive_name : option string) :
  p <> male_output -> p <> female_output -> p <> output_filename ->
  p <> archive_file_name speaker_label archive_name ->
  fs (snd (create_synchronized_tracks wav_export male_output female_output
             st)) !! p = fs st !! p /\
  fs (snd (create_stereo_mix ffmpeg male_file female_file output_filename st))
    !! p = fs st !! p /\
  fs (snd (create_segment_archive glob speaker_label archive_name st)) !! p =
    fs st !! p.
Proof.
  intros Hm Hf Ho Ha. split; [|split].
  - apply (proj1 (synchronized_tracks_footprint wav_export
                    male_output female_output)).
    intros [Heq|Heq]; auto.
  - apply (proj1 (stereo_mix_footprint ffmpeg male_file female_file
                    output_filename)). exact Ho.
  - apply (proj1 (archive_footprint glob speaker_label archive_name)). exact Ha.
Qed.

Lemma methods_touch_only_their_outputs_recording :
  "Chrono-Sampling.wav" <> "male_voice_synced.wav" /\
  "Chrono-Sampling.wav" <> "female_voice_synced.wav" /\
  "Chrono-Sampling.wav" <> "stereo_mix.wav" /\
  "Chrono-Sampling.wav" <> archive_file_name "male" None /\
  fs (snd (create_synchronized_tracks export_always_works
             "male_voice_synced.wav" "female_voice_synced.wav" clips_on_disk))
    !! "Chrono-Sampling.wav" = fs clips_on_disk !! "Chrono-Sampling.wav" /\
  fs (snd (create_stereo_mix reference_ffmpeg "male_voice_synced.wav"
             "female_voice_synced.wav" "stereo_mix.wav" clips_on_disk))
    !! "Chrono-Sampling.wav" = fs clips_on_disk !! "Chrono-Sampling.wav" /\
  fs (snd (create_segment_archive reference_glob "male" None clips_on_disk))
    !! "Chrono-Sampling.wav" = fs clips_on_disk !! "Chrono-Sampling.wav".
Proof.
  assert (H1 : "Chrono-Sampling.wav" <> "male_voice_synced.wav") by discriminate.
  assert (H2 : "Chrono-Sampling.wav" <> "female_voice_synced.wav") by discriminate.
  assert (H3 : "Chrono-Sampling.wav" <> "stereo_mix.wav") by discriminate.
  assert (H4 : "Chrono-Sampling.wav" <> archive_file_name "male" None)
    by discriminate.
  split; [exact H1|]. split; [exact H2|]. split; [exact H3|]. split; [exact H4|].
  exact (methods_touch_only_their_outputs reference_ffmpeg reference_glob
           export_always_works clips_on_disk "Chrono-Sampling.wav"
           "male_voice_synced.wav" "female_voice_synced.wav"
           "male_voice_synced.wav" "female_voice_synced.wav" "stereo_mix.wav"
           "male" None H1 H2 H3 H4).
Defined.

(** No method ever changes the segments table or the path of the recording:
    extraction, stereo mix and archiving leave the whole object as it was,
    and [create_synchronized_tracks] changes at most the cached recording. *)
Theorem methods_keep_the_segments_table
  (ffmpeg : ffmpeg_cmd -> gmap string content -> option content)
  (os_remove_fails : string -> gmap string content -> bool)
  (glob : string -> gmap string content -> list string)
  (wav_export : string -> AudioSegment -> gmap string content -> export_outcome)
  (st : State)
  (speaker_label output_filename male_file female_file male_output
     female_output : string) (archive_name : option string) :
  self (snd (extract_speaker_segments ffmpeg os_remove_fails
               speaker_label output_filename st)) = self st /\
  self (snd (create_stereo_mix ffmpeg male_file female_file
               output_filename st)) = self st /\
  self (snd (create_segment_archive glob speaker_label archive_name st)) =
    self st /\
  segments_df (self (snd (create_synchronized_tracks wav_export male_output
                            female_output st))) = segments_df (self st) /\
  audio_file_path (self (snd (create_synchronized_tracks wav_export
                                male_output female_output st))) =
    audio_file_path (self st).
Proof.
  split; [apply keeps_object_extract|].
  split; [apply stereo_mix_footprint|].
  split; [apply archive_footprint|].
  apply (proj2 (synchronized_tracks_footprint wav_export
                  male_output female_output)).
Qed.

(** ** More on the extraction *)

Lemma filter_label_absent (speaker_label : string) (df : list Row) :
  Forall (fun row => labels row <> speaker_label) df ->
  filter_label speaker_label df = [].
Proof.
  intros Hall. unfold filter_label, iterrows.
  generalize 0%nat. induction Hall as [|row rest Hrow Hrest IH]; intros k.
  - reflexivity.
  - simpl. apply String.eqb_neq in Hrow. rewrite Hrow. apply IH.
Qed.

(** A speaker label that no row carries: [extract_speaker_segments] says so
    and returns absent; it runs no command and touches no file. *)
Theorem absent_speaker_is_not_extracted
  (ffmpeg : ffmpeg_cmd -> gmap string content -> option content)
  (os_remove_fails : string -> gmap string content -> bool)
  (st : State) (df : list Row) (speaker_label output_filename : string) :
  segments_df (self st) = Some df ->
  Forall (fun row => labels row <> speaker_label) df ->
  extract_speaker_segments ffmpeg os_remove_fails
    speaker_label output_filename st =
    (Ret None,
     {| self := self st; fs := fs st;
        stdout := stdout st ++ [MsgExtracting speaker_label;
                                MsgNoSegmentsFound speaker_label];
        calls := calls st |}).
Proof.
  intros Hdf Hall. unfold extract_speaker_segments, bind, get_self.
  rewrite Hdf, (filter_label_absent _ _ Hall). simpl.
  unfold ret. now rewrite <- app_assoc.
Qed.

Lemma absent_speaker_is_not_extracted_music :
  segments_df (self (loaded "Chrono-Sampling.wav" recording_10s
                       (Some worked_table))) = Some worked_table /\
  Forall (fun row => labels row <> "music") worked_table /\
  extract_speaker_segments reference_ffmpeg remove_always_works
    "music" "music_concatenated.wav"
    (loaded "Chrono-Sampling.wav" recording_10s (Some worked_table)) =
    (Ret None,
     {| self := self (loaded "Chrono-Sampling.wav" recording_10s
                        (Some worked_table));
        fs := fs (loaded "Chrono-Sampling.wav" recording_10s (Some worked_table));
        stdout := stdout (loaded "Chrono-Sampling.wav" recording_10s
                            (Some worked_table))
                  ++ [MsgExtracting "music"; MsgNoSegmentsFound "music"];
        calls := calls (loaded "Chrono-Sampling.wav" recording_10s
                          (Some worked_table)) |}).
Proof.
  assert (Hall : Forall (fun row => labels row <> "music") worked_table)
    by (repeat constructor; discriminate).
  split; [reflexivity|]. split; [exact Hall|].
  exact (absent_speaker_is_not_extracted reference_ffmpeg remove_always_works
           (loaded "Chrono-Sampling.wav" recording_10s (Some worked_table))
           worked_table "music" "music_concatenated.wav" eq_refl Hall).
Defined.

Section ReliableRemoval.

Variable ffmpeg : ffmpeg_cmd -> gmap string content -> option content.
Variable os_remove_fails : string -> gmap string content -> bool.
Hypothesis removal_works : forall p files, os_remove_fails p files = false.

Lemma cleanup_reliable (file_list : list string) :
  forall st : State,
    (forall p, In p file_list ->
               fs (snd (_cleanup_temp_files os_remove_fails file_list st)) !! p
               = None) /\
    (forall p, ~ In p file_list ->
               fs (snd (_cleanup_temp_files os_remove_fails file_list st)) !! p
               = fs st !! p).
Proof.
  induction file_list as [|file rest IH]; intros st.
  - split; [intros p []|reflexivity].
  - set (st1 := if bool_decide (is_Some (fs st !! file))
                then with_fs st (delete file (fs st)) else st).
    assert (Hstep : _cleanup_temp_files os_remove_fails (file :: rest) st =
                    _cleanup_temp_files os_remove_fails rest st1).
    { simpl. unfold bind, remove_temp_file, st1. rewrite removal_works.
      destruct (bool_decide (is_Some (fs st !! file))); reflexivity. }
    assert (Hfile : fs st1 !! file = None).
    { unfold st1. destruct (decide (is_Some (fs st !! file))) as [Hex|Hex].
      - rewrite (bool_decide_eq_true_2 _ Hex). simpl. apply lookup_delete_eq.
      - rewrite (bool_decide_eq_false_2 _ Hex).
        destruct (fs st !! file) eqn:E; [|reflexivity]. exfalso. apply Hex. eauto. }
    assert (Hother : forall p, p <> file -> fs st1 !! p = fs st !! p).
    { intros p Hp. unfold st1.
      destruct (bool_decide (is_Some (fs st !! file))); [|reflexivity].
      simpl. now apply lookup_delete_ne. }
    rewrite Hstep. destruct (IH st1) as [Hin Hout]. split.
    + intros p [<-|Hp]; [|now apply Hin].
      destruct (in_dec string_dec file rest) as [Hr|Hr]; [now apply Hin|].
      now rewrite (Hout file Hr).
    + intros p Hp. rewrite Hout by (simpl in Hp; tauto).
      apply Hother. intros ->. apply Hp. now left.
Qed.

Lemma successful_cuts_are_clips (path speaker_label : string)
  (rows : list (nat * Row)) :
  forall (flags : list bool) (c : ffmpeg_cmd),
    In (c, true) (combine (map (cut_cmd path speaker_label) rows) flags) ->
    In (output_of c) (clip_files speaker_label flags rows).
Proof.
  induction rows as [|ir rest IH]; intros [|flag flags] c Hin; simpl in *;
    try contradiction.
  unfold clip_files, selected in *. simpl.
  destruct Hin as [[= <- ->]|Hin].
  - simpl. now left.
  - destruct flag; simpl; [right|]; now apply IH.
Qed.

(** When removal works and the output file is not itself named like a clip or
    the list file, a successful extraction leaves the output file on disk and
    none of its temporary files: the list file is gone, and so is the clip of
    every cut that succeeded. *)
Theorem successful_extraction_leaves_only_the_output (st st' : State)
  (df : list Row) (speaker_label output_filename o : string) :
  segments_df (self st) = Some df ->
  output_filename <> list_file_name speaker_label ->
  (forall idx : nat, output_filename <> segment_file_name speaker_label idx) ->
  extract_speaker_segments ffmpeg os_remove_fails
    speaker_label output_filename st = (Ret (Some o), st') ->
  o = output_filename /\
  is_Some (fs st' !! output_filename) /\
  fs st' !! list_file_name speaker_label = None /\
  forall c : ffmpeg_cmd,
    In (c, true) (drop (length (calls st)) (calls st')) ->
    c <> Concat (list_file_name speaker_label) output_filename ->
    fs st' !! output_of c = None.
Proof.
  intros Hdf Hlist Hclip Hrun.
  destruct (extract_speaker_segments_run ffmpeg os_remove_fails st df
              speaker_label output_filename Hdf)
    as (flags & st_cut & Hlen & Hself & Hcalls & Hout & Hkeep & Hclips & Heq).
  cbv zeta in Heq. rewrite Hrun in Heq.
  set (rows := filter_label speaker_label df) in *.
  set (clips := clip_files speaker_label flags rows) in *.
  destruct (is_empty clips); [discriminate|].
  destruct (ffmpeg _ _) as [c0|]; [|discriminate].
  match type of Heq with context [_cleanup_temp_files _ ?l ?s] =>
    destruct (cleanup_reliable l s) as [Hgone Hsame];
    destruct (cleanup_run os_remove_fails l s) as (st2 & Hclean & _ & Hcalls2 & _)
  end.
  rewrite Hclean in Heq, Hgone, Hsame. simpl in Hgone, Hsame, Hcalls2.
  injection Heq as -> ->.
  split; [reflexivity|]. split; [|split].
  - rewrite Hsame.
    + rewrite lookup_insert_eq. eauto.
    + intros Hin. apply in_app_or in Hin as [Hin|[Hin|[]]].
      * unfold clips, clip_files in Hin. apply in_map_iff in Hin as (ir & Hir & _).
        exact (Hclip (fst ir) (eq_sym Hir)).
      * exact (Hlist (eq_sym Hin)).
  - apply Hgone. apply in_or_app. right. now left.
  - intros c Hin Hc. apply Hgone. apply in_or_app. left.
    rewrite Hcalls2, Hcalls, <- app_assoc, drop_app_length in Hin.
    apply in_app_or in Hin as [Hin|[[= <-]|[]]]; [|contradiction].
    now apply (successful_cuts_are_clips (audio_file_path (self st))
                 speaker_label rows).
Qed.

End ReliableRemoval.

Lemma successful_extraction_leaves_only_the_output_third_of_five :
  (forall p files, remove_always_works p files = false) /\
  segments_df (self (loaded "Chrono-Sampling.wav" recording_10s
                       (Some five_male_table))) = Some five_male_table /\
  "male_voice_concatenated.wav" <> list_file_name "male" /\
  (forall idx : nat,
     "male_voice_concatenated.wav" <> segment_file_name "male" idx) /\
  male_extraction (writes_to "male_segment_2.wav") five_male_table =
    (Ret (Some "male_voice_concatenated.wav"),
     snd (male_extraction (writes_to "male_segment_2.wav") five_male_table)) /\
  "male_voice_concatenated.wav" = "male_voice_concatenated.wav" /\
  is_Some (fs (snd (male_extraction (writes_to "male_segment_2.wav")
                      five_male_table)) !! "male_voice_concatenated.wav") /\
  fs (snd (male_extraction (writes_to "male_segment_2.wav") five_male_table))
    !! list_file_name "male" = None /\
  forall c : ffmpeg_cmd,
    In (c, true)
       (drop (length (calls (loaded "Chrono-Sampling.wav" recording_10s
                               (Some five_male_table))))
             (calls (snd (male_extraction (writes_to "male_segment_2.wav")
                            five_male_table)))) ->
    c <> Concat (list_file_name "male") "male_voice_concatenated.wav" ->
    fs (snd (male_extraction (writes_to "male_segment_2.wav") five_male_table))
      !! output_of c = None.
Proof.
  assert (H0 : forall p files, remove_always_works p files = false)
    by reflexivity.
  assert (H1 : "male_voice_concatenated.wav" <> list_file_name "male")
    by discriminate.
  assert (H2 : forall idx : nat,
            "male_voice_concatenated.wav" <> segment_file_name "male" idx)
    by (intros idx; discriminate).
  assert (Hfst : fst (male_extraction (writes_to "male_segment_2.wav")
                        five_male_table) =
                 Ret (Some "male_voice_concatenated.wav")) by by_evaluation.
  assert (H3 : male_extraction (writes_to "male_segment_2.wav") five_male_table =
    (Ret (Some "male_voice_concatenated.wav"),
     snd (male_extraction (writes_to "male_segment_2.wav") five_male_table))).
  { rewrite <- Hfst. apply surjective_pairing. }
  split; [exact H0|]. split; [reflexivity|]. split; [exact H1|].
  split; [exact H2|]. split; [exact H3|].
  exact (successful_extraction_leaves_only_the_output
           (failing_ffmpeg (writes_to "male_segment_2.wav")) remove_always_works
           H0 (loaded "Chrono-Sampling.wav" recording_10s (Some five_male_table))
           _ five_male_table "male" "male_voice_concatenated.wav" _
           eq_refl H1 H2 H3).
Defined.

(** ** Cleaning up, mixing and archiving *)

(** [_cleanup_temp_files] never raises and runs no command.  Each listed
    file ends up removed, or a warning about it is on the console; every
    file that is not listed is exactly as it was; and no file is created. *)
Theorem cleanup_removes_or_warns
  (os_remove_fails : string -> gmap string content -> bool)
  (file_list : list string) (st : State) :
  exists st' : State,
    _cleanup_temp_files os_remove_fails file_list st = (Ret tt, st') /\
    self st' = self st /\ calls st' = calls st /\
    (forall p, In p file_list ->
               fs st' !! p = None \/ In (MsgCouldNotRemove p) (stdout st')) /\
    (forall p, ~ In p file_list -> fs st' !! p = fs st !! p) /\
    (forall p, fs st !! p = None -> fs st' !! p = None).
Proof.
  destruct (cleanup_run os_remove_fails file_list st)
    as (st' & Hrun & Hself & Hcalls & _ & Hnone & Hdone & Hother).
  exists st'. auto 10.
Qed.





(** Whenever [create_stereo_mix] returns absent it has written nothing; when
    an input file is missing it has not even run the merge command; and when
    it returns a file name, that file holds what the merge command produced
    and no other file has changed. *)
Theorem stereo_mix_writes_only_on_success
  (ffmpeg : ffmpeg_cmd -> gmap string content -> option content)
  (st st' : State) (male_file female_file output_filename : string)
  (r : option string) :
  create_stereo_mix ffmpeg male_file female_file output_filename st =
    (Ret r, st') ->
  (r = None -> fs st' = fs st) /\
  (~ (is_Some (fs st !! male_file) /\ is_Some (fs st !! female_file)) ->
   calls st' = calls st) /\
  (r <> None ->
   exists c,
     ffmpeg (Amerge male_file female_file output_filename) (fs st) = Some c /\
     fs st' = <[output_filename := c]> (fs st) /\
     calls st' =
       calls st ++ [(Amerge male_file female_file output_filename, true)]).
Proof.
  rewrite create_stereo_mix_run.
  destruct (decide (is_Some (fs st !! male_file))) as [Hm|Hm].
  2: { rewrite (bool_decide_eq_false_2 _ Hm). simpl. intros [= <- <-]. simpl.
       split; [reflexivity|]. split; [reflexivity|]. congruence. }
  destruct (decide (is_Some (fs st !! female_file))) as [Hf|Hf].
  2: { rewrite (bool_decide_eq_false_2 _ Hf), andb_false_r.
       intros [= <- <-]. simpl.
       split; [reflexivity|]. split; [reflexivity|]. congruence. }
  rewrite (bool_decide_eq_true_2 _ Hm), (bool_decide_eq_true_2 _ Hf). simpl.
  destruct (ffmpeg _ (fs st)) as [c|]; intros [= <- <-]; simpl.
  - split; [discriminate|]. split; [tauto|]. intros _. exists c. auto.
  - split; [reflexivity|]. split; [tauto|]. congruence.
Qed.

Lemma stereo_mix_writes_only_on_success_uneven :
  uneven_mix = (Ret (Some "stereo_mix.wav"), snd uneven_mix) /\
  (Some "stereo_mix.wav" = None -> fs (snd uneven_mix) = fs uneven_tracks) /\
  (~ (is_Some (fs uneven_tracks !! "male_voice_synced.wav") /\
      is_Some (fs uneven_tracks !! "female_voice_synced.wav")) ->
   calls (snd uneven_mix) = calls uneven_tracks) /\
  (Some "stereo_mix.wav" <> None ->
   exists c,
     reference_ffmpeg
       (Amerge "male_voice_synced.wav" "female_voice_synced.wav"
          "stereo_mix.wav") (fs uneven_tracks) = Some c /\
     fs (snd uneven_mix) = <["stereo_mix.wav" := c]> (fs uneven_tracks) /\
     calls (snd uneven_mix) =
       calls uneven_tracks ++
         [(Amerge "male_voice_synced.wav" "female_voice_synced.wav"
             "stereo_mix.wav", true)]).
Proof.
  assert (Hfst : fst uneven_mix = Ret (Some "stereo_mix.wav")) by by_evaluation.
  assert (Hrun : uneven_mix = (Ret (Some "stereo_mix.wav"), snd uneven_mix)).
  { rewrite <- Hfst. apply surjective_pairing. }
  split; [exact Hrun|].
  exact (stereo_mix_writes_only_on_success reference_ffmpeg uneven_tracks _
           "male_voice_synced.wav" "female_voice_synced.wav" "stereo_mix.wav"
           _ Hrun).
Defined.

(** ** What a method that returns a file name has left on disk *)

Section ReturnedFiles.

Variable ffmpeg : ffmpeg_cmd -> gmap string content -> option content.
Variable os_remove_fails : string -> gmap string content -> bool.
Variable glob : string -> gmap string content -> list string.
Variable wav_export :
  string -> AudioSegment -> gmap string content -> export_outcome.

Lemma extraction_returns_existing_output (st st' : State)
  (speaker_label output_filename o : string) :
  output_filename <> list_file_name speaker_label ->
  (forall idx : nat, output_filename <> segment_file_name speaker_label idx) ->
  extract_speaker_segments ffmpeg os_remove_fails
    speaker_label output_filename st = (Ret (Some o), st') ->
  o = output_filename /\ is_Some (fs st' !! output_filename).
Proof.
  intros Hlist Hclip Hrun.
  destruct (segments_df (self st)) as [df|] eqn:Hdf.
  2: { revert Hrun. unfold extract_speaker_segments, bind, get_self.
       rewrite Hdf. discriminate. }
  destruct (extract_speaker_segments_run ffmpeg os_remove_fails st df
              speaker_label output_filename Hdf)
    as (flags & st_cut & _ & _ & _ & _ & _ & _ & Heq).
  cbv zeta in Heq. rewrite Hrun in Heq.
  set (clips := clip_files speaker_label flags (filter_label speaker_label df)) in *.
  destruct (is_empty clips); [discriminate|].
  destruct (ffmpeg _ _) as [c0|]; [|discriminate].
  match type of Heq with context [_cleanup_temp_files _ ?l ?s] =>
    destruct (cleanup_run os_remove_fails l s)
      as (st2 & Hclean & _ & _ & _ & _ & _ & Hother)
  end.
  rewrite Hclean in Heq. simpl in Heq, Hother. injection Heq as -> ->.
  split; [reflexivity|]. rewrite Hother.
  - rewrite lookup_insert_eq. eauto.
  - intros Hin. apply in_app_or in Hin as [Hin|[Hin|[]]].
    + unfold clips, clip_files in Hin. apply in_map_iff in Hin as (ir & Hir & _).
      exact (Hclip (fst ir) (eq_sym Hir)).
    + exact (Hlist (eq_sym Hin)).
Qed.

Lemma synchronized_tracks_return_existing_files (st st' : State)
  (male_output female_output : string) (p : string * string) :
  create_synchronized_tracks wav_export male_output female_output st =
    (Ret p, st') ->
  p = (male_output, female_output) /\
  is_Some (fs st' !! male_output) /\ is_Some (fs st' !! female_output).
Proof.
  intros Hrun.
  destruct (create_synchronized_tracks_outcome wav_export st
              male_output female_output)
    as (r & st1 & Hrun' & _ & _ & _ & Hfs).
  rewrite Hrun in Hrun'. injection Hrun' as <- <-.
  destruct Hfs as [(e & He & _)|[(e & c & He & _)|[(e & c & m & He & _)|
                   (m & f & Hp & ->)]]]; try discriminate.
  injection Hp as ->. split; [reflexivity|]. split.
  - rewrite lookup_insert. case_decide; [eauto|]. rewrite lookup_insert_eq. eauto.
  - rewrite lookup_insert_eq. eauto.
Qed.

Lemma stereo_mix_returns_existing_file (st st' : State)
  (male_file female_file output_filename o : string) :
  create_stereo_mix ffmpeg male_file female_file output_filename st =
    (Ret (Some o), st') ->
  o = output_filename /\ is_Some (fs st' !! output_filename).
Proof.
  rewrite create_stereo_mix_run.
  destruct (_ && _); [|discriminate].
  destruct (ffmpeg _ (fs st)) as [c|]; [|discriminate].
  intros [= <- <-]. simpl. split; [reflexivity|].
  rewrite lookup_insert_eq. eauto.
Qed.

Lemma archive_loop_keeps_archive (archive_name : string)
  (segment_files : list string) :
  forall st st' r,
    archive_loop archive_name segment_files st = (r, st') ->
    is_Some (fs st !! archive_name) -> is_Some (fs st' !! archive_name).
Proof.
  induction segment_files as [|file rest IH]; intros st st' r; simpl.
  - unfold ret. now intros [= _ <-].
  - unfold bind, zip_write. destruct (fs st !! file) as [c|].
    + intros Hrun _. apply (IH _ _ _ Hrun). simpl.
      rewrite lookup_insert_eq. eauto.
    + now intros [= _ <-].
Qed.

Lemma archive_returns_existing_file (st st' : State) (speaker_label : string)
  (archive_name : option string) (o : string) :
  create_segment_archive glob speaker_label archive_name st =
    (Ret (Some o), st') ->
  o = archive_file_name speaker_label archive_name /\
  is_Some (fs st' !! archive_file_name speaker_label archive_name).
Proof.
  unfold create_segment_archive, bind, get_fs.
  destruct (is_empty _); [discriminate|].
  unfold print at 1, write_file. cbn [fst snd].
  set (st1 := with_fs _ _).
  destruct (archive_loop _ _ st1) as [[[]|e] st2] eqn:Hloop; [|discriminate].
  unfold print, ret. intros [= <- <-]. split; [reflexivity|]. simpl.
  apply (archive_loop_keeps_archive _ _ _ _ _ Hloop).
  unfold st1. simpl. rewrite lookup_insert_eq. eauto.
Qed.

End ReturnedFiles.

(** ** The complete workflow *)

Section WorkflowFacts.

Variable segment_audio : M (list Row).
Variable ffmpeg : ffmpeg_cmd -> gmap string content -> option content.
Variable os_remove_fails : string -> gmap string content -> bool.
Variable glob : string -> gmap string content -> list string.
Variable wav_export :
  string -> AudioSegment -> gmap string content -> export_outcome.

Lemma wbind_ret {A B : Type} (m : W A) (k : A -> W B) (run run' : Run) (b : B) :
  wbind m k run = (Ret b, run') ->
  exists a run1, m run = (Ret a, run1) /\ k a run1 = (Ret b, run').
Proof.
  unfold wbind. destruct (m run) as [[a|e] run1]; [eauto|discriminate].
Qed.

Lemma announce_run (b : banner) (run run' : Run) (u : unit) :
  announce b run = (Ret u, run') -> state run' = state run.
Proof. unfold announce. now intros [= _ <-]. Qed.

Lemma announce_files_run (results : list (string * string)) :
  forall (run run' : Run) (r : result unit),
    announce_files results run = (r, run') ->
    r = Ret tt /\ state run' = state run.
Proof.
  induction results as [|[key filepath] rest IH]; intros run run' r; simpl.
  - unfold wret. now intros [= <- <-].
  - unfold wbind, announce. intros Hrun. now apply IH in Hrun.
Qed.

Lemma call_run {A : Type} (m : M A) (run run' : Run) (r : result A) :
  call m run = (r, run') -> m (state run) = (r, state run').
Proof.
  unfold call. intros [= <- <-]. simpl. now destruct (m (state run)).
Qed.

Lemma listed_files_frame (allowed : list string)
  (results : list (string * string)) (run run' : Run) :
  (forall q, In q allowed ->
             fs (state run') !! q = fs (state run) !! q) ->
  listed_files_exist allowed results run ->
  listed_files_exist allowed results run'.
Proof.
  intros Hsame Hlisted. eapply Forall_impl; [exact Hlisted|].
  intros kv [Hin Hex]. split; [exact Hin|]. now rewrite Hsame.
Qed.

Lemma listed_files_more (allowed allowed' : list string)
  (results : list (string * string)) (run : Run) :
  (forall q, In q allowed -> In q allowed') ->
  listed_files_exist allowed results run ->
  listed_files_exist allowed' results run.
Proof.
  intros Hsub Hlisted. eapply Forall_impl; [exact Hlisted|].
  intros kv [Hin Hex]. auto.
Qed.

Lemma listed_files_add (allowed : list string)
  (results : list (string * string)) (run : Run) (key : string)
  (value : option string) :
  listed_files_exist allowed results run ->
  (forall v, value = Some v ->
             In v allowed /\ is_Some (fs (state run) !! v)) ->
  listed_files_exist allowed (add_result key value results) run.
Proof.
  intros Hlisted Hvalue. unfold add_result.
  destruct value as [v|]; [|exact Hlisted].
  destruct (String.eqb v ""); [exact Hlisted|].
  apply Forall_app. split; [exact Hlisted|].
  constructor; [|constructor]. simpl. now apply Hvalue.
Qed.

Lemma concatenated_step_files (create_concatenated : bool)
  (run run' : Run) (results : list (string * string)) :
  concatenated_step ffmpeg os_remove_fails create_concatenated [] run =
    (Ret results, run') ->
  listed_files_exist
    ["male_voice_concatenated.wav"; "female_voice_concatenated.wav"]
    results run'.
Proof.
  unfold concatenated_step. destruct create_concatenated.
  2: { unfold wret. intros [= <- <-]. constructor. }
  intros Hrun.
  apply wbind_ret in Hrun as (u & run1 & Hann & Hrun).
  apply announce_run in Hann.
  apply wbind_ret in Hrun as (male & run2 & Hmale & Hrun).
  apply call_run in Hmale.
  apply wbind_ret in Hrun as (female & run3 & Hfemale & Hrun).
  apply call_run in Hfemale.
  unfold wret in Hrun. injection Hrun as <- <-.
  apply listed_files_add; [apply listed_files_add; [constructor|]|].
  - intros v ->.
    destruct (extraction_returns_existing_output ffmpeg os_remove_fails
                _ _ "male" "male_voice_concatenated.wav" _
                ltac:(discriminate) ltac:(intros idx; discriminate) Hmale)
      as [-> Hex].
    split; [simpl; auto|].
    assert (Hframe := extraction_footprint ffmpeg os_remove_fails
               "female" "female_voice_concatenated.wav" (state run2)
               "male_voice_concatenated.wav").
    rewrite Hfemale in Hframe. cbn [snd] in Hframe. rewrite Hframe; [exact Hex|].
    intros [Heq|[Heq|[idx Heq]]]; discriminate.
  - intros v ->.
    destruct (extraction_returns_existing_output ffmpeg os_remove_fails
                _ _ "female" "female_voice_concatenated.wav" _
                ltac:(discriminate) ltac:(intros idx; discriminate) Hfemale)
      as [-> Hex].
    split; [simpl; auto|exact Hex].
Qed.

Lemma synchronized_step_files (create_synchronized : bool)
  (allowed : list string) (run run' : Run)
  (results results' : list (string * string)) :
  listed_files_exist allowed results run ->
  (forall q, In q allowed ->
             q <> "male_voice_synced.wav" /\ q <> "female_voice_synced.wav") ->
  synchronized_step wav_export create_synchronized results run =
    (Ret results', run') ->
  listed_files_exist
    (allowed ++ ["male_voice_synced.wav"; "female_voice_synced.wav"])
    results' run'.
Proof.
  intros Hlisted Hfresh. unfold synchronized_step.
  destruct create_synchronized.
  2: { unfold wret. intros [= <- <-].
       eapply listed_files_more; [|exact Hlisted].
       intros q Hq. apply in_or_app. now left. }
  intros Hrun.
  apply wbind_ret in Hrun as (u & run1 & Hann & Hrun).
  apply announce_run in Hann.
  apply wbind_ret in Hrun as (synced & run2 & Hsync & Hrun).
  apply call_run in Hsync. rewrite Hann in Hsync.
  unfold wret in Hrun. injection Hrun as <- <-.
  destruct (synchronized_tracks_return_existing_files wav_export _ _ _ _ _ Hsync)
    as (-> & Hmale & Hfemale).
  apply Forall_app. split.
  - eapply listed_files_more; [intros q Hq; apply in_or_app; left; exact Hq|].
    eapply Forall_impl; [exact Hlisted|]. intros kv [Hin Hex].
    split; [exact Hin|].
    assert (Hframe := proj1 (synchronized_tracks_footprint wav_export
                               "male_voice_synced.wav" "female_voice_synced.wav")
                            (state run) (snd kv)).
    rewrite Hsync in Hframe. cbn [snd] in Hframe. rewrite Hframe; [exact Hex|].
    destruct (Hfresh _ Hin). tauto.
  - repeat constructor; simpl; auto; apply in_or_app; right; simpl; auto.
Qed.

Lemma stereo_step_files (create_stereo create_synchronized : bool)
  (allowed : list string) (run run' : Run)
  (results results' : list (string * string)) :
  listed_files_exist allowed results run ->
  (forall q, In q allowed -> q <> "stereo_mix.wav") ->
  stereo_step ffmpeg create_stereo create_synchronized results run =
    (Ret results', run') ->
  listed_files_exist (allowed ++ ["stereo_mix.wav"]) results' run'.
Proof.
  intros Hlisted Hfresh. unfold stereo_step.
  destruct (create_stereo && create_synchronized).
  2: { unfold wret. intros [= <- <-].
       eapply listed_files_more; [|exact Hlisted].
       intros q Hq. apply in_or_app. now left. }
  intros Hrun.
  apply wbind_ret in Hrun as (u & run1 & Hann & Hrun).
  apply announce_run in Hann.
  destruct (results_lookup "male_synchronized" results) as [male_file|];
    [|discriminate].
  destruct (results_lookup "female_synchronized" results) as [female_file|];
    [|discriminate].
  apply wbind_ret in Hrun as (stereo & run2 & Hmix & Hrun).
  apply call_run in Hmix. rewrite Hann in Hmix.
  unfold wret in Hrun. injection Hrun as <- <-.
  apply listed_files_add.
  - eapply listed_files_more; [intros q Hq; apply in_or_app; left; exact Hq|].
    eapply Forall_impl; [exact Hlisted|]. intros kv [Hin Hex].
    split; [exact Hin|].
    assert (Hframe := proj1 (stereo_mix_footprint ffmpeg male_file female_file
                               "stereo_mix.wav") (state run) (snd kv)).
    rewrite Hmix in Hframe. cbn [snd] in Hframe. rewrite Hframe; [exact Hex|].
    now apply Hfresh.
  - intros v ->.
    destruct (stereo_mix_returns_existing_file ffmpeg _ _ _ _ _ _ Hmix)
      as [-> Hex].
    split; [apply in_or_app; right; simpl; auto | exact Hex].
Qed.

Lemma archive_step_files (create_archives : bool)
  (allowed : list string) (run run' : Run)
  (results results' : list (string * string)) :
  listed_files_exist allowed results run ->
  (forall q, In q allowed ->
             q <> "male_segments.zip" /\ q <> "female_segments.zip") ->
  archive_step glob create_archives results run = (Ret results', run') ->
  listed_files_exist (allowed ++ ["male_segments.zip"; "female_segments.zip"])
    results' run'.
Proof.
  intros Hlisted Hfresh. unfold archive_step.
  destruct create_archives.
  2: { unfold wret. intros [= <- <-].
       eapply listed_files_more; [|exact Hlisted].
       intros q Hq. apply in_or_app. now left. }
  intros Hrun.
  apply wbind_ret in Hrun as (u & run1 & Hann & Hrun).
  apply announce_run in Hann.
  apply wbind_ret in Hrun as (male & run2 & Hmale & Hrun).
  apply call_run in Hmale. rewrite Hann in Hmale.
  apply wbind_ret in Hrun as (female & run3 & Hfemale & Hrun).
  apply call_run in Hfemale.
  unfold wret in Hrun. injection Hrun as <- <-.
  assert (Hm := proj1 (archive_footprint glob "male" None) (state run)).
  rewrite Hmale in Hm. cbn [snd] in Hm.
  assert (Hf := proj1 (archive_footprint glob "female" None) (state run2)).
  rewrite Hfemale in Hf. cbn [snd] in Hf.
  apply listed_files_add; [apply listed_files_add|].
  - eapply listed_files_more; [intros q Hq; apply in_or_app; left; exact Hq|].
    eapply Forall_impl; [exact Hlisted|]. intros kv [Hin Hex].
    split; [exact Hin|]. destruct (Hfresh _ Hin) as [Hnm Hnf].
    rewrite Hf, Hm; [exact Hex | exact Hnm | exact Hnf].
  - intros v ->.
    destruct (archive_returns_existing_file glob _ _ _ _ _ Hmale) as [-> Hex].
    split; [apply in_or_app; right; simpl; auto|].
    rewrite Hf; [exact Hex|]. discriminate.
  - intros v ->.
    destruct (archive_returns_existing_file glob _ _ _ _ _ Hfemale) as [-> Hex].
    split; [apply in_or_app; right; simpl; auto | exact Hex].
Qed.

End WorkflowFacts.

(** Every file the result of the workflow lists is on disk. *)
Lemma workflow_files
  (segment_audio : M (list Row))
  (ffmpeg : ffmpeg_cmd -> gmap string content -> option content)
  (os_remove_fails : string -> gmap string content -> bool)
  (glob : string -> gmap string content -> list string)
  (wav_export : string -> AudioSegment -> gmap string content -> export_outcome)
  (create_concatenated create_synchronized create_stereo create_archives : bool)
  (run run' : Run) (results : list (string * string)) :
  process_complete_workflow segment_audio ffmpeg os_remove_fails glob wav_export
    create_concatenated create_synchronized create_stereo create_archives run =
    (Ret results, run') ->
  forall key filepath : string,
    In (key, filepath) results -> is_Some (fs (state run') !! filepath).
Proof.
  unfold process_complete_workflow.
  destruct (workflow_steps _ _ _ _ _ _ _ _ _ run) as [[results0|e] run0] eqn:Hsteps;
    [|discriminate].
  intros [= <- <-]. revert Hsteps. unfold workflow_steps. intros Hrun.
  apply wbind_ret in Hrun as (u1 & run1 & _ & Hrun).
  apply wbind_ret in Hrun as (df & run2 & _ & Hrun).
  apply wbind_ret in Hrun as (results2 & run3 & Hstep2 & Hrun).
  apply wbind_ret in Hrun as (results3 & run4 & Hstep3 & Hrun).
  apply wbind_ret in Hrun as (results4 & run5 & Hstep4 & Hrun).
  apply wbind_ret in Hrun as (results5 & run6 & Hstep5 & Hrun).
  apply wbind_ret in Hrun as (u7 & run7 & Hann7 & Hrun).
  apply wbind_ret in Hrun as (u8 & run8 & Hann8 & Hrun).
  apply wbind_ret in Hrun as (u9 & run9 & Hann9 & Hrun).
  unfold wret in Hrun. injection Hrun as <- <-.
  apply announce_run in Hann7, Hann8.
  apply announce_files_run in Hann9 as [_ Hann9].
  apply concatenated_step_files in Hstep2.
  eapply synchronized_step_files in Hstep3; [|exact Hstep2|].
  2: { intros q [<-|[<-|[]]]; split; discriminate. }
  eapply stereo_step_files in Hstep4; [|exact Hstep3|].
  2: { intros q [<-|[<-|[<-|[<-|[]]]]]; discriminate. }
  eapply archive_step_files in Hstep5; [|exact Hstep4|].
  2: { intros q [<-|[<-|[<-|[<-|[<-|[]]]]]]; split; discriminate. }
  intros key filepath Hin.
  rewrite Hann9, Hann8, Hann7.
  unfold listed_files_exist in Hstep5. rewrite Forall_forall in Hstep5.
  apply list_elem_of_In in Hin. exact (proj2 (Hstep5 _ Hin)).
Qed.

(** When [process_complete_workflow] returns, every file its result lists is
    on disk: whatever the flags, the segmentation and the external tools, no
    step removes or forgets to write a file that the result of the workflow
    names. *)
Theorem workflow_results_are_on_disk
  (segment_audio : M (list Row))
  (ffmpeg : ffmpeg_cmd -> gmap string content -> option content)
  (os_remove_fails : string -> gmap string content -> bool)
  (glob : string -> gmap string content -> list string)
  (wav_export : string -> AudioSegment -> gmap string content -> export_outcome)
  (create_concatenated create_synchronized create_stereo create_archives : bool)
  (run run' : Run) (results : list (string * string)) :
  process_complete_workflow segment_audio ffmpeg os_remove_fails glob wav_export
    create_concatenated create_synchronized create_stereo create_archives run =
    (Ret results, run') ->
  forall key filepath : string,
    In (key, filepath) results -> is_Some (fs (state run') !! filepath).
Proof. apply workflow_files. Qed.

Lemma workflow_results_are_on_disk_worked :
  worked_workflow =
    (Ret [ ("male_concatenated", "male_voice_concatenated.wav");
           ("female_concatenated", "female_voice_concatenated.wav");
           ("male_synchronized", "male_voice_synced.wav");
           ("female_synchronized", "female_voice_synced.wav");
           ("stereo_mix", "stereo_mix.wav") ],
     snd worked_workflow) /\
  forall key filepath : string,
    In (key, filepath)
       [ ("male_concatenated", "male_voice_concatenated.wav");
         ("female_concatenated", "female_voice_concatenated.wav");
         ("male_synchronized", "male_voice_synced.wav");
         ("female_synchronized", "female_voice_synced.wav");
         ("stereo_mix", "stereo_mix.wav") ] ->
    is_Some (fs (state (snd worked_workflow)) !! filepath).
Proof.
  assert (Hfst : fst worked_workflow =
    Ret [ ("male_concatenated", "male_voice_concatenated.wav");
          ("female_concatenated", "female_voice_concatenated.wav");
          ("male_synchronized", "male_voice_synced.wav");
          ("female_synchronized", "female_voice_synced.wav");
          ("stereo_mix", "stereo_mix.wav") ]) by by_evaluation.
  assert (Hrun : worked_workflow =
    (Ret [ ("male_concatenated", "male_voice_concatenated.wav");
           ("female_concatenated", "female_voice_concatenated.wav");
           ("male_synchronized", "male_voice_synced.wav");
           ("female_synchronized", "female_voice_synced.wav");
           ("stereo_mix", "stereo_mix.wav") ],
     snd worked_workflow)).
  { rewrite <- Hfst. apply surjective_pairing. }
  split; [exact Hrun|].
  exact (workflow_results_are_on_disk (segmentation_finding worked_table)
           reference_ffmpeg remove_always_works reference_glob
           export_always_works true true true true
           (fresh_run (loaded "Chrono-Sampling.wav" recording_10s None))
           _ _ Hrun).
Defined.

(** When the segmentation raises, [process_complete_workflow] prints the
    error and raises the same exception; no later step has run: the state is
    the one the segmentation left. *)
Theorem segmentation_failure_stops_the_workflow
  (segment_audio : M (list Row))
  (ffmpeg : ffmpeg_cmd -> gmap string content -> option content)
  (os_remove_fails : string -> gmap string content -> bool)
  (glob : string -> gmap string content -> list string)
  (wav_export : string -> AudioSegment -> gmap string content -> export_outcome)
  (create_concatenated create_synchronized create_stereo create_archives : bool)
  (run : Run) (e : exn) (st1 : State) :
  segment_audio (state run) = (Raise e, st1) ->
  process_complete_workflow segment_audio ffmpeg os_remove_fails glob wav_export
    create_concatenated create_synchronized create_stereo create_archives run =
    (Raise e,
     {| state := st1;
        banners := banners run ++
                     [ (length (stdout (state run)), BannerStep 1);
                       (length (stdout st1), BannerErrorDuringProcessing e) ] |}).
Proof.
  intros Hseg.
  unfold process_complete_workflow, workflow_steps, wbind, announce, call.
  cbn [state banners fst snd]. rewrite Hseg. cbn [state banners fst snd].
  now rewrite <- app_assoc.
Qed.

Lemma segmentation_failure_stops_the_workflow_undecodable :
  failing_segmentation
    (state (fresh_run (loaded "Chrono-Sampling.wav" recording_10s None))) =
    (Raise CouldntDecodeError,
     loaded "Chrono-Sampling.wav" recording_10s None) /\
  process_complete_workflow failing_segmentation
    reference_ffmpeg remove_always_works reference_glob export_always_works
    true true true true
    (fresh_run (loaded "Chrono-Sampling.wav" recording_10s None)) =
    (Raise CouldntDecodeError,
     {| state := loaded "Chrono-Sampling.wav" recording_10s None;
        banners :=
          banners (fresh_run (loaded "Chrono-Sampling.wav" recording_10s None))
          ++ [ (length (stdout (state (fresh_run
                                         (loaded "Chrono-Sampling.wav"
                                            recording_10s None)))),
                BannerStep 1);
               (length (stdout (loaded "Chrono-Sampling.wav" recording_10s None)),
                BannerErrorDuringProcessing CouldntDecodeError) ] |}).
Proof.
  split; [reflexivity|].
  exact (segmentation_failure_stops_the_workflow failing_segmentation
           reference_ffmpeg remove_always_works reference_glob
           export_always_works true true true true
           (fresh_run (loaded "Chrono-Sampling.wav" recording_10s None))
           CouldntDecodeError _ eq_refl).
Defined.


(** ** [main] *)

Section MainFacts.

Variable segment_audio : M (list Row).
Variable ffmpeg : ffmpeg_cmd -> gmap string content -> option content.
Variable os_remove_fails : string -> gmap string content -> bool.
Variable glob : string -> gmap string content -> list string.
Variable wav_export :
  string -> AudioSegment -> gmap string content -> export_outcome.

Lemma add_result_keeps (key : string) (value : option string)
  (results : list (string * string)) (kv : string * string) :
  In kv results -> In kv (add_result key value results).
Proof.
  intros Hin. unfold add_result. destruct value as [v|]; [|exact Hin].
  destruct (String.eqb v ""); [exact Hin|]. apply in_or_app. now left.
Qed.

Lemma stereo_step_keeps (create_stereo create_synchronized : bool)
  (run run' : Run) (results results' : list (string * string))
  (kv : string * string) :
  stereo_step ffmpeg create_stereo create_synchronized results run =
    (Ret results', run') ->
  In kv results -> In kv results'.
Proof.
  unfold stereo_step. destruct (create_stereo && create_synchronized).
  2: { unfold wret. now intros [= <- <-]. }
  intros Hrun Hin.
  apply wbind_ret in Hrun as (u & run1 & _ & Hrun).
  destruct (results_lookup "male_synchronized" results); [|discriminate].
  destruct (results_lookup "female_synchronized" results); [|discriminate].
  apply wbind_ret in Hrun as (stereo & run2 & _ & Hrun).
  unfold wret in Hrun. injection Hrun as <- <-. now apply add_result_keeps.
Qed.

Lemma archive_step_keeps (create_archives : bool)
  (run run' : Run) (results results' : list (string * string))
  (kv : string * string) :
  archive_step glob create_archives results run = (Ret results', run') ->
  In kv results -> In kv results'.
Proof.
  unfold archive_step. destruct create_archives.
  2: { unfold wret. now intros [= <- <-]. }
  intros Hrun Hin.
  apply wbind_ret in Hrun as (u & run1 & _ & Hrun).
  apply wbind_ret in Hrun as (male & run2 & _ & Hrun).
  apply wbind_ret in Hrun as (female & run3 & _ & Hrun).
  unfold wret in Hrun. injection Hrun as <- <-.
  now do 2 apply add_result_keeps.
Qed.

(** A workflow that was asked for the synchronized tracks and returns lists
    both of them. *)
Lemma workflow_lists_synchronized_tracks
  (create_concatenated create_stereo create_archives : bool)
  (run run' : Run) (results : list (string * string)) :
  process_complete_workflow segment_audio ffmpeg os_remove_fails glob wav_export
    create_concatenated true create_stereo create_archives run =
    (Ret results, run') ->
  In ("male_synchronized", "male_voice_synced.wav") results /\
  In ("female_synchronized", "female_voice_synced.wav") results.
Proof.
  unfold process_complete_workflow.
  destruct (workflow_steps _ _ _ _ _ _ _ _ _ run) as [[results0|e] run0] eqn:Hsteps;
    [|discriminate].
  intros [= <- <-]. revert Hsteps. unfold workflow_steps. intros Hrun.
  apply wbind_ret in Hrun as (u1 & run1 & _ & Hrun).
  apply wbind_ret in Hrun as (df & run2 & _ & Hrun).
  apply wbind_ret in Hrun as (results2 & run3 & _ & Hrun).
  apply wbind_ret in Hrun as (results3 & run4 & Hstep3 & Hrun).
  apply wbind_ret in Hrun as (results4 & run5 & Hstep4 & Hrun).
  apply wbind_ret in Hrun as (results5 & run6 & Hstep5 & Hrun).
  apply wbind_ret in Hrun as (u7 & run7 & _ & Hrun).
  apply wbind_ret in Hrun as (u8 & run8 & _ & Hrun).
  apply wbind_ret in Hrun as (u9 & run9 & _ & Hrun).
  unfold wret in Hrun. injection Hrun as <- <-.
  unfold synchronized_step in Hstep3.
  apply wbind_ret in Hstep3 as (u & runA & _ & Hstep3).
  apply wbind_ret in Hstep3 as (synced & runB & Hsync & Hstep3).
  apply call_run in Hsync.
  destruct (synchronized_tracks_return_existing_files wav_export _ _ _ _ _ Hsync)
    as (-> & _ & _).
  unfold wret in Hstep3. injection Hstep3 as <- <-.
  split.
  - eapply archive_step_keeps; [exact Hstep5|].
    eapply stereo_step_keeps; [exact Hstep4|].
    apply in_or_app. right. now left.
  - eapply archive_step_keeps; [exact Hstep5|].
    eapply stereo_step_keeps; [exact Hstep4|].
    apply in_or_app. right. right. now left.
Qed.

End MainFacts.

(** [main] never raises [FileNotFoundError]: that exception is printed and
    swallowed; any other exception of the workflow is printed, last of all,
    and raised again. *)
Theorem main_never_raises_a_missing_file
  (segment_audio : M (list Row))
  (ffmpeg : ffmpeg_cmd -> gmap string content -> option content)
  (os_remove_fails : string -> gmap string content -> bool)
  (glob : string -> gmap string content -> list string)
  (wav_export : string -> AudioSegment -> gmap string content -> export_outcome)
  (run run' : Run) (e : exn) :
  main segment_audio ffmpeg os_remove_fails glob wav_export run =
    (Raise e, run') ->
  is_FileNotFoundError e = false /\
  exists n, last (banners run') = Some (n, BannerProcessingError e).
Proof.
  unfold main, wbind, call, path_exists. cbn [fst snd state banners].
  destruct (bool_decide (is_Some (fs (state run) !! "Chrono-Sampling.wav"))).
  - cbn [negb].
    match goal with |- context [match ?m with _ => _ end] =>
      destruct m as [[u|e'] run1] eqn:Hbody
    end.
    + discriminate.
    + destruct (is_FileNotFoundError e') eqn:He.
      * unfold announce. discriminate.
      * intros [= <- <-]. split; [exact He|].
        unfold announce. cbn [snd banners]. eexists. apply last_snoc.
  - cbn [negb]. unfold announce, wret. discriminate.
Qed.

Lemma main_never_raises_a_missing_file_undecodable :
  undecodable_main = (Raise CouldntDecodeError, snd undecodable_main) /\
  is_FileNotFoundError CouldntDecodeError = false /\
  exists n,
    last (banners (snd undecodable_main)) =
      Some (n, BannerProcessingError CouldntDecodeError).
Proof.
  assert (Hfst : fst undecodable_main = Raise CouldntDecodeError)
    by by_evaluation.
  assert (Hrun : undecodable_main =
                 (Raise CouldntDecodeError, snd undecodable_main)).
  { rewrite <- Hfst. apply surjective_pairing. }
  split; [exact Hrun|].
  exact (main_never_raises_a_missing_file failing_segmentation
           reference_ffmpeg remove_always_works reference_glob
           export_always_works
           (fresh_run (loaded "Chrono-Sampling.wav" recording_10s None))
           _ _ Hrun).
Defined.

(** When the last line [main] prints is that all processing completed, it
    has returned normally and both synchronized tracks are on disk. *)
Theorem main_success_leaves_the_tracks_on_disk
  (segment_audio : M (list Row))
  (ffmpeg : ffmpeg_cmd -> gmap string content -> option content)
  (os_remove_fails : string -> gmap string content -> bool)
  (glob : string -> gmap string content -> list string)
  (wav_export : string -> AudioSegment -> gmap string content -> export_outcome)
  (run run' : Run) (r : result unit) (n : nat) :
  main segment_audio ffmpeg os_remove_fails glob wav_export run = (r, run') ->
  last (banners run') = Some (n, BannerAllCompleted) ->
  r = Ret tt /\
  is_Some (fs (state run') !! "male_voice_synced.wav") /\
  is_Some (fs (state run') !! "female_voice_synced.wav").
Proof.
  unfold main, wbind at 1, call, path_exists. cbn [fst snd state banners].
  destruct (bool_decide (is_Some (fs (state run) !! "Chrono-Sampling.wav"))).
  - cbn [negb].
    match goal with |- context [match ?m with _ => _ end] =>
      destruct m as [[u|e] run1] eqn:Hbody
    end.
    + intros [= <- <-] _.
      apply wbind_ret in Hbody as (u0 & runA & _ & Hbody).
      apply wbind_ret in Hbody as (results & runB & Hflow & Hbody).
      apply announce_run in Hbody. rewrite Hbody.
      destruct (workflow_lists_synchronized_tracks _ _ _ _ _ _ _ _ _ _ _ Hflow)
        as [Hmale Hfemale].
      split; [now destruct u|].
      split; eapply workflow_files; eauto.
    + destruct (is_FileNotFoundError e).
      * unfold announce. intros [= <- <-]. cbn [banners].
        rewrite last_snoc. discriminate.
      * intros [= <- <-]. unfold announce. cbn [snd banners].
        rewrite last_snoc. discriminate.
  - cbn [negb]. unfold wbind, announce, wret. cbn [state banners].
    intros [= <- <-]. cbn [banners]. rewrite last_snoc. discriminate.
Qed.

Lemma main_success_leaves_the_tracks_on_disk_worked :
  worked_main = (Ret tt, snd worked_main) /\
  last (banners (snd worked_main)) = Some (14%nat, BannerAllCompleted) /\
  Ret tt = Ret tt /\
  is_Some (fs (state (snd worked_main)) !! "male_voice_synced.wav") /\
  is_Some (fs (state (snd worked_main)) !! "female_voice_synced.wav").
Proof.
  assert (Hfst : fst worked_main = Ret tt) by by_evaluation.
  assert (Hrun : worked_main = (Ret tt, snd worked_main)).
  { rewrite <- Hfst. apply surjective_pairing. }
  assert (Hlast : last (banners (snd worked_main)) =
                  Some (14%nat, BannerAllCompleted)) by by_evaluation.
  split; [exact Hrun|]. split; [exact Hlast|].
  exact (main_success_leaves_the_tracks_on_disk
           (segmentation_finding worked_table)
           reference_ffmpeg remove_always_works reference_glob
           export_always_works
           (fresh_run (loaded "Chrono-Sampling.wav" recording_10s None))
           _ _ _ Hrun Hlast).
Defined.
